(** * Statement instrumentation (pkg/sql/instrumentation.go)

    A shallow embedding of [instrumentationHelper]: the controller that
    decides, per statement, whether a full-recording trace span is needed
    ([Setup]) and that, once the statement has run, stops the span, builds a
    diagnostics bundle, writes EXPLAIN ANALYZE output and folds network
    statistics into the per-fingerprint record ([Finish]).

    The helper is a Go struct mutated through a pointer receiver: methods
    take the helper value and return the updated one.  Calls into other
    packages (tracing, stmtdiagnostics, telemetry, execstats, the command
    result, the statistics record) are effects: they are threaded through a
    state-and-trace monad [M] whose state is the tracer's span table and
    whose output is the ordered list of collaborator calls. *)

From Stdlib Require Import ZArith Lia.
From stdpp Require Import base list strings pretty.

Open Scope string_scope.
Open Scope list_scope.
Open Scope stdpp_scope.

(** ** Values of other packages *)

(** A non-nil Go [error], carried by its [Error()] text; [nil] is [None]. *)
Definition error := string.

(** [tracing.Recording]: the recorded spans of a trace. *)
Definition Recording := list string.

(** [stmtdiagnostics.RequestID] and [roachpb.NodeID] are integers. *)
Definition RequestID := Z.
Definition NodeID := Z.

(** Go function values ([func()], [func(trace, stmt)]) are opaque: a value
    is carried by an identifier, and calling it is a recorded call. *)
Definition Callback := nat.

(** Handles for values the helper only stores and passes on. *)
Definition SQLCodec := nat.
Definition EvalContext := nat.
Definition Plan := nat.                 (* explain.Plan *)
Definition PlanDistribution := nat.     (* physicalplan.PlanDistribution *)
Definition Placeholders := list string. (* tree.PlaceholderInfo *)
Definition DB := nat.                   (* kv.DB *)
Definition InternalExecutor := nat.
Definition ExplainTreePlanNode := list string. (* roachpb.ExplainTreePlanNode *)

(** [tree.Statement]: the zero [tree.ExplainAnalyze] statement that
    [setExplainAnalyzePlanResult] installs, or any other statement by its
    text. *)
Inductive Statement :=
| ExplainAnalyze
| SQLStatement (text : string).

(** [tree.Datum]; only string datums are built here ([tree.NewDString]). *)
Inductive Datum :=
| DString (s : string).
Definition Datums := list Datum.

(** [colinfo.ResultColumns]; only the named schema is used here. *)
Inductive ResultColumns :=
| ExplainPlanColumns.

(** [explain.Flags], with the fields this file sets. *)
Record Flags := {
  Verbose : bool;
  ShowTypes : bool;
  HideValues : bool
}.

(** [outputMode] indicates how the statement output needs to be populated. *)
Inductive outputMode :=
| unmodifiedOutput
| explainAnalyzeDebugOutput
| explainAnalyzePlanOutput.

Definition outputMode_eqb (a b : outputMode) : bool :=
  match a, b with
  | unmodifiedOutput, unmodifiedOutput => true
  | explainAnalyzeDebugOutput, explainAnalyzeDebugOutput => true
  | explainAnalyzePlanOutput, explainAnalyzePlanOutput => true
  | _, _ => false
  end.

(** ** Time and phase times *)

(** [time.Time] as nanoseconds since the zero time [time.Time{}];
    [time.Duration] as nanoseconds. *)
Definition Time := Z.
Definition Duration := Z.
Definition Microsecond : Duration := 1000%Z.
Definition Time_zero : Time := 0%Z.
Definition Time_Add (t : Time) (d : Duration) : Time := (t + d)%Z.

(** [phaseTimes] is indexed by phase; the phases named in this file. *)
Record phaseTimes := {
  sessionQueryReceived : Time;
  sessionStartParse : Time;
  sessionEndParse : Time;
  plannerStartLogicalPlan : Time;
  plannerEndLogicalPlan : Time;
  plannerStartExecStmt : Time;
  plannerEndExecStmt : Time
}.

Definition deterministicPhaseTimes : phaseTimes := {|
  sessionQueryReceived := Time_zero;
  sessionStartParse := Time_zero;
  sessionEndParse := Time_Add Time_zero (1 * Microsecond)%Z;
  plannerStartLogicalPlan := Time_Add Time_zero (1 * Microsecond)%Z;
  plannerEndLogicalPlan := Time_Add Time_zero (11 * Microsecond)%Z;
  plannerStartExecStmt := Time_Add Time_zero (11 * Microsecond)%Z;
  plannerEndExecStmt := Time_Add Time_zero (111 * Microsecond)%Z
|}.

Record sqlStatsCollector := {
  sc_phaseTimes : phaseTimes
}.

(** ** The tracer: spans are shared objects reached through pointers *)

(** A [*tracing.Span] is an index into the span table. *)
Abbreviation SpanPtr := nat (only parsing).

Record Span := {
  operation : string;
  snowball : bool;        (* full-recording ("snowball") span *)
  finished : nat;         (* how many times Finish() ran on the span *)
  recording : Recording
}.

(** [context.Context], as far as spans are attached to it; [NilContext] is
    the nil interface value. *)
Inductive GoContext :=
| NilContext
| Background
| ContextWithSpan (parent : GoContext) (sp : SpanPtr).

(** ** int64 arithmetic *)

Definition wrap64 (z : Z) : Z := ((z + 2 ^ 63) mod 2 ^ 64 - 2 ^ 63)%Z.
Definition add64 (a b : Z) : Z := wrap64 (a + b).
Definition in_int64 (z : Z) : Prop := (- 2 ^ 63 <= z < 2 ^ 63)%Z.

(** [o == nil] for a pointer, function or error value. *)
Definition is_nil {A} (o : option A) : bool :=
  match o with None => true | Some _ => false end.

(** ** Collaborator calls *)

Definition stmtStatsPtr := nat.

(** Modelled from the spec: [diagnosticsBundle] (explain_bundle.go) is not
    in this file.  The bundle is the artifact assembled from the plan text,
    the trace recording and the parameters that the call in [Finish]
    passes. *)
Record diagnosticsBundle := {
  b_plan : string;
  b_trace : Recording;
  b_placeholders : Placeholders
}.

(** One constructor per call that [Setup], [Finish] and [PlanForStats] make
    on a collaborator, with the arguments that matter and, where the call
    returns an error, the error it returned.  [EvRecord] carries the int64
    total that [Finish] converts to float64 for [NumericStat.Record]. *)
Inductive Event :=
| EvShouldCollectDiagnostics (fingerprint : string)
| EvShouldSaveLogicalPlanDescription (fingerprint : string) (implicitTxn : bool)
| EvStartSnowballTrace (opName : string) (sp : SpanPtr)
| EvSpanFinish (sp : SpanPtr)
| EvSpanGetRecording (sp : SpanPtr)
| EvBuildStatementBundle (planString : string) (trace : Recording)
    (placeholders : Placeholders)
| EvBundleInsert (fingerprint : string) (ast : Statement) (requestID : RequestID)
| EvFinishCollectionDiagnostics (f : Callback)
| EvTelemetryInc
| EvSetExplainBundleResult (bundle : diagnosticsBundle) (commErr : option error)
| EvWithStatementTrace (f : Callback) (trace : Recording) (stmt : string)
| EvResetStmtType (stmt : Statement)
| EvSetColumns (cols : ResultColumns)
| EvErr (err : option error)
| EvAddRow (row : Datums) (commErr : option error)
| EvGetStatsForStmt (fingerprint : string) (implicitTxn : bool)
    (err : option error) (createIfNonexistent : bool)
| EvAddTrace (trace : Recording) (err : option error)
| EvGetNetworkBytesSent (err : option error)
| EvVInfof (level : Z) (format : string) (ast : Statement) (err : error)
| EvWarningf (format : string) (err : error)
| EvLock (s : stmtStatsPtr)
| EvRecord (s : stmtStatsPtr) (count : Z) (val : Z)
| EvUnlock (s : stmtStatsPtr).

(** ** The effect monad: span table as state, collaborator calls as output *)

Definition M (A : Type) : Type := list Span -> A * list Span * list Event.

Definition ret {A} (a : A) : M A := fun t => (a, t, []).

Definition bind {A B} (m : M A) (f : A -> M B) : M B :=
  fun t =>
    let '(a, t1, e1) := m t in
    let '(b, t2, e2) := f a t1 in
    (b, t2, e1 ++ e2).

Definition emit (e : Event) : M unit := fun t => (tt, t, [e]).

Declare Scope m_scope.
Delimit Scope m_scope with M.
Notation "x <- c ;; k" := (bind c (fun x => k))
  (at level 100, c at next level, right associativity) : m_scope.
Notation "c ;;; k" := (bind c (fun _ => k))
  (at level 100, right associativity) : m_scope.
Open Scope m_scope.

Definition value {A} (r : A * list Span * list Event) : A := fst (fst r).
Definition spans {A} (r : A * list Span * list Event) : list Span := snd (fst r).
Definition calls {A} (r : A * list Span * list Event) : list Event := snd r.

(** A computation that neither reads nor changes the span table. *)
Definition stateless {A} (m : M A) : Prop :=
  forall t, m t = (value (m []), t, calls (m [])).

(** [tracing.StartSnowballTrace]: a fresh full-recording span, and the
    context carrying it. *)
Definition newSnowballSpan (opName : string) : Span :=
  {| operation := opName; snowball := true; finished := 0; recording := [] |}.

Definition StartSnowballTrace (ctx : GoContext) (opName : string)
  : M (GoContext * SpanPtr) :=
  fun t =>
    let sp := length t in
    ((ContextWithSpan ctx sp, sp), t ++ [newSnowballSpan opName],
     [EvStartSnowballTrace opName sp]).

Definition finish_span (s : Span) : Span :=
  {| operation := operation s; snowball := snowball s;
     finished := S (finished s); recording := recording s |}.

(** [Finish] of [tracing.Span].  A span pointer held by the helper always
    indexes the table; on any other index nothing changes. *)
Definition Span_Finish (sp : SpanPtr) : M unit :=
  fun t => (tt, alter finish_span sp t, [EvSpanFinish sp]).

(** [GetRecording] of [tracing.Span]. *)
Definition recordingOf (sp : SpanPtr) (t : list Span) : Recording :=
  match t !! sp with Some s => recording s | None => [] end.

Definition Span_GetRecording (sp : SpanPtr) : M Recording :=
  fun t => (recordingOf sp t, t, [EvSpanGetRecording sp]).

(** ** Collaborators passed as arguments *)

(** [stmtdiagnostics.Registry]: [ShouldCollectDiagnostics] answers
    (collect, request id, completion callback). *)
Record Registry := {
  ShouldCollectDiagnostics :
    GoContext -> string -> bool * RequestID * option Callback
}.

Record ExecutorTestingKnobs := {
  WithStatementTrace : option Callback;
  DeterministicExplainAnalyze : bool
}.

Record ExecutorConfig := {
  Codec : SQLCodec;
  cfg_DB : DB;
  StmtDiagnosticsRecorder : Registry;
  TestingKnobs : ExecutorTestingKnobs
}.

(** [appStats]: the per-application statistics.  [getStatsForStmt] returns
    a pointer to the statement's cumulative record, or nil. *)
Record appStats := {
  shouldSaveLogicalPlanDescription : string -> bool -> bool;
  getStatsForStmt :
    string -> bool -> option error -> bool -> option stmtStatsPtr
}.

(** [execstats.TraceAnalyzer] of one distributed flow.  The analyzer is
    stateful: what [GetNetworkBytesSent] answers depends on the trace that
    was added, so it is a function of that trace.  The answer is a Go map
    from node to bytes, carried as its entries in iteration order. *)
Record TraceAnalyzer := {
  AddTrace : Recording -> option error;
  GetNetworkBytesSent : Recording -> error + list (NodeID * Z)
}.

Record flowInfo := {
  analyzer : TraceAnalyzer
}.

Record planTop := {
  distSQLFlowInfos : list flowInfo
}.

Record extendedEvalContext := {
  ctx_InternalExecutor : InternalExecutor;
  ctx_Placeholders : Placeholders
}.

Record planner := {
  p_EvalContext : EvalContext;
  extendedEvalCtx : extendedEvalContext;
  curPlan : planTop
}.

(** ** Interfaces whose implementations live in other files *)

(** [RestrictedCommandResult]: the statement result being written to the
    client.  [AddRow] returns a communication error when the row cannot be
    sent. *)
Class RestrictedCommandResult (R : Type) := {
  ResetStmtType : R -> Statement -> R;
  SetColumns : R -> GoContext -> ResultColumns -> R;
  Err : R -> option error;
  AddRow : R -> GoContext -> Datums -> R * option error
}.

(** [setExplainBundleResult] (explain_bundle.go) writes the bundle-locator
    result of EXPLAIN ANALYZE (DEBUG) and returns a communication error, if
    any. *)
Class ExplainBundle (R : Type) := {
  setExplainBundleResult :
    GoContext -> R -> diagnosticsBundle -> ExecutorConfig -> R * option error
}.

(** The [explain] package's output builder and [emitExplain]. *)
Class Explain := {
  OutputBuilder : Type;
  NewOutputBuilder : Flags -> OutputBuilder;
  AddField : OutputBuilder -> string -> string -> OutputBuilder;
  BuildString : OutputBuilder -> string;
  BuildStringRows : OutputBuilder -> list string;
  BuildProtoTree : OutputBuilder -> ExplainTreePlanNode;
  emitExplain :
    OutputBuilder -> option EvalContext -> SQLCodec -> Plan ->
    PlanDistribution -> bool -> OutputBuilder * option error
}.

(** Latencies derived from [phaseTimes], and [time.Duration]'s [Round] and
    [String]. *)
Class PhaseTimer := {
  getPlanningLatency : phaseTimes -> Duration;
  getRunLatency : phaseTimes -> Duration;
  Duration_Round : Duration -> Duration -> Duration;
  Duration_String : Duration -> string
}.

(** ** The helper *)

Record instrumentationHelper := mkHelper {
  ih_outputMode : outputMode;
  ih_explainFlags : Flags;
  ih_fingerprint : string;
  ih_implicitTxn : bool;
  ih_codec : SQLCodec;
  ih_collectBundle : bool;
  ih_discardRows : bool;
  ih_diagRequestID : RequestID;
  ih_finishCollectionDiagnostics : option Callback;
  ih_withStatementTrace : option Callback;
  ih_sp : option SpanPtr;
  ih_origCtx : GoContext;
  ih_evalCtx : option EvalContext;
  ih_savePlanForStats : bool;
  ih_explainPlan : option Plan;
  ih_distribution : PlanDistribution;
  ih_vectorized : bool
}.

(** The zero value of the struct. *)
Definition zeroHelper : instrumentationHelper :=
  mkHelper unmodifiedOutput (Build_Flags false false false) "" false 0
    false false 0%Z None None None NilContext None false None 0 false.

(** Field assignments [ih.f = v]. *)
Definition set_outputMode v '(mkHelper a b c d e f g h i j k l m n o p q) :=
  mkHelper v b c d e f g h i j k l m n o p q.
Definition set_explainFlags v '(mkHelper a b c d e f g h i j k l m n o p q) :=
  mkHelper a v c d e f g h i j k l m n o p q.
Definition set_fingerprint v '(mkHelper a b c d e f g h i j k l m n o p q) :=
  mkHelper a b v d e f g h i j k l m n o p q.
Definition set_implicitTxn v '(mkHelper a b c d e f g h i j k l m n o p q) :=
  mkHelper a b c v e f g h i j k l m n o p q.
Definition set_codec v '(mkHelper a b c d e f g h i j k l m n o p q) :=
  mkHelper a b c d v f g h i j k l m n o p q.
Definition set_collectBundle v '(mkHelper a b c d e f g h i j k l m n o p q) :=
  mkHelper a b c d e v g h i j k l m n o p q.
Definition set_discardRows v '(mkHelper a b c d e f g h i j k l m n o p q) :=
  mkHelper a b c d e f v h i j k l m n o p q.
Definition set_diagRequestID v '(mkHelper a b c d e f g h i j k l m n o p q) :=
  mkHelper a b c d e f g v i j k l m n o p q.
Definition set_finishCollectionDiagnostics v
    '(mkHelper a b c d e f g h i j k l m n o p q) :=
  mkHelper a b c d e f g h v j k l m n o p q.
Definition set_withStatementTrace v
    '(mkHelper a b c d e f g h i j k l m n o p q) :=
  mkHelper a b c d e f g h i v k l m n o p q.
Definition set_sp v '(mkHelper a b c d e f g h i j k l m n o p q) :=
  mkHelper a b c d e f g h i j v l m n o p q.
Definition set_origCtx v '(mkHelper a b c d e f g h i j k l m n o p q) :=
  mkHelper a b c d e f g h i j k v m n o p q.
Definition set_evalCtx v '(mkHelper a b c d e f g h i j k l m n o p q) :=
  mkHelper a b c d e f g h i j k l v n o p q.
Definition set_savePlanForStats v
    '(mkHelper a b c d e f g h i j k l m n o p q) :=
  mkHelper a b c d e f g h i j k l m v o p q.
Definition set_explainPlan v '(mkHelper a b c d e f g h i j k l m n o p q) :=
  mkHelper a b c d e f g h i j k l m n v p q.
Definition set_distribution v '(mkHelper a b c d e f g h i j k l m n o p q) :=
  mkHelper a b c d e f g h i j k l m n o v q.
Definition set_vectorized v '(mkHelper a b c d e f g h i j k l m n o p q) :=
  mkHelper a b c d e f g h i j k l m n o p v.

Definition SetOutputMode (ih : instrumentationHelper)
    (mode : outputMode) (explainFlags : Flags) : instrumentationHelper :=
  set_explainFlags explainFlags (set_outputMode mode ih).

(** [Setup] potentially enables snowball tracing for the statement. *)
Definition Setup (ih : instrumentationHelper) (ctx : GoContext)
    (cfg : ExecutorConfig) (stats : appStats) (p : planner)
    (stmtDiagnosticsRecorder : Registry)
    (fingerprint : string) (implicitTxn : bool)
  : M (instrumentationHelper * (GoContext * bool)) :=
  let ih := set_fingerprint fingerprint ih in
  let ih := set_implicitTxn implicitTxn ih in
  let ih := set_codec (Codec cfg) ih in
  ih <- match ih_outputMode ih with
        | explainAnalyzeDebugOutput =>
            ret (set_discardRows true (set_collectBundle true ih))
        | explainAnalyzePlanOutput =>
            ret (set_discardRows true ih)
        | unmodifiedOutput =>
            emit (EvShouldCollectDiagnostics fingerprint) ;;;
            let '(collect, id, done) :=
              ShouldCollectDiagnostics stmtDiagnosticsRecorder ctx fingerprint in
            ret (set_finishCollectionDiagnostics done
                   (set_diagRequestID id (set_collectBundle collect ih)))
        end ;;
  let ih := set_withStatementTrace (WithStatementTrace (TestingKnobs cfg)) ih in
  emit (EvShouldSaveLogicalPlanDescription fingerprint implicitTxn) ;;;
  let ih := set_savePlanForStats
              (shouldSaveLogicalPlanDescription stats fingerprint implicitTxn)
              ih in
  if negb (ih_collectBundle ih)
     && is_nil (ih_withStatementTrace ih)
     && outputMode_eqb (ih_outputMode ih) unmodifiedOutput
  then ret (ih, (ctx, false))
  else
    let ih := set_origCtx ctx ih in
    let ih := set_evalCtx (Some (p_EvalContext p)) ih in
    r <- StartSnowballTrace ctx "traced statement" ;;
    ret (set_sp (Some (snd r)) ih, (fst r, true)).

Definition SetDiscardRows (ih : instrumentationHelper) : instrumentationHelper :=
  set_discardRows true ih.

Definition ShouldDiscardRows (ih : instrumentationHelper) : bool :=
  ih_discardRows ih.

Definition ShouldCollectBundle (ih : instrumentationHelper) : bool :=
  ih_collectBundle ih.

Definition ShouldBuildExplainPlan (ih : instrumentationHelper) : bool :=
  ih_collectBundle ih || ih_savePlanForStats ih
  || outputMode_eqb (ih_outputMode ih) explainAnalyzePlanOutput.

Definition RecordExplainPlan (ih : instrumentationHelper) (explainPlan : Plan)
  : instrumentationHelper :=
  set_explainPlan (Some explainPlan) ih.

Definition RecordPlanInfo (ih : instrumentationHelper)
    (distribution : PlanDistribution) (vectorized : bool)
  : instrumentationHelper :=
  set_vectorized vectorized (set_distribution distribution ih).

(** Modelled from the spec: [buildStatementBundle] is not in this file; it
    assembles the bundle from the plan text, the trace recording and the
    parameters.  The call is recorded with these three arguments. *)
Definition buildStatementBundle (ctx : GoContext) (db : DB)
    (ie : InternalExecutor) (plan : planTop) (planString : string)
    (trace : Recording) (placeholders : Placeholders) : M diagnosticsBundle :=
  emit (EvBuildStatementBundle planString trace placeholders) ;;;
  ret {| b_plan := planString; b_trace := trace;
         b_placeholders := placeholders |}.

Definition experimentalWarning : string :=
  "WARNING: this statement is experimental!".

(** The range loop over a map of bytes sent by node:
    [networkBytesSent += bytesSentByNode]. *)
Definition addBytesByNode (networkBytesSent : Z) (byNode : list (NodeID * Z)) : Z :=
  fold_left (fun acc entry => add64 acc (snd entry)) byNode networkBytesSent.

(** The loop over [p.curPlan.distSQLFlowInfos] in [Finish]. *)
Fixpoint analyzeFlows (ast : Statement) (trace : Recording)
    (flows : list flowInfo) (networkBytesSent : Z) : M Z :=
  match flows with
  | [] => ret networkBytesSent
  | flow :: flows =>
      let err := AddTrace (analyzer flow) trace in
      emit (EvAddTrace trace err) ;;;
      match err with
      | Some err =>
          emit (EvVInfof 1 "error analyzing trace statistics for stmt %s: %v"
                  ast err) ;;;
          analyzeFlows ast trace flows networkBytesSent
      | None =>
          match GetNetworkBytesSent (analyzer flow) trace with
          | inl err =>
              emit (EvGetNetworkBytesSent (Some err)) ;;;
              emit (EvVInfof 1
                      "error calculating network bytes sent for stmt %s: %v"
                      ast err) ;;;
              analyzeFlows ast trace flows networkBytesSent
          | inr byNode =>
              emit (EvGetNetworkBytesSent None) ;;;
              analyzeFlows ast trace flows
                (addBytesByNode networkBytesSent byNode)
          end
      end
  end.

Section Helper.
Context {E : Explain} {PT : PhaseTimer}.
Context {R : Type} {CR : RestrictedCommandResult R} {EB : ExplainBundle R}.

(** [PlanForStats] returns the plan as a tree, if it was collected. *)
Definition PlanForStats (ih : instrumentationHelper) (ctx : GoContext)
  : M (option ExplainTreePlanNode) :=
  match ih_explainPlan ih with
  | None => ret None
  | Some plan =>
      let ob := NewOutputBuilder
                  {| Verbose := false; ShowTypes := false;
                     HideValues := true |} in
      let r := emitExplain ob (ih_evalCtx ih) (ih_codec ih) plan
                 (ih_distribution ih) (ih_vectorized ih) in
      match snd r with
      | Some err =>
          emit (EvWarningf "unable to emit explain plan tree: %v" err) ;;;
          ret None
      | None => ret (Some (BuildProtoTree (fst r)))
      end
  end.

(** [planStringForBundle] generates the plan tree as a string. *)
Definition planStringForBundle (ih : instrumentationHelper) : string :=
  match ih_explainPlan ih with
  | None => ""
  | Some plan =>
      let ob := NewOutputBuilder
                  {| Verbose := true; ShowTypes := true;
                     HideValues := false |} in
      let r := emitExplain ob (ih_evalCtx ih) (ih_codec ih) plan
                 (ih_distribution ih) (ih_vectorized ih) in
      match snd r with
      | Some err => "error emitting plan: " +:+ err
      | None => BuildString (fst r)
      end
  end.

(** The output builder after the two header fields were added. *)
Definition explainAnalyzeHeader (flags : Flags) (pt : phaseTimes)
  : OutputBuilder :=
  let ob := NewOutputBuilder flags in
  let ob := AddField ob "planning time"
              (Duration_String
                 (Duration_Round (getPlanningLatency pt) Microsecond)) in
  AddField ob "execution time"
    (Duration_String (Duration_Round (getRunLatency pt) Microsecond)).

(** [planRowsForExplainAnalyze] generates the plan tree as a list of
    strings, one for each line. *)
Definition planRowsForExplainAnalyze (ih : instrumentationHelper)
    (pt : phaseTimes) : list string :=
  match ih_explainPlan ih with
  | None => []
  | Some plan =>
      let ob := explainAnalyzeHeader (ih_explainFlags ih) pt in
      let r := emitExplain ob (ih_evalCtx ih) (ih_codec ih) plan
                 (ih_distribution ih) (ih_vectorized ih) in
      match snd r with
      | Some err => ["error emitting plan: " +:+ err]
      | None => BuildStringRows (fst r)
      end
  end.

(** The loop [for _, row := range rows] of [setExplainAnalyzePlanResult]:
    it returns at the first [AddRow] error. *)
Fixpoint addRows (ctx : GoContext) (res : R) (rows : list string)
  : M (R * option error) :=
  match rows with
  | [] => ret (res, None)
  | row :: rows =>
      let r := AddRow res ctx [DString row] in
      emit (EvAddRow [DString row] (snd r)) ;;;
      match snd r with
      | Some err => ret (fst r, Some err)
      | None => addRows ctx (fst r) rows
      end
  end.

(** [setExplainAnalyzePlanResult] sets the result for an EXPLAIN ANALYZE
    (PLAN) statement.  It returns an error only if there was an error
    adding rows to the result. *)
Definition setExplainAnalyzePlanResult (ih : instrumentationHelper)
    (ctx : GoContext) (res : R) (pt : phaseTimes) : M (R * option error) :=
  let res := ResetStmtType res ExplainAnalyze in
  emit (EvResetStmtType ExplainAnalyze) ;;;
  let res := SetColumns res ctx ExplainPlanColumns in
  emit (EvSetColumns ExplainPlanColumns) ;;;
  emit (EvErr (Err res)) ;;;
  if negb (is_nil (Err res)) then ret (res, None)
  else
    let rows := planRowsForExplainAnalyze ih pt in
    let rows := rows ++ [""] in
    let rows := rows ++ [experimentalWarning] in
    addRows ctx res rows.

(** The [if ih.collectBundle] block of [Finish]. *)
Definition finishBundle (ih : instrumentationHelper) (cfg : ExecutorConfig)
    (p : planner) (ast : Statement) (trace : Recording)
    (res : R) (retErr : option error) : M (R * option error) :=
  if ih_collectBundle ih then
    bundle <- buildStatementBundle (ih_origCtx ih) (cfg_DB cfg)
                (ctx_InternalExecutor (extendedEvalCtx p)) (curPlan p)
                (planStringForBundle ih) trace
                (ctx_Placeholders (extendedEvalCtx p)) ;;
    emit (EvBundleInsert (ih_fingerprint ih) ast (ih_diagRequestID ih)) ;;;
    match ih_finishCollectionDiagnostics ih with
    | Some done =>
        emit (EvFinishCollectionDiagnostics done) ;;;
        emit EvTelemetryInc
    | None => ret tt
    end ;;;
    if outputMode_eqb (ih_outputMode ih) explainAnalyzeDebugOutput
       && is_nil retErr
    then
      let r := setExplainBundleResult (ih_origCtx ih) res bundle cfg in
      emit (EvSetExplainBundleResult bundle (snd r)) ;;;
      ret r
    else ret (res, retErr)
  else ret (res, retErr).

(** The statistics block of [Finish], from [getStatsForStmt] on. *)
Definition finishStats (ih : instrumentationHelper) (stats : appStats)
    (p : planner) (ast : Statement) (trace : Recording)
    (retErr : option error) : M unit :=
  emit (EvGetStatsForStmt (ih_fingerprint ih) (ih_implicitTxn ih) retErr
          false) ;;;
  match getStatsForStmt stats (ih_fingerprint ih) (ih_implicitTxn ih)
          retErr false with
  | Some stmtStats =>
      networkBytesSent <-
        analyzeFlows ast trace (distSQLFlowInfos (curPlan p)) 0%Z ;;
      emit (EvLock stmtStats) ;;;
      emit (EvRecord stmtStats 1 networkBytesSent) ;;;
      emit (EvUnlock stmtStats)
  | None => ret tt
  end.

(** The bundle that [finishBundle] builds. *)
Definition bundleOf (ih : instrumentationHelper) (p : planner)
    (trace : Recording) : diagnosticsBundle :=
  {| b_plan := planStringForBundle ih; b_trace := trace;
     b_placeholders := ctx_Placeholders (extendedEvalCtx p) |}.

(** When [finishBundle] writes the EXPLAIN ANALYZE (DEBUG) result. *)
Definition writesBundleResult (ih : instrumentationHelper)
    (retErr : option error) : bool :=
  ih_collectBundle ih
  && outputMode_eqb (ih_outputMode ih) explainAnalyzeDebugOutput
  && is_nil retErr.

(** The result after [ResetStmtType] and [SetColumns], and the rows that
    [setExplainAnalyzePlanResult] then offers to it. *)
Definition resultForPlan (ctx : GoContext) (res : R) : R :=
  SetColumns (ResetStmtType res ExplainAnalyze) ctx ExplainPlanColumns.

Definition rowsForPlan (ih : instrumentationHelper) (pt : phaseTimes)
  : list string :=
  (planRowsForExplainAnalyze ih pt ++ [""]) ++ [experimentalWarning].

(** The [if ih.withStatementTrace != nil] block of [Finish]. *)
Definition finishTraceConsumer (ih : instrumentationHelper)
    (trace : Recording) (stmtRawSQL : string) : M unit :=
  match ih_withStatementTrace ih with
  | Some withStatementTrace =>
      emit (EvWithStatementTrace withStatementTrace trace stmtRawSQL)
  | None => ret tt
  end.

(** The [if ih.outputMode == explainAnalyzePlanOutput && retErr == nil]
    block of [Finish]. *)
Definition finishExplainPlan (ih : instrumentationHelper)
    (cfg : ExecutorConfig) (statsCollector : sqlStatsCollector)
    (res : R) (retErr : option error) : M (R * option error) :=
  if outputMode_eqb (ih_outputMode ih) explainAnalyzePlanOutput
     && is_nil retErr
  then
    let pt := if DeterministicExplainAnalyze (TestingKnobs cfg)
              then deterministicPhaseTimes
              else sc_phaseTimes statsCollector in
    setExplainAnalyzePlanResult ih (ih_origCtx ih) res pt
  else ret (res, retErr).

Definition Finish (ih : instrumentationHelper) (cfg : ExecutorConfig)
    (stats : appStats) (statsCollector : sqlStatsCollector) (p : planner)
    (ast : Statement) (stmtRawSQL : string) (res : R)
    (retErr : option error) : M (R * option error) :=
  match ih_sp ih with
  | None => ret (res, retErr)
  | Some sp =>
      Span_Finish sp ;;;
      trace <- Span_GetRecording sp ;;
      r <- finishBundle ih cfg p ast trace res retErr ;;
      finishTraceConsumer ih trace stmtRawSQL ;;;
      r <- finishExplainPlan ih cfg statsCollector (fst r) (snd r) ;;
      finishStats ih stats p ast trace (snd r) ;;;
      ret r
  end.

End Helper.

(** ** Sequences of public calls on one helper *)

Inductive Call :=
| CallSetOutputMode (mode : outputMode) (explainFlags : Flags)
| CallSetup (ctx : GoContext) (cfg : ExecutorConfig) (stats : appStats)
    (p : planner) (stmtDiagnosticsRecorder : Registry)
    (fingerprint : string) (implicitTxn : bool)
| CallFinish (cfg : ExecutorConfig) (stats : appStats)
    (statsCollector : sqlStatsCollector) (p : planner) (ast : Statement)
    (stmtRawSQL : string) (retErr : option error)
| CallSetDiscardRows
| CallShouldDiscardRows
| CallShouldCollectBundle
| CallShouldBuildExplainPlan
| CallRecordExplainPlan (explainPlan : Plan)
| CallRecordPlanInfo (distribution : PlanDistribution) (vectorized : bool)
| CallPlanForStats (ctx : GoContext).

(** What a call returns. *)
Inductive Output :=
| OutUnit
| OutBool (b : bool)
| OutSetup (newCtx : GoContext) (needFinish : bool)
| OutFinish (err : option error)
| OutPlan (tree : option ExplainTreePlanNode).

Definition is_Setup (c : Call) : bool :=
  match c with CallSetup _ _ _ _ _ _ _ => true | _ => false end.

Definition is_Finish (c : Call) : bool :=
  match c with CallFinish _ _ _ _ _ _ _ => true | _ => false end.

Definition armed (o : Output) : bool :=
  match o with OutSetup _ true => true | _ => false end.

Section Machine.
Context {E : Explain} {PT : PhaseTimer}.
Context {R : Type} {CR : RestrictedCommandResult R} {EB : ExplainBundle R}.

(** One call on the helper [ih], writing to the statement result [res]
    when it is [Finish]. *)
Definition step (c : Call) (st : instrumentationHelper * R)
  : M (instrumentationHelper * R * Output) :=
  let ih := fst st in
  let res := snd st in
  match c with
  | CallSetOutputMode mode flags =>
      ret (SetOutputMode ih mode flags, res, OutUnit)
  | CallSetup ctx cfg stats p reg fingerprint implicitTxn =>
      r <- Setup ih ctx cfg stats p reg fingerprint implicitTxn ;;
      ret (fst r, res, OutSetup (fst (snd r)) (snd (snd r)))
  | CallFinish cfg stats statsCollector p ast stmtRawSQL retErr =>
      r <- Finish ih cfg stats statsCollector p ast stmtRawSQL res retErr ;;
      ret (ih, fst r, OutFinish (snd r))
  | CallSetDiscardRows => ret (SetDiscardRows ih, res, OutUnit)
  | CallShouldDiscardRows => ret (ih, res, OutBool (ShouldDiscardRows ih))
  | CallShouldCollectBundle => ret (ih, res, OutBool (ShouldCollectBundle ih))
  | CallShouldBuildExplainPlan =>
      ret (ih, res, OutBool (ShouldBuildExplainPlan ih))
  | CallRecordExplainPlan plan => ret (RecordExplainPlan ih plan, res, OutUnit)
  | CallRecordPlanInfo d v => ret (RecordPlanInfo ih d v, res, OutUnit)
  | CallPlanForStats ctx =>
      r <- PlanForStats ih ctx ;;
      ret (ih, res, OutPlan r)
  end.

Fixpoint run (cs : list Call) (st : instrumentationHelper * R)
  : M (instrumentationHelper * R * list Output) :=
  match cs with
  | [] => ret (st, [])
  | c :: cs =>
      r <- step c st ;;
      r' <- run cs (fst r) ;;
      ret (fst r', snd r :: snd r')
  end.

End Machine.

(** ** Reading the list of collaborator calls *)

(** The communication error of a failed result write. *)
Definition commErrorOf (e : Event) : option error :=
  match e with
  | EvAddRow _ (Some err) | EvSetExplainBundleResult _ (Some err) => Some err
  | _ => None
  end.

(** The communication errors of the failed result writes, in order. *)
Definition writeErrors (evs : list Event) : list error :=
  omap commErrorOf evs.

Definition rowAccepted (e : Event) : option Datums :=
  match e with
  | EvAddRow row None => Some row
  | _ => None
  end.

(** The rows the result accepted, in order. *)
Definition rowsAdded (evs : list Event) : list Datums :=
  omap rowAccepted evs.

Definition is_analysis_event (e : Event) : bool :=
  match e with
  | EvAddTrace _ _ | EvGetNetworkBytesSent _ | EvVInfof _ _ _ _ => true
  | _ => false
  end.

Definition is_bundle_event (e : Event) : bool :=
  match e with
  | EvBuildStatementBundle _ _ _ | EvBundleInsert _ _ _
  | EvFinishCollectionDiagnostics _ | EvTelemetryInc => true
  | _ => false
  end.

Definition is_bundle_block_event (e : Event) : bool :=
  match e with
  | EvSetExplainBundleResult _ _ => true
  | _ => is_bundle_event e
  end.

Definition is_result_event (e : Event) : bool :=
  match e with
  | EvResetStmtType _ | EvSetColumns _ | EvErr _ | EvAddRow _ _ => true
  | _ => false
  end.

Definition is_consumer_event (e : Event) : bool :=
  match e with EvWithStatementTrace _ _ _ => true | _ => false end.

Definition is_stats_event (e : Event) : bool :=
  match e with
  | EvGetStatsForStmt _ _ _ _ | EvLock _ | EvRecord _ _ _ | EvUnlock _ => true
  | _ => false
  end.

Definition is_span_event (e : Event) : bool :=
  match e with
  | EvStartSnowballTrace _ _ | EvSpanFinish _ | EvSpanGetRecording _ => true
  | _ => false
  end.

(** How many times [Finish] ran on the span [sp]. *)
Definition finishedCount (sp : SpanPtr) (t : list Span) : nat :=
  match t !! sp with Some s => finished s | None => 0 end.

(** What one flow contributes: its bytes by node, or nothing when its
    analysis fails. *)
Definition flowBytes (trace : Recording) (flow : flowInfo)
  : option (list (NodeID * Z)) :=
  match AddTrace (analyzer flow) trace with
  | Some _ => None
  | None =>
      match GetNetworkBytesSent (analyzer flow) trace with
      | inl _ => None
      | inr byNode => Some byNode
      end
  end.

(** The planner [p] with another list of distributed flows. *)
Definition setFlows (p : planner) (flows : list flowInfo) : planner :=
  {| p_EvalContext := p_EvalContext p; extendedEvalCtx := extendedEvalCtx p;
     curPlan := {| distSQLFlowInfos := flows |} |}.

Definition sumZ (l : list Z) : Z := fold_right Z.add 0%Z l.

(** The exact sum of the bytes of all nodes of all flows whose analysis
    succeeds. *)
Definition bytesOfFlows (trace : Recording) (flows : list flowInfo) : Z :=
  sumZ (map (fun flow =>
               match flowBytes trace flow with
               | Some byNode => sumZ (map snd byNode)
               | None => 0%Z
               end) flows).

(** ** Concrete collaborators, for running the model *)

(** A command result that buffers rows and whose client connection accepts
    [br_conn] more rows before it breaks. *)
Record bufferedResult := {
  br_stmt : option Statement;
  br_cols : option ResultColumns;
  br_rows : list Datums;
  br_err : option error;
  br_conn : nat
}.

Definition emptyResult (conn : nat) : bufferedResult :=
  {| br_stmt := None; br_cols := None; br_rows := []; br_err := None;
     br_conn := conn |}.

Definition buffered_AddRow (res : bufferedResult) (row : Datums)
  : bufferedResult * option error :=
  match br_conn res with
  | 0 => (res, Some "write failed: connection closed")
  | S n =>
      ({| br_stmt := br_stmt res; br_cols := br_cols res;
          br_rows := br_rows res ++ [row]; br_err := br_err res;
          br_conn := n |}, None)
  end.

#[export] Instance bufferedResult_CR : RestrictedCommandResult bufferedResult := {
  ResetStmtType res stmt :=
    {| br_stmt := Some stmt; br_cols := br_cols res; br_rows := br_rows res;
       br_err := br_err res; br_conn := br_conn res |};
  SetColumns res _ cols :=
    {| br_stmt := br_stmt res; br_cols := Some cols; br_rows := br_rows res;
       br_err := br_err res; br_conn := br_conn res |};
  Err res := br_err res;
  AddRow res _ row := buffered_AddRow res row
}.

(** Modelled from the spec: [setExplainBundleResult] is not in this file;
    in debug mode the statement result is replaced with a single
    bundle-locator row. *)
#[export] Instance bufferedResult_EB : ExplainBundle bufferedResult := {
  setExplainBundleResult ctx res bundle cfg :=
    AddRow (ResetStmtType res (SQLStatement "EXPLAIN ANALYZE (DEBUG)")) ctx
      [DString "Statement diagnostics bundle generated."]
}.

(** An output builder that keeps display lines.  Plan [0] cannot be
    rendered; plan [S n] renders as [S n] lines. *)
#[export] Instance lineExplain : Explain := {
  OutputBuilder := list string;
  NewOutputBuilder _ := [];
  AddField ob key val := ob ++ [key +:+ ": " +:+ val];
  BuildString ob := String.concat (String (Ascii.ascii_of_nat 10) "") ob;
  BuildStringRows ob := ob;
  BuildProtoTree ob := ob;
  emitExplain ob _ _ plan _ _ :=
    match plan with
    | 0 => (ob, Some "unsupported plan")
    | S n => (ob ++ replicate (S n) "scan", None)
    end
}.

(** Go's [time] package, as far as the phase timer uses it.  A [Duration]
    is an int64 count of nanoseconds. *)
Definition minDuration : Duration := (- 2 ^ 63)%Z.
Definition maxDuration : Duration := (2 ^ 63 - 1)%Z.

(** [Time.Sub]: the difference, saturated to the range of [Duration]. *)
Definition Time_Sub (t u : Time) : Duration :=
  Z.max minDuration (Z.min maxDuration (t - u)).

Definition lessThanHalf (x y : Duration) : bool := (x + x <? y)%Z.

(** [Duration.Round]: the nearest multiple of [m], halfway values away
    from zero, saturating where the int64 result would overflow. *)
Definition go_Duration_Round (d m : Duration) : Duration :=
  if (m <=? 0)%Z then d
  else
    let r := Z.rem d m in
    if (d <? 0)%Z then
      let r := (- r)%Z in
      if lessThanHalf r m then (d + r)%Z
      else
        let d1 := wrap64 (d - m + r) in
        if (d1 <? d)%Z then d1 else minDuration
    else
      if lessThanHalf r m then (d - r)%Z
      else
        let d1 := wrap64 (d + m - r) in
        if (d <? d1)%Z then d1 else maxDuration.

Definition fmtInt (v : Z) : string := pretty (Z.to_N v).

(** [fmtFrac]: the fraction of [v / 10^prec] without trailing zeros, with
    its decimal point when it is not empty, and the value [v / 10^prec]. *)
Fixpoint fmtFrac (prec : nat) (v : Z) (print : bool) (tail : string)
  : string * Z :=
  match prec with
  | 0 => (if print then "." +:+ tail else tail, v)
  | S prec =>
      let digit := (v mod 10)%Z in
      let print := print || negb (digit =? 0)%Z in
      fmtFrac prec (v / 10)%Z print
        (if print then fmtInt digit +:+ tail else tail)
  end.

(** The micro sign U+00B5 in UTF-8. *)
Definition microSign : string :=
  String (Ascii.ascii_of_nat 194) (String (Ascii.ascii_of_nat 181) "").

(** [Duration.String]: "72h3m0.5s"; below one second the unit is ns, the
    micro sign followed by s, or ms; zero is "0s". *)
Definition go_Duration_String (d : Duration) : string :=
  let u := Z.abs d in
  let body :=
    if (u <? 1000000000)%Z then
      if (u =? 0)%Z then "0s"
      else
        let unit :=
          if (u <? 1000)%Z then (0, "ns")
          else if (u <? 1000000)%Z then (3, microSign +:+ "s")
          else (6, "ms") in
        let fr := fmtFrac (fst unit) u false "" in
        fmtInt (snd fr) +:+ fst fr +:+ snd unit
    else
      let fr := fmtFrac 9 u false "" in
      let secs := snd fr in
      let s := fmtInt (secs mod 60) +:+ fst fr +:+ "s" in
      let mins := (secs / 60)%Z in
      if (0 <? mins)%Z then
        let s := fmtInt (mins mod 60) +:+ "m" +:+ s in
        let hours := (mins / 60)%Z in
        if (0 <? hours)%Z then fmtInt hours +:+ "h" +:+ s else s
      else s in
  if (d <? 0)%Z then "-" +:+ body else body.

(** Modelled from the spec: the latency helpers of [phaseTimes] are not in
    this file; planning latency is end-logical-plan minus start-parse and
    run latency is end-exec-stmt minus start-exec-stmt.  [Round] and
    [String] are those of Go's [time.Duration]. *)
#[export] Instance specPhaseTimer : PhaseTimer := {
  getPlanningLatency pt :=
    Time_Sub (plannerEndLogicalPlan pt) (sessionStartParse pt);
  getRunLatency pt :=
    Time_Sub (plannerEndExecStmt pt) (plannerStartExecStmt pt);
  Duration_Round := go_Duration_Round;
  Duration_String := go_Duration_String
}.

Definition livePhaseTimes (startExec endExec : Time) : phaseTimes := {|
  sessionQueryReceived := 0%Z; sessionStartParse := 0%Z;
  sessionEndParse := 0%Z;
  plannerStartLogicalPlan := 0%Z; plannerEndLogicalPlan := 0%Z;
  plannerStartExecStmt := startExec; plannerEndExecStmt := endExec
|}.

Definition collectRegistry : Registry :=
  {| ShouldCollectDiagnostics _ _ := (true, 7%Z, Some 1) |}.

Definition idleRegistry : Registry :=
  {| ShouldCollectDiagnostics _ _ := (false, 0%Z, None) |}.

Definition sampleCfg (reg : Registry) (consumer : option Callback)
    (deterministic : bool) : ExecutorConfig :=
  {| Codec := 0; cfg_DB := 0; StmtDiagnosticsRecorder := reg;
     TestingKnobs := {| WithStatementTrace := consumer;
                        DeterministicExplainAnalyze := deterministic |} |}.

(** Statistics that hold a record for every statement. *)
Definition knownStats : appStats :=
  {| shouldSaveLogicalPlanDescription _ _ := false;
     getStatsForStmt _ _ _ _ := Some 0 |}.

(** Statistics that hold no record, and create one only when asked to. *)
Definition freshStats : appStats :=
  {| shouldSaveLogicalPlanDescription _ _ := false;
     getStatsForStmt _ _ _ createIfNonexistent :=
       if createIfNonexistent then Some 0 else None |}.

Definition goodFlow (byNode : list (NodeID * Z)) : flowInfo :=
  {| analyzer := {| AddTrace _ := None;
                    GetNetworkBytesSent _ := inr byNode |} |}.

Definition badTraceFlow : flowInfo :=
  {| analyzer := {| AddTrace _ := Some "malformed stats payload";
                    GetNetworkBytesSent _ := inr [(1%Z, 1000%Z)] |} |}.

Definition badBytesFlow : flowInfo :=
  {| analyzer := {| AddTrace _ := None;
                    GetNetworkBytesSent _ := inl "unknown component" |} |}.

Definition samplePlanner (flows : list flowInfo) : planner :=
  {| p_EvalContext := 1;
     extendedEvalCtx := {| ctx_InternalExecutor := 0;
                           ctx_Placeholders := ["$1"] |};
     curPlan := {| distSQLFlowInfos := flows |} |}.

Definition sampleCollector : sqlStatsCollector :=
  {| sc_phaseTimes := livePhaseTimes 5000%Z 905000%Z |}.

Definition sampleFlows : list flowInfo :=
  [goodFlow [(1%Z, 100%Z); (2%Z, 50%Z)]; badTraceFlow; badBytesFlow;
   goodFlow [(3%Z, 7%Z)]].

(** ** Statements about the calls of a run *)

(** Either a block wrote without a communication error and kept the
    error it was given, or it was entered with a nil error and returns
    the one communication error of its write. *)
Definition keeps_or_fails (evs : list Event) (given got : option error)
  : Prop :=
  (writeErrors evs = [] /\ got = given)
  \/ (exists e, writeErrors evs = [e] /\ got = Some e /\ given = None).


(** The span events of one [Finish] call on each [Finish] of [cs]. *)
Definition spanEventsOf (sp : SpanPtr) (cs : list Call) : list Event :=
  concat (map (fun _ => [EvSpanFinish sp; EvSpanGetRecording sp])
            (List.filter is_Finish cs)).


(** ** Sample executions *)

Definition noFlags : Flags :=
  {| Verbose := false; ShowTypes := false; HideValues := false |}.

Definition sampleStatement : Statement := SQLStatement "SELECT 1".

(** The span table when [Finish] runs: the span that [Setup] started has
    recorded the execution. *)
Definition tracedSpans : list Span :=
  [{| operation := "traced statement"; snowball := true; finished := 0;
      recording := ["flow 1: bytes sent"; "flow 2: bytes sent"] |}].

(** [Setup] with no mode, no diagnostics request and no trace consumer. *)
Definition idleCalls : list Call :=
  [CallSetup Background (sampleCfg idleRegistry None false) knownStats
     (samplePlanner sampleFlows) idleRegistry "SELECT _" true;
   CallRecordExplainPlan 3;
   CallSetDiscardRows].

(** EXPLAIN ANALYZE (PLAN) of a statement whose plan renders as three
    lines. *)
Definition planCalls : list Call :=
  [CallSetOutputMode explainAnalyzePlanOutput noFlags;
   CallSetup Background (sampleCfg idleRegistry None false) knownStats
     (samplePlanner sampleFlows) idleRegistry "SELECT _" true;
   CallRecordExplainPlan 3].

Definition planHelper : instrumentationHelper :=
  fst (fst (value (run planCalls (zeroHelper, emptyResult 0) []))).

(** EXPLAIN ANALYZE (DEBUG) of a statement whose plan cannot be rendered. *)
Definition debugCalls : list Call :=
  [CallSetOutputMode explainAnalyzeDebugOutput noFlags;
   CallSetup Background (sampleCfg idleRegistry None false) knownStats
     (samplePlanner sampleFlows) idleRegistry "SELECT _" true;
   CallRecordExplainPlan 0].

Definition debugHelper : instrumentationHelper :=
  fst (fst (value (run debugCalls (zeroHelper, emptyResult 0) []))).

(** A statement for which the diagnostics registry requests a bundle. *)
Definition requestedCalls : list Call :=
  [CallSetup Background (sampleCfg collectRegistry None false) knownStats
     (samplePlanner sampleFlows) collectRegistry "SELECT _" true;
   CallRecordExplainPlan 2].

Definition requestedHelper : instrumentationHelper :=
  fst (fst (value (run requestedCalls (zeroHelper, emptyResult 0) []))).

Definition sampleFinish (deterministic : bool) (stats : appStats)
    (retErr : option error) : Call :=
  CallFinish (sampleCfg idleRegistry None deterministic) stats sampleCollector
    (samplePlanner sampleFlows) sampleStatement "SELECT 1" retErr.

(** ** Further readers of the calls *)

Definition is_AddTrace (e : Event) : bool :=
  match e with EvAddTrace _ _ => true | _ => false end.

Definition is_GetNetworkBytesSent (e : Event) : bool :=
  match e with EvGetNetworkBytesSent _ => true | _ => false end.

Definition is_VInfof (e : Event) : bool :=
  match e with EvVInfof _ _ _ _ => true | _ => false end.

Definition is_Warningf (e : Event) : bool :=
  match e with EvWarningf _ _ => true | _ => false end.

(** Calls on the statistics record itself. *)
Definition is_record_event (e : Event) : bool :=
  match e with EvLock _ | EvRecord _ _ _ | EvUnlock _ => true | _ => false end.

(** Calls that read or change the statement result. *)
Definition touches_result (e : Event) : bool :=
  match e with
  | EvSetExplainBundleResult _ _ => true
  | _ => is_result_event e
  end.

(** Whether [AddTrace] succeeds on a flow, and whether its analysis as a
    whole fails. *)
Definition addTraceOk (trace : Recording) (flow : flowInfo) : bool :=
  is_nil (AddTrace (analyzer flow) trace).

Definition flowFails (trace : Recording) (flow : flowInfo) : bool :=
  is_nil (flowBytes trace flow).

(** The phase times [Finish] renders EXPLAIN ANALYZE (PLAN) with. *)
Definition phaseTimesFor (cfg : ExecutorConfig)
    (statsCollector : sqlStatsCollector) : phaseTimes :=
  if DeterministicExplainAnalyze (TestingKnobs cfg)
  then deterministicPhaseTimes
  else sc_phaseTimes statsCollector.

(** A command result that already carries an execution error. *)
Definition failedResult (err : error) : bufferedResult :=
  {| br_stmt := None; br_cols := None; br_rows := []; br_err := Some err;
     br_conn := 5 |}.

(** A statement run with a registered trace consumer. *)
Definition consumerHelper : instrumentationHelper :=
  fst (value (Setup zeroHelper Background (sampleCfg idleRegistry (Some 4) false)
                knownStats (samplePlanner sampleFlows) idleRegistry "SELECT _"
                true [])).

(** EXPLAIN ANALYZE (PLAN) without a recorded plan, and with a plan that
    cannot be rendered. *)
Definition planHelperNoPlan : instrumentationHelper :=
  fst (value (Setup (SetOutputMode zeroHelper explainAnalyzePlanOutput noFlags)
                Background (sampleCfg idleRegistry None false) knownStats
                (samplePlanner sampleFlows) idleRegistry "SELECT _" true [])).

Definition planHelperBadPlan : instrumentationHelper :=
  RecordExplainPlan planHelperNoPlan 0.

(** The call of [setExplainBundleResult]. *)
Definition is_SetExplainBundleResult (e : Event) : bool :=
  match e with EvSetExplainBundleResult _ _ => true | _ => false end.

(** Two helpers hold the same plan: the recorded plan and everything the
    renderer reads with it. *)
Definition samePlan (ih1 ih2 : instrumentationHelper) : Prop :=
  ih_explainPlan ih1 = ih_explainPlan ih2
  /\ ih_explainFlags ih1 = ih_explainFlags ih2
  /\ ih_evalCtx ih1 = ih_evalCtx ih2
  /\ ih_codec ih1 = ih_codec ih2
  /\ ih_distribution ih1 = ih_distribution ih2
  /\ ih_vectorized ih1 = ih_vectorized ih2.

(** Another execution: other flows, another trace, other live times. *)
Definition otherSpans : list Span :=
  [{| operation := "traced statement"; snowball := true; finished := 0;
      recording := ["another trace"] |}].

Definition otherCollector : sqlStatsCollector :=
  {| sc_phaseTimes := livePhaseTimes 0%Z 42000%Z |}.

(** EXPLAIN ANALYZE (PLAN) of another statement that has the same plan,
    set up with a trace consumer and outside an implicit transaction. *)
Definition otherPlanCalls : list Call :=
  [CallSetOutputMode explainAnalyzePlanOutput noFlags;
   CallSetup Background (sampleCfg idleRegistry (Some 4) true) freshStats
     (samplePlanner []) idleRegistry "SELECT _ FROM t" false;
   CallRecordExplainPlan 3].

Definition otherPlanHelper : instrumentationHelper :=
  fst (fst (value (run otherPlanCalls (zeroHelper, emptyResult 0) []))).

(** * Properties *)

(** ** The monad *)

Lemma value_bind {A B} (m : M A) (f : A -> M B) t :
  value (bind m f t) = value (f (value (m t)) (spans (m t))).
Proof.
  unfold bind, value, spans. destruct (m t) as [[a t1] e1]. simpl.
  destruct (f a t1) as [[b t2] e2]. reflexivity.
Qed.

Lemma spans_bind {A B} (m : M A) (f : A -> M B) t :
  spans (bind m f t) = spans (f (value (m t)) (spans (m t))).
Proof.
  unfold bind, value, spans. destruct (m t) as [[a t1] e1]. simpl.
  destruct (f a t1) as [[b t2] e2]. reflexivity.
Qed.

Lemma calls_bind {A B} (m : M A) (f : A -> M B) t :
  calls (bind m f t) = calls (m t) ++ calls (f (value (m t)) (spans (m t))).
Proof.
  unfold bind, value, spans, calls. destruct (m t) as [[a t1] e1]. simpl.
  destruct (f a t1) as [[b t2] e2]. reflexivity.
Qed.

Lemma value_ret {A} (a : A) t : value (ret a t) = a.
Proof. reflexivity. Qed.

Lemma spans_ret {A} (a : A) t : spans (ret a t) = t.
Proof. reflexivity. Qed.

Lemma calls_ret {A} (a : A) t : calls (ret a t) = [].
Proof. reflexivity. Qed.

Lemma spans_emit e t : spans (emit e t) = t.
Proof. reflexivity. Qed.

Lemma calls_emit e t : calls (emit e t) = [e].
Proof. reflexivity. Qed.

Lemma run_eta {A} (r : A * list Span * list Event) :
  r = (value r, spans r, calls r).
Proof. destruct r as [[a t] e]. reflexivity. Qed.

Lemma stateless_ret {A} (a : A) : stateless (ret a).
Proof. intros t. reflexivity. Qed.

Lemma stateless_emit e : stateless (emit e).
Proof. intros t. reflexivity. Qed.

Lemma stateless_value {A} (m : M A) t : stateless m -> value (m t) = value (m []).
Proof. intros H. rewrite (H t). reflexivity. Qed.

Lemma stateless_spans {A} (m : M A) t : stateless m -> spans (m t) = t.
Proof. intros H. rewrite (H t). reflexivity. Qed.

Lemma stateless_calls {A} (m : M A) t : stateless m -> calls (m t) = calls (m []).
Proof. intros H. rewrite (H t). reflexivity. Qed.

Lemma stateless_bind {A B} (m : M A) (f : A -> M B) :
  stateless m -> (forall a, stateless (f a)) -> stateless (bind m f).
Proof.
  intros Hm Hf t. rewrite (run_eta (bind m f t)).
  rewrite value_bind, spans_bind, calls_bind.
  rewrite (value_bind m f []), (calls_bind m f []).
  rewrite (stateless_value m t Hm), (stateless_calls m t Hm).
  rewrite (stateless_spans m t Hm), (stateless_spans m [] Hm).
  rewrite (stateless_value _ t (Hf _)), (stateless_calls _ t (Hf _)).
  rewrite (stateless_spans _ t (Hf _)). reflexivity.
Qed.

Create HintDb stateless.
#[local] Hint Resolve stateless_ret stateless_emit : stateless.

Ltac stateless_tac :=
  repeat first
    [ solve [ auto with stateless ]
    | apply stateless_bind; [ | intros ? ]
    | match goal with
      | |- stateless (match ?x with _ => _ end) => destruct x
      | |- stateless (if ?b then _ else _) => destruct b
      | |- stateless (let _ := _ in _) => cbv zeta
      end ].

Lemma stateless_buildStatementBundle ctx db ie plan s trace ph :
  stateless (buildStatementBundle ctx db ie plan s trace ph).
Proof. unfold buildStatementBundle. stateless_tac. Qed.

Lemma stateless_analyzeFlows ast trace flows acc :
  stateless (analyzeFlows ast trace flows acc).
Proof.
  revert acc. induction flows as [|flow flows IH]; intros acc; simpl.
  - apply stateless_ret.
  - stateless_tac; auto.
Qed.

#[local] Hint Resolve stateless_buildStatementBundle stateless_analyzeFlows
  : stateless.

Section HelperFacts.
Context {E : Explain} {PT : PhaseTimer}.
Context {R : Type} {CR : RestrictedCommandResult R} {EB : ExplainBundle R}.

Lemma stateless_addRows ctx (res : R) rows : stateless (addRows ctx res rows).
Proof.
  revert res. induction rows as [|row rows IH]; intros res; simpl.
  - apply stateless_ret.
  - stateless_tac; auto.
Qed.

Lemma stateless_setExplainAnalyzePlanResult ih ctx (res : R) pt :
  stateless (setExplainAnalyzePlanResult ih ctx res pt).
Proof.
  unfold setExplainAnalyzePlanResult.
  stateless_tac; auto using stateless_addRows.
Qed.

Hint Resolve stateless_setExplainAnalyzePlanResult : stateless.

Lemma stateless_finishBundle ih cfg p ast trace (res : R) retErr :
  stateless (finishBundle ih cfg p ast trace res retErr).
Proof. unfold finishBundle. stateless_tac. Qed.

Lemma stateless_finishStats ih stats p ast trace retErr :
  stateless (finishStats ih stats p ast trace retErr).
Proof. unfold finishStats. stateless_tac. Qed.

Lemma stateless_PlanForStats ih ctx : stateless (PlanForStats ih ctx).
Proof. unfold PlanForStats. stateless_tac. Qed.

End HelperFacts.

#[local] Hint Resolve stateless_addRows stateless_setExplainAnalyzePlanResult
  stateless_finishBundle stateless_finishStats stateless_PlanForStats
  : stateless.

(** ** The span table *)

Lemma recordingOf_finish sp t :
  recordingOf sp (alter finish_span sp t) = recordingOf sp t.
Proof.
  unfold recordingOf. rewrite list_lookup_alter_eq.
  destruct (t !! sp) as [s|]; reflexivity.
Qed.

Lemma finishedCount_finish sp t :
  sp < length t ->
  finishedCount sp (alter finish_span sp t) = S (finishedCount sp t).
Proof.
  intros Hlt. unfold finishedCount. rewrite list_lookup_alter_eq.
  destruct (lookup_lt_is_Some_2 t sp Hlt) as [s Hs]. rewrite Hs. reflexivity.
Qed.

Lemma finishedCount_finish_other sp sp' t :
  sp <> sp' ->
  finishedCount sp' (alter finish_span sp t) = finishedCount sp' t.
Proof.
  intros Hne. unfold finishedCount. rewrite list_lookup_alter_ne by exact Hne.
  reflexivity.
Qed.

(** ** The shape of [Finish] on an armed helper *)

Section FinishShape.
Context {E : Explain} {PT : PhaseTimer}.
Context {R : Type} {CR : RestrictedCommandResult R} {EB : ExplainBundle R}.

Lemma stateless_finishTraceConsumer ih trace raw :
  stateless (finishTraceConsumer ih trace raw).
Proof. unfold finishTraceConsumer. stateless_tac. Qed.

Lemma stateless_finishExplainPlan ih cfg sc (res : R) retErr :
  stateless (finishExplainPlan ih cfg sc res retErr).
Proof.
  unfold finishExplainPlan. stateless_tac.
Qed.

Lemma Finish_nil_span ih cfg stats sc p ast raw (res : R) retErr t :
  ih_sp ih = None ->
  Finish ih cfg stats sc p ast raw res retErr t = ((res, retErr), t, []).
Proof. intros Hsp. unfold Finish. rewrite Hsp. reflexivity. Qed.

Lemma Finish_armed ih cfg stats sc p ast raw (res : R) retErr t sp :
  ih_sp ih = Some sp ->
  let trace := recordingOf sp t in
  let rb := finishBundle ih cfg p ast trace res retErr [] in
  let rp := finishExplainPlan ih cfg sc (fst (value rb)) (snd (value rb)) [] in
  Finish ih cfg stats sc p ast raw res retErr t =
    (value rp, alter finish_span sp t,
     [EvSpanFinish sp; EvSpanGetRecording sp]
     ++ calls rb
     ++ calls (finishTraceConsumer ih trace raw [])
     ++ calls rp
     ++ calls (finishStats ih stats p ast trace (snd (value rp)) [])).
Proof.
  intros Hsp trace rb rp. unfold Finish. rewrite Hsp.
  rewrite (run_eta (bind _ _ t)).
  repeat (rewrite ?value_bind, ?spans_bind, ?calls_bind; simpl).
  unfold Span_Finish, Span_GetRecording.
  change (value (tt, alter finish_span sp t, [EvSpanFinish sp])) with tt.
  change (spans (tt, alter finish_span sp t, [EvSpanFinish sp]))
    with (alter finish_span sp t).
  cbn [value spans calls fst snd].
  rewrite recordingOf_finish. fold trace.
  pose proof (stateless_finishBundle ih cfg p ast trace res retErr) as Hb.
  rewrite !(stateless_value _ _ Hb), !(stateless_spans _ _ Hb),
    !(stateless_calls _ _ Hb). fold rb.
  pose proof (stateless_finishTraceConsumer ih trace raw) as Hc.
  rewrite !(stateless_spans _ _ Hc), !(stateless_calls _ _ Hc).
  pose proof (stateless_finishExplainPlan ih cfg sc (fst (value rb))
                (snd (value rb))) as Hp.
  rewrite !(stateless_value _ _ Hp), !(stateless_spans _ _ Hp),
    !(stateless_calls _ _ Hp). fold rp.
  pose proof (stateless_finishStats ih stats p ast trace (snd (value rp)))
    as Hs.
  rewrite !(stateless_spans _ _ Hs), !(stateless_calls _ _ Hs).
  rewrite app_nil_r. reflexivity.
Qed.

End FinishShape.

(** ** Setup *)

Lemma ih_sp_SetOutputMode ih mode flags :
  ih_sp (SetOutputMode ih mode flags) = ih_sp ih.
Proof. destruct ih; reflexivity. Qed.

Lemma ih_sp_SetDiscardRows ih : ih_sp (SetDiscardRows ih) = ih_sp ih.
Proof. destruct ih; reflexivity. Qed.

Lemma ih_sp_RecordExplainPlan ih plan :
  ih_sp (RecordExplainPlan ih plan) = ih_sp ih.
Proof. destruct ih; reflexivity. Qed.

Lemma ih_sp_RecordPlanInfo ih d v : ih_sp (RecordPlanInfo ih d v) = ih_sp ih.
Proof. destruct ih; reflexivity. Qed.

(** What [Setup] does to the span table and to the helper's span. *)
Lemma Setup_span ih ctx cfg stats p reg fingerprint implicitTxn t :
  let r := Setup ih ctx cfg stats p reg fingerprint implicitTxn t in
  let ih' := fst (value r) in
  if snd (snd (value r))
  then spans r = t ++ [newSnowballSpan "traced statement"]
       /\ ih_sp ih' = Some (length t)
  else spans r = t /\ ih_sp ih' = ih_sp ih.
Proof.
  destruct ih as [mode fl fp itx codec cb dr id fcd wst sp octx ectx sps pl ds vec].
  destruct cfg as [cdc db rec [consumer det]].
  unfold Setup. cbn [ih_outputMode set_fingerprint set_implicitTxn set_codec].
  destruct mode; cbn.
  - destruct (ShouldCollectDiagnostics reg ctx fingerprint) as [[collect rid] done].
    destruct collect, consumer; cbn; split; reflexivity.
  - destruct consumer; cbn; split; reflexivity.
  - destruct cb, consumer; cbn; split; reflexivity.
Qed.

(** C4.  [Setup] returns needFinish=false, and creates no span, exactly when
    the helper's collectBundle flag is false, no trace-consumer callback is
    registered in the testing knobs and the output mode is Unmodified.  In
    every other case it starts one full-recording span, stores it in the
    helper and returns needFinish=true with the context that carries the
    span. *)
Theorem Setup_needFinish ih ctx cfg stats p reg fingerprint implicitTxn t :
  let r := Setup ih ctx cfg stats p reg fingerprint implicitTxn t in
  let ih' := fst (value r) in
  let newCtx := fst (snd (value r)) in
  let needFinish := snd (snd (value r)) in
  (needFinish = false <->
     ih_collectBundle ih' = false
     /\ WithStatementTrace (TestingKnobs cfg) = None
     /\ ih_outputMode ih = unmodifiedOutput)
  /\ ih_outputMode ih' = ih_outputMode ih
  /\ ih_withStatementTrace ih' = WithStatementTrace (TestingKnobs cfg)
  /\ (if needFinish
      then spans r = t ++ [newSnowballSpan "traced statement"]
           /\ ih_sp ih' = Some (length t)
           /\ newCtx = ContextWithSpan ctx (length t)
           /\ List.filter is_span_event (calls r)
              = [EvStartSnowballTrace "traced statement" (length t)]
      else spans r = t
           /\ ih_sp ih' = ih_sp ih
           /\ newCtx = ctx
           /\ List.filter is_span_event (calls r) = []).
Proof.
  destruct ih as [mode fl fp itx codec cb dr id fcd wst sp octx ectx sps pl ds vec].
  destruct cfg as [cdc db rec [consumer det]].
  unfold Setup. cbn [ih_outputMode set_fingerprint set_implicitTxn set_codec].
  destruct mode; cbn.
  - destruct (ShouldCollectDiagnostics reg ctx fingerprint) as [[collect rid] done].
    destruct collect, consumer; cbn; repeat split; intros;
      try discriminate; try tauto; try (destruct H; discriminate);
      try (destruct H as (? & ? & ?); discriminate).
  - destruct consumer; cbn; repeat split; intros;
      try discriminate; try tauto; try (destruct H as (? & ? & ?); discriminate).
  - destruct cb, consumer; cbn; repeat split; intros;
      try discriminate; try tauto; try (destruct H as (? & ? & ?); discriminate).
Qed.

(** ** Sequences of calls that never arm the helper *)

Section NeverArmed.
Context {E : Explain} {PT : PhaseTimer}.
Context {R : Type} {CR : RestrictedCommandResult R} {EB : ExplainBundle R}.

Lemma step_keeps_nil_span c (st : instrumentationHelper * R) t :
  ih_sp (fst st) = None ->
  armed (snd (value (step c st t))) = false ->
  ih_sp (fst (fst (value (step c st t)))) = None.
Proof.
  destruct st as [ih res]. cbn [fst snd]. intros Hsp Harm.
  destruct c; cbn [step fst snd] in *;
    rewrite ?value_bind, ?value_ret in *; cbn [fst snd] in *;
    rewrite ?ih_sp_SetOutputMode, ?ih_sp_SetDiscardRows,
      ?ih_sp_RecordExplainPlan, ?ih_sp_RecordPlanInfo; try assumption.
  pose proof (Setup_span ih ctx cfg stats p stmtDiagnosticsRecorder
                fingerprint implicitTxn t) as HS.
  cbv zeta in HS.
  destruct (snd (snd (value (Setup ih ctx cfg stats p
              stmtDiagnosticsRecorder fingerprint implicitTxn t)))).
  - discriminate Harm.
  - destruct HS as (_ & HS). rewrite HS. exact Hsp.
Qed.

Lemma run_keeps_nil_span cs (st : instrumentationHelper * R) t :
  ih_sp (fst st) = None ->
  existsb armed (snd (value (run cs st t))) = false ->
  ih_sp (fst (fst (value (run cs st t)))) = None.
Proof.
  revert st t. induction cs as [|c cs IH]; intros st t Hsp Harm.
  - exact Hsp.
  - cbn [run] in *. rewrite !value_bind, !value_ret in *.
    cbn [fst snd] in *.
    cbn [existsb] in Harm. apply orb_false_iff in Harm as [Hc Hcs].
    apply IH; [ | exact Hcs ].
    apply step_keeps_nil_span; assumption.
Qed.

(** C5.  From the zero-valued helper, after any sequence of public calls
    in which no [Setup] returned needFinish=true (in particular when
    [Setup] was never called), a call of [Finish] returns its input error
    unchanged, makes no collaborator call, and leaves the helper, the
    statement result and the span table as they were. *)
Theorem Finish_noop_when_never_armed cs (res0 : R) t0
    cfg stats sc p ast raw retErr :
  let r := run cs (zeroHelper, res0) t0 in
  existsb armed (snd (value r)) = false ->
  step (CallFinish cfg stats sc p ast raw retErr) (fst (value r)) (spans r)
  = ((fst (value r), OutFinish retErr), spans r, []).
Proof.
  intros r Harm.
  pose proof (run_keeps_nil_span cs (zeroHelper, res0) t0 eq_refl Harm) as Hsp.
  fold r in Hsp. destruct (fst (value r)) as [ih res]. cbn [fst] in Hsp.
  cbn [step fst snd]. unfold bind.
  rewrite (Finish_nil_span ih cfg stats sc p ast raw res retErr _ Hsp).
  reflexivity.
Qed.

End NeverArmed.

(** ** Reading the calls of each block of [Finish] *)

Lemma omap_none {A B} (f : A -> option B) (l : list A) :
  Forall (fun x => f x = None) l -> omap f l = [].
Proof.
  induction 1 as [|x l Hx _ IH]; [reflexivity|].
  cbn. rewrite Hx. exact IH.
Qed.

Lemma filter_none {A} (P : A -> bool) (l : list A) :
  Forall (fun x => P x = false) l -> List.filter P l = [].
Proof.
  induction 1 as [|x l Hx _ IH]; [reflexivity|].
  cbn. rewrite Hx. exact IH.
Qed.

Lemma writeErrors_app l1 l2 :
  writeErrors (l1 ++ l2) = writeErrors l1 ++ writeErrors l2.
Proof. apply omap_app. Qed.

Lemma rowsAdded_app l1 l2 : rowsAdded (l1 ++ l2) = rowsAdded l1 ++ rowsAdded l2.
Proof. apply omap_app. Qed.

Lemma calls_analyzeFlows_kind ast trace flows acc :
  Forall (fun e => is_analysis_event e = true)
    (calls (analyzeFlows ast trace flows acc [])).
Proof.
  revert acc. induction flows as [|flow flows IH]; intros acc; cbn [analyzeFlows].
  - constructor.
  - rewrite calls_bind, calls_emit, spans_emit. constructor; [reflexivity|].
    destruct (AddTrace (analyzer flow) trace) as [err|].
    + rewrite calls_bind, calls_emit, spans_emit.
      constructor; [reflexivity|]. apply IH.
    + destruct (GetNetworkBytesSent (analyzer flow) trace) as [err|byNode].
      * rewrite !calls_bind, !calls_emit, !spans_emit.
        constructor; [reflexivity|]. constructor; [reflexivity|]. apply IH.
      * rewrite calls_bind, calls_emit, spans_emit.
        constructor; [reflexivity|]. apply IH.
Qed.

Ltac kind_of H :=
  eapply Forall_impl; [ exact H | intros [] ?; cbn in *; congruence ].

(** *** int64 sums *)

Lemma wrap64_add_l a b : wrap64 (wrap64 a + b) = wrap64 (a + b).
Proof.
  unfold wrap64.
  replace ((a + 2 ^ 63) mod 2 ^ 64 - 2 ^ 63 + b + 2 ^ 63)%Z
    with ((a + 2 ^ 63) mod 2 ^ 64 + b)%Z by lia.
  rewrite Zplus_mod_idemp_l.
  replace (a + 2 ^ 63 + b)%Z with (a + b + 2 ^ 63)%Z by lia. reflexivity.
Qed.

Lemma wrap64_in_range z : in_int64 z -> wrap64 z = z.
Proof.
  unfold in_int64, wrap64. intros H.
  rewrite Z.mod_small by lia. lia.
Qed.

Lemma sumZ_cons x l : sumZ (x :: l) = (x + sumZ l)%Z.
Proof. reflexivity. Qed.

Lemma sumZ_app l1 l2 : sumZ (l1 ++ l2) = (sumZ l1 + sumZ l2)%Z.
Proof.
  induction l1 as [|x l1 IH]; [reflexivity|].
  cbn [app]. rewrite !sumZ_cons, IH. lia.
Qed.

Lemma addBytesByNode_wrap a byNode :
  addBytesByNode (wrap64 a) byNode = wrap64 (a + sumZ (map snd byNode)).
Proof.
  unfold addBytesByNode. revert a.
  induction byNode as [|[node b] byNode IH]; intros a;
    cbn [fold_left map snd].
  - change (sumZ []) with 0%Z. rewrite Z.add_0_r. reflexivity.
  - unfold add64. rewrite wrap64_add_l, IH, sumZ_cons, Z.add_assoc.
    reflexivity.
Qed.

(** What one flow adds to the running total. *)
Lemma bytesOfFlows_cons trace flow flows :
  bytesOfFlows trace (flow :: flows)
  = (match flowBytes trace flow with
     | Some byNode => sumZ (map snd byNode)
     | None => 0
     end + bytesOfFlows trace flows)%Z.
Proof. reflexivity. Qed.

Lemma value_analyzeFlows ast trace flows a :
  value (analyzeFlows ast trace flows (wrap64 a) [])
  = wrap64 (a + bytesOfFlows trace flows).
Proof.
  revert a.
  induction flows as [|flow flows IH]; intros a; cbn [analyzeFlows].
  - rewrite value_ret. change (bytesOfFlows trace []) with 0%Z.
    rewrite Z.add_0_r. reflexivity.
  - rewrite bytesOfFlows_cons. unfold flowBytes at 1.
    rewrite value_bind, spans_emit.
    destruct (AddTrace (analyzer flow) trace) as [err|].
    + rewrite value_bind, spans_emit, IH. reflexivity.
    + destruct (GetNetworkBytesSent (analyzer flow) trace) as [err|byNode].
      * rewrite !value_bind, !spans_emit, IH. reflexivity.
      * rewrite value_bind, spans_emit, addBytesByNode_wrap, IH, Z.add_assoc.
        reflexivity.
Qed.

Lemma value_analyzeFlows_0 ast trace flows :
  value (analyzeFlows ast trace flows 0%Z [])
  = wrap64 (bytesOfFlows trace flows).
Proof. exact (value_analyzeFlows ast trace flows 0%Z). Qed.

Lemma bytesOfFlows_app trace flows1 flows2 :
  bytesOfFlows trace (flows1 ++ flows2)
  = (bytesOfFlows trace flows1 + bytesOfFlows trace flows2)%Z.
Proof.
  unfold bytesOfFlows. rewrite map_app. apply sumZ_app.
Qed.

Lemma bytesOfFlows_skip trace flows1 flow flows2 :
  flowBytes trace flow = None ->
  bytesOfFlows trace (flows1 ++ flow :: flows2)
  = bytesOfFlows trace (flows1 ++ flows2).
Proof.
  intros Hf. rewrite !bytesOfFlows_app, bytesOfFlows_cons, Hf. reflexivity.
Qed.

Section Blocks.
Context {E : Explain} {PT : PhaseTimer}.
Context {R : Type} {CR : RestrictedCommandResult R} {EB : ExplainBundle R}.

Lemma calls_addRows_kind ctx (res : R) rows :
  Forall (fun e => is_result_event e = true)
    (calls (addRows ctx res rows [])).
Proof.
  revert res. induction rows as [|row rows IH]; intros res; cbn [addRows].
  - constructor.
  - rewrite calls_bind, calls_emit, spans_emit. constructor; [reflexivity|].
    destruct (snd (AddRow res ctx [DString row])); [constructor | apply IH].
Qed.

(** The loop stops at the first failed [AddRow] and returns its error;
    when it returns nil, every row was accepted. *)
Lemma addRows_spec ctx (res : R) rows :
  let r := addRows ctx res rows [] in
  writeErrors (calls r)
  = match snd (value r) with Some e => [e] | None => [] end
  /\ (snd (value r) = None ->
      rowsAdded (calls r) = map (fun row => [DString row]) rows).
Proof.
  revert res. induction rows as [|row rows IH]; intros res; cbn [addRows].
  - split; reflexivity.
  - cbv zeta. rewrite calls_bind, value_bind, calls_emit, spans_emit.
    destruct (AddRow res ctx [DString row]) as [res' [e|]]; cbn [fst snd].
    + rewrite value_ret, calls_ret. split; [reflexivity | discriminate].
    + destruct (IH res') as [IH1 IH2]. split.
      * exact IH1.
      * intros Hnil. cbn. f_equal. exact (IH2 Hnil).
Qed.

End Blocks.

Section BlockCalls.
Context {E : Explain} {PT : PhaseTimer}.
Context {R : Type} {CR : RestrictedCommandResult R} {EB : ExplainBundle R}.

Lemma calls_finishBundle ih cfg p ast trace (res : R) retErr :
  calls (finishBundle ih cfg p ast trace res retErr []) =
    if ih_collectBundle ih then
      [EvBuildStatementBundle (planStringForBundle ih) trace
         (ctx_Placeholders (extendedEvalCtx p));
       EvBundleInsert (ih_fingerprint ih) ast (ih_diagRequestID ih)]
      ++ match ih_finishCollectionDiagnostics ih with
         | Some done => [EvFinishCollectionDiagnostics done; EvTelemetryInc]
         | None => []
         end
      ++ (if writesBundleResult ih retErr
          then [EvSetExplainBundleResult (bundleOf ih p trace)
                  (snd (setExplainBundleResult (ih_origCtx ih) res
                          (bundleOf ih p trace) cfg))]
          else [])
    else [].
Proof.
  unfold finishBundle, writesBundleResult, buildStatementBundle, bundleOf.
  destruct (ih_collectBundle ih); [|reflexivity].
  destruct (ih_finishCollectionDiagnostics ih);
    destruct (outputMode_eqb (ih_outputMode ih) explainAnalyzeDebugOutput);
    destruct retErr; reflexivity.
Qed.

Lemma value_finishBundle ih cfg p ast trace (res : R) retErr :
  value (finishBundle ih cfg p ast trace res retErr []) =
    if writesBundleResult ih retErr
    then setExplainBundleResult (ih_origCtx ih) res (bundleOf ih p trace) cfg
    else (res, retErr).
Proof.
  unfold finishBundle, writesBundleResult, buildStatementBundle, bundleOf.
  destruct (ih_collectBundle ih); [|reflexivity].
  destruct (ih_finishCollectionDiagnostics ih);
    destruct (outputMode_eqb (ih_outputMode ih) explainAnalyzeDebugOutput);
    destruct retErr; reflexivity.
Qed.

Lemma calls_setExplainAnalyzePlanResult ih ctx (res : R) pt :
  calls (setExplainAnalyzePlanResult ih ctx res pt []) =
    [EvResetStmtType ExplainAnalyze; EvSetColumns ExplainPlanColumns;
     EvErr (Err (resultForPlan ctx res))]
    ++ (if is_nil (Err (resultForPlan ctx res))
        then calls (addRows ctx (resultForPlan ctx res) (rowsForPlan ih pt) [])
        else []).
Proof.
  unfold setExplainAnalyzePlanResult, resultForPlan, rowsForPlan.
  rewrite !calls_bind, !calls_emit, !spans_emit.
  destruct (Err _); reflexivity.
Qed.

Lemma value_setExplainAnalyzePlanResult ih ctx (res : R) pt :
  value (setExplainAnalyzePlanResult ih ctx res pt []) =
    if is_nil (Err (resultForPlan ctx res))
    then value (addRows ctx (resultForPlan ctx res) (rowsForPlan ih pt) [])
    else (resultForPlan ctx res, None).
Proof.
  unfold setExplainAnalyzePlanResult, resultForPlan, rowsForPlan.
  rewrite !value_bind, !spans_emit.
  destruct (Err _); reflexivity.
Qed.

Lemma calls_finishTraceConsumer ih trace raw :
  calls (finishTraceConsumer ih trace raw []) =
    match ih_withStatementTrace ih with
    | Some f => [EvWithStatementTrace f trace raw]
    | None => []
    end.
Proof. unfold finishTraceConsumer. destruct (ih_withStatementTrace ih); reflexivity. Qed.

Lemma calls_finishStats ih stats p ast trace retErr :
  calls (finishStats ih stats p ast trace retErr []) =
    EvGetStatsForStmt (ih_fingerprint ih) (ih_implicitTxn ih) retErr false ::
    match getStatsForStmt stats (ih_fingerprint ih) (ih_implicitTxn ih)
            retErr false with
    | Some s =>
        calls (analyzeFlows ast trace (distSQLFlowInfos (curPlan p)) 0%Z [])
        ++ [EvLock s;
            EvRecord s 1
              (wrap64 (bytesOfFlows trace (distSQLFlowInfos (curPlan p))));
            EvUnlock s]
    | None => []
    end.
Proof.
  unfold finishStats. rewrite calls_bind, calls_emit, spans_emit.
  destruct (getStatsForStmt _ _ _ _ _) as [s|]; [|reflexivity].
  rewrite !calls_bind, !calls_emit, ?spans_emit.
  rewrite value_analyzeFlows_0. reflexivity.
Qed.

End BlockCalls.

(** *** The kind of calls each block makes *)

Section BlockKinds.
Context {E : Explain} {PT : PhaseTimer}.
Context {R : Type} {CR : RestrictedCommandResult R} {EB : ExplainBundle R}.

Lemma finishBundle_kind ih cfg p ast trace (res : R) retErr :
  Forall (fun e => is_bundle_block_event e = true)
    (calls (finishBundle ih cfg p ast trace res retErr [])).
Proof.
  rewrite calls_finishBundle.
  destruct (ih_collectBundle ih); [|constructor].
  destruct (ih_finishCollectionDiagnostics ih);
    destruct (writesBundleResult ih retErr);
    repeat (constructor; try reflexivity).
Qed.

Lemma finishTraceConsumer_kind ih trace raw :
  Forall (fun e => is_consumer_event e = true)
    (calls (finishTraceConsumer ih trace raw [])).
Proof.
  rewrite calls_finishTraceConsumer.
  destruct (ih_withStatementTrace ih); repeat (constructor; try reflexivity).
Qed.

Lemma finishExplainPlan_kind ih cfg sc (res : R) retErr :
  Forall (fun e => is_result_event e = true)
    (calls (finishExplainPlan ih cfg sc res retErr [])).
Proof.
  unfold finishExplainPlan.
  destruct (_ && _); [|constructor].
  rewrite calls_setExplainAnalyzePlanResult.
  repeat (constructor; [reflexivity|]).
  destruct (is_nil _); [apply calls_addRows_kind | constructor].
Qed.

Lemma finishStats_kind ih stats p ast trace retErr :
  Forall (fun e => is_stats_event e || is_analysis_event e = true)
    (calls (finishStats ih stats p ast trace retErr [])).
Proof.
  rewrite calls_finishStats. constructor; [reflexivity|].
  destruct (getStatsForStmt _ _ _ _ _); [|constructor].
  apply Forall_app. split.
  - kind_of (calls_analyzeFlows_kind ast trace
               (distSQLFlowInfos (curPlan p)) 0%Z).
  - repeat (constructor; try reflexivity).
Qed.

End BlockKinds.

(** ** Result writes and the returned error *)

Section ResultWrites.
Context {E : Explain} {PT : PhaseTimer}.
Context {R : Type} {CR : RestrictedCommandResult R} {EB : ExplainBundle R}.

Lemma finishBundle_writes ih cfg p ast trace (res : R) retErr :
  let rb := finishBundle ih cfg p ast trace res retErr [] in
  keeps_or_fails (calls rb) retErr (snd (value rb)).
Proof.
  cbv zeta. rewrite calls_finishBundle, value_finishBundle.
  unfold keeps_or_fails, writesBundleResult.
  destruct (ih_collectBundle ih); [|left; split; reflexivity].
  destruct (outputMode_eqb _ _), retErr as [e0|];
    cbn [andb is_nil];
    try (left; split; [|reflexivity];
         destruct (ih_finishCollectionDiagnostics ih); reflexivity).
  destruct (setExplainBundleResult _ _ _ _) as [res' [e|]]; cbn [snd].
  - right. exists e. repeat split.
    destruct (ih_finishCollectionDiagnostics ih); reflexivity.
  - left. split; [|reflexivity].
    destruct (ih_finishCollectionDiagnostics ih); reflexivity.
Qed.

Lemma finishExplainPlan_writes ih cfg sc (res : R) retErr :
  let rp := finishExplainPlan ih cfg sc res retErr [] in
  keeps_or_fails (calls rp) retErr (snd (value rp)).
Proof.
  cbv zeta. unfold finishExplainPlan, keeps_or_fails.
  destruct (outputMode_eqb _ _), retErr as [e0|]; cbn [andb is_nil];
    try (left; split; reflexivity).
  rewrite calls_setExplainAnalyzePlanResult,
    value_setExplainAnalyzePlanResult.
  rewrite writeErrors_app. cbn [writeErrors omap commErrorOf app].
  destruct (is_nil _); [|left; split; reflexivity].
  destruct (addRows_spec (ih_origCtx ih)
              (resultForPlan (ih_origCtx ih) res)
              (rowsForPlan ih
                 (if DeterministicExplainAnalyze (TestingKnobs cfg)
                  then deterministicPhaseTimes else sc_phaseTimes sc)))
    as [Hw _].
  cbv zeta in Hw. fold writeErrors. rewrite Hw.
  destruct (snd (value _)) as [e|].
  - right. exists e. repeat split.
  - left. split; reflexivity.
Qed.

Lemma writeErrors_finishTraceConsumer ih trace raw :
  writeErrors (calls (finishTraceConsumer ih trace raw [])) = [].
Proof.
  apply omap_none. kind_of (finishTraceConsumer_kind ih trace raw).
Qed.

Lemma writeErrors_finishStats ih stats p ast trace retErr :
  writeErrors (calls (finishStats ih stats p ast trace retErr [])) = [].
Proof.
  apply omap_none. kind_of (finishStats_kind ih stats p ast trace retErr).
Qed.

(** C1.  [Finish] returns the communication error of a failed result
    write (the bundle-locator write of [setExplainBundleResult] or an
    [AddRow] of [setExplainAnalyzePlanResult]) whenever one occurs, and
    in every other case returns the error it was given, unchanged.  At
    most one write fails in a call. *)
Theorem Finish_returns_write_error ih cfg stats sc p ast raw
    (res : R) retErr t :
  let r := Finish ih cfg stats sc p ast raw res retErr t in
  snd (value r)
  = match writeErrors (calls r) with
    | [] => retErr
    | commErr :: _ => Some commErr
    end
  /\ length (writeErrors (calls r)) <= 1.
Proof.
  cbv zeta. destruct (ih_sp ih) as [sp|] eqn:Hsp.
  - rewrite (Finish_armed ih cfg stats sc p ast raw res retErr t sp Hsp).
    cbv zeta. cbn [value calls fst snd].
    rewrite !writeErrors_app, writeErrors_finishTraceConsumer,
      writeErrors_finishStats.
    change (writeErrors [EvSpanFinish sp; EvSpanGetRecording sp])
      with (@nil error).
    rewrite app_nil_r. cbn [app].
    pose proof (finishBundle_writes ih cfg p ast (recordingOf sp t) res
                  retErr) as Hb.
    cbv zeta in Hb.
    set (rb := finishBundle ih cfg p ast (recordingOf sp t) res retErr [])
      in *.
    pose proof (finishExplainPlan_writes ih cfg sc (fst (value rb))
                  (snd (value rb))) as Hp.
    cbv zeta in Hp.
    set (rp := finishExplainPlan ih cfg sc (fst (value rb))
                 (snd (value rb)) []) in *.
    destruct Hb as [[Hb1 Hb2] | (e & Hb1 & Hb2 & Hb3)];
      destruct Hp as [[Hp1 Hp2] | (e' & Hp1 & Hp2 & Hp3)];
      rewrite Hb1, Hp1, Hp2; cbn [app length]; try congruence;
      try (split; [congruence | lia]).
  - rewrite (Finish_nil_span ih cfg stats sc p ast raw res retErr t Hsp).
    cbn. split; [reflexivity | lia].
Qed.

(** X9.  Given a non-nil error, [Finish] attempts no result write in any
    mode: it returns the result and the error unchanged. *)
Lemma Finish_given_error_writes_nothing ih cfg stats sc p ast raw
    (res : R) e t :
  let r := Finish ih cfg stats sc p ast raw res (Some e) t in
  value r = (res, Some e)
  /\ List.filter is_result_event (calls r) = []
  /\ writeErrors (calls r) = [].
Proof.
  cbv zeta. destruct (ih_sp ih) as [sp|] eqn:Hsp.
  - rewrite (Finish_armed ih cfg stats sc p ast raw res (Some e) t sp Hsp).
    cbv zeta. cbn [value calls fst snd].
    rewrite value_finishBundle.
    assert (Hw : writesBundleResult ih (Some e) = false).
    { unfold writesBundleResult. cbn [is_nil]. apply andb_false_r. }
    rewrite Hw. cbn [fst snd].
    assert (Hp : finishExplainPlan ih cfg sc res (Some e) = ret (res, Some e)).
    { unfold finishExplainPlan. cbn [is_nil]. rewrite andb_false_r.
      reflexivity. }
    rewrite Hp, value_ret, calls_ret. split; [reflexivity|].
    rewrite !List.filter_app, !writeErrors_app,
      writeErrors_finishTraceConsumer, writeErrors_finishStats.
    rewrite (filter_none is_result_event
               (calls (finishTraceConsumer _ _ _ _)))
      by kind_of (finishTraceConsumer_kind ih (recordingOf sp t) raw).
    rewrite (filter_none is_result_event (calls (finishStats _ _ _ _ _ _ _)))
      by kind_of (finishStats_kind ih stats p ast (recordingOf sp t) (Some e)).
    rewrite calls_finishBundle, Hw.
    destruct (ih_collectBundle ih), (ih_finishCollectionDiagnostics ih);
      split; reflexivity.
  - rewrite (Finish_nil_span ih cfg stats sc p ast raw res (Some e) t Hsp).
    repeat split.
Qed.

End ResultWrites.

(** ** Bundle collection and statistics *)

Section BundleAndStats.
Context {E : Explain} {PT : PhaseTimer}.
Context {R : Type} {CR : RestrictedCommandResult R} {EB : ExplainBundle R}.

Lemma filter_stats_Finish ih cfg stats sc p ast raw (res : R) retErr t sp :
  ih_sp ih = Some sp ->
  let r := Finish ih cfg stats sc p ast raw res retErr t in
  List.filter is_stats_event (calls r) =
    EvGetStatsForStmt (ih_fingerprint ih) (ih_implicitTxn ih)
      (snd (value r)) false ::
    match getStatsForStmt stats (ih_fingerprint ih) (ih_implicitTxn ih)
            (snd (value r)) false with
    | Some s =>
        [EvLock s;
         EvRecord s 1
           (wrap64 (bytesOfFlows (recordingOf sp t)
                      (distSQLFlowInfos (curPlan p))));
         EvUnlock s]
    | None => []
    end.
Proof.
  intros Hsp. cbv zeta.
  rewrite (Finish_armed ih cfg stats sc p ast raw res retErr t sp Hsp).
  cbv zeta. cbn [value calls fst snd].
  set (trace := recordingOf sp t).
  set (rb := finishBundle ih cfg p ast trace res retErr []).
  set (rp := finishExplainPlan ih cfg sc (fst (value rb)) (snd (value rb)) []).
  rewrite !List.filter_app.
  rewrite (filter_none is_stats_event (calls rb))
    by kind_of (finishBundle_kind ih cfg p ast trace res retErr).
  rewrite (filter_none is_stats_event (calls (finishTraceConsumer _ _ _ _)))
    by kind_of (finishTraceConsumer_kind ih trace raw).
  rewrite (filter_none is_stats_event (calls rp))
    by kind_of (finishExplainPlan_kind ih cfg sc (fst (value rb))
                  (snd (value rb))).
  rewrite calls_finishStats. cbn [List.filter is_stats_event app].
  f_equal. destruct (getStatsForStmt _ _ _ _ _) as [s|]; [|reflexivity].
  rewrite List.filter_app.
  rewrite (filter_none is_stats_event (calls (analyzeFlows _ _ _ _ _)))
    by kind_of (calls_analyzeFlows_kind ast trace
                  (distSQLFlowInfos (curPlan p)) 0%Z).
  reflexivity.
Qed.

(** C2 (amended).  On every [Finish] call on an armed helper, [Finish]
    asks the statistics collaborator once for the record of
    (fingerprint, implicit-transaction, returned error) without asking to
    create it.  When a record is returned, the only calls on it are lock,
    record and unlock, in that order, and the value recorded (count 1) is
    the int64 sum of the bytes sent over all nodes of all distributed
    flows whose analysis succeeds; it is the exact sum when that fits
    int64.  When no record is returned nothing is recorded. *)
Theorem Finish_folds_network_bytes ih cfg stats sc p ast raw
    (res : R) retErr t sp :
  ih_sp ih = Some sp ->
  let r := Finish ih cfg stats sc p ast raw res retErr t in
  let total := bytesOfFlows (recordingOf sp t) (distSQLFlowInfos (curPlan p)) in
  List.filter is_stats_event (calls r) =
    EvGetStatsForStmt (ih_fingerprint ih) (ih_implicitTxn ih)
      (snd (value r)) false ::
    match getStatsForStmt stats (ih_fingerprint ih) (ih_implicitTxn ih)
            (snd (value r)) false with
    | Some s => [EvLock s; EvRecord s 1 (wrap64 total); EvUnlock s]
    | None => []
    end
  /\ (in_int64 total -> wrap64 total = total).
Proof.
  intros Hsp r total. split.
  - apply filter_stats_Finish. exact Hsp.
  - apply wrap64_in_range.
Qed.

Lemma filter_bundle_Finish ih cfg stats sc p ast raw (res : R) retErr t sp :
  ih_sp ih = Some sp ->
  List.filter is_bundle_event
    (calls (Finish ih cfg stats sc p ast raw res retErr t)) =
    if ih_collectBundle ih then
      [EvBuildStatementBundle (planStringForBundle ih) (recordingOf sp t)
         (ctx_Placeholders (extendedEvalCtx p));
       EvBundleInsert (ih_fingerprint ih) ast (ih_diagRequestID ih)]
      ++ match ih_finishCollectionDiagnostics ih with
         | Some done => [EvFinishCollectionDiagnostics done; EvTelemetryInc]
         | None => []
         end
    else [].
Proof.
  intros Hsp.
  rewrite (Finish_armed ih cfg stats sc p ast raw res retErr t sp Hsp).
  cbv zeta. cbn [value calls fst snd].
  set (trace := recordingOf sp t).
  set (rb := finishBundle ih cfg p ast trace res retErr []).
  set (rp := finishExplainPlan ih cfg sc (fst (value rb)) (snd (value rb)) []).
  rewrite !List.filter_app.
  rewrite (filter_none is_bundle_event (calls (finishTraceConsumer _ _ _ _)))
    by kind_of (finishTraceConsumer_kind ih trace raw).
  rewrite (filter_none is_bundle_event (calls rp))
    by kind_of (finishExplainPlan_kind ih cfg sc (fst (value rb))
                  (snd (value rb))).
  rewrite (filter_none is_bundle_event (calls (finishStats _ _ _ _ _ _ _)))
    by kind_of (finishStats_kind ih stats p ast trace (snd (value rp))).
  cbn [List.filter is_bundle_event app]. rewrite !app_nil_r.
  subst rb. rewrite calls_finishBundle.
  destruct (ih_collectBundle ih); [|reflexivity].
  destruct (ih_finishCollectionDiagnostics ih),
    (writesBundleResult ih retErr); reflexivity.
Qed.

(** C3 (amended).  Whenever collectBundle is set on an armed helper,
    [Finish] builds one diagnostics bundle from the verbose plan string,
    the span's recording and the placeholders, and persists it once,
    keyed by (fingerprint, statement, request id).  When the helper holds
    a completion callback it then calls the callback once and increments
    the telemetry counter once; when it holds none, it does neither. *)
Theorem Finish_collects_bundle ih cfg stats sc p ast raw (res : R) retErr t sp :
  ih_collectBundle ih = true ->
  ih_sp ih = Some sp ->
  List.filter is_bundle_event
    (calls (Finish ih cfg stats sc p ast raw res retErr t)) =
    [EvBuildStatementBundle (planStringForBundle ih) (recordingOf sp t)
       (ctx_Placeholders (extendedEvalCtx p));
     EvBundleInsert (ih_fingerprint ih) ast (ih_diagRequestID ih)]
    ++ match ih_finishCollectionDiagnostics ih with
       | Some done => [EvFinishCollectionDiagnostics done; EvTelemetryInc]
       | None => []
       end.
Proof.
  intros Hcb Hsp. rewrite (filter_bundle_Finish _ _ _ _ _ _ _ _ _ _ sp Hsp).
  rewrite Hcb. reflexivity.
Qed.

Lemma value_Finish_setFlows ih cfg stats sc p ast raw (res : R) retErr t flows :
  value (Finish ih cfg stats sc (setFlows p flows) ast raw res retErr t)
  = value (Finish ih cfg stats sc p ast raw res retErr t).
Proof.
  destruct (ih_sp ih) as [sp|] eqn:Hsp.
  - rewrite !(Finish_armed ih cfg stats sc _ ast raw res retErr t sp Hsp).
    cbv zeta. cbn [value fst snd]. rewrite !value_finishBundle.
    reflexivity.
  - rewrite !(Finish_nil_span ih cfg stats sc _ ast raw res retErr t Hsp).
    reflexivity.
Qed.

(** C8.  A distributed flow whose trace analysis fails ([AddTrace] or
    [GetNetworkBytesSent] returns an error) adds nothing to the
    network-bytes total: the loop computes the same total as without that
    flow, the int64 sum over the remaining flows, and that is what is
    recorded.  What [Finish] returns does not depend on the flows at
    all. *)
Theorem failed_flow_is_skipped ih cfg stats sc p ast raw (res : R) retErr t sp
    flows1 flow flows2 :
  ih_sp ih = Some sp ->
  flowBytes (recordingOf sp t) flow = None ->
  let trace := recordingOf sp t in
  let r := Finish ih cfg stats sc (setFlows p (flows1 ++ flow :: flows2))
             ast raw res retErr t in
  let r' := Finish ih cfg stats sc (setFlows p (flows1 ++ flows2))
              ast raw res retErr t in
  value (analyzeFlows ast trace (flows1 ++ flow :: flows2) 0%Z [])
  = wrap64 (bytesOfFlows trace flows1 + bytesOfFlows trace flows2)
  /\ value (analyzeFlows ast trace (flows1 ++ flow :: flows2) 0%Z [])
     = value (analyzeFlows ast trace (flows1 ++ flows2) 0%Z [])
  /\ List.filter is_stats_event (calls r)
     = List.filter is_stats_event (calls r')
  /\ (forall flows,
        value (Finish ih cfg stats sc (setFlows p flows) ast raw res retErr t)
        = value r).
Proof.
  intros Hsp Hfail trace r r'. repeat split.
  - rewrite value_analyzeFlows_0, bytesOfFlows_skip by exact Hfail.
    rewrite bytesOfFlows_app. reflexivity.
  - rewrite !value_analyzeFlows_0, bytesOfFlows_skip by exact Hfail.
    reflexivity.
  - subst r r'.
    rewrite !(filter_stats_Finish _ _ _ _ _ _ _ _ _ _ sp Hsp).
    rewrite !value_Finish_setFlows. cbn [setFlows curPlan distSQLFlowInfos].
    rewrite bytesOfFlows_skip by exact Hfail. reflexivity.
  - intros flows. subst r. rewrite !value_Finish_setFlows. reflexivity.
Qed.

End BundleAndStats.

(** ** Deterministic phase times and plan rendering *)

Section Rendering.
Context {E : Explain} {PT : PhaseTimer}.
Context {R : Type} {CR : RestrictedCommandResult R} {EB : ExplainBundle R}.

(** C10.  When a plan was recorded and rendering it for the bundle fails
    with error [err], [planStringForBundle] is the text
    "error emitting plan: " followed by [err], which is not empty; with
    collectBundle set on an armed helper, [Finish] still builds the bundle
    with that text as its plan string and persists it.  [PlanForStats]
    instead returns nil when its own rendering fails. *)
Theorem planStringForBundle_render_error ih plan ob err :
  ih_explainPlan ih = Some plan ->
  emitExplain
    (NewOutputBuilder {| Verbose := true; ShowTypes := true;
                         HideValues := false |})
    (ih_evalCtx ih) (ih_codec ih) plan (ih_distribution ih)
    (ih_vectorized ih) = (ob, Some err) ->
  planStringForBundle ih = "error emitting plan: " +:+ err
  /\ planStringForBundle ih <> ""
  /\ (forall cfg stats sc p ast raw (res : R) retErr t sp,
        ih_collectBundle ih = true ->
        ih_sp ih = Some sp ->
        List.filter is_bundle_event
          (calls (Finish ih cfg stats sc p ast raw res retErr t)) =
          [EvBuildStatementBundle ("error emitting plan: " +:+ err)
             (recordingOf sp t) (ctx_Placeholders (extendedEvalCtx p));
           EvBundleInsert (ih_fingerprint ih) ast (ih_diagRequestID ih)]
          ++ match ih_finishCollectionDiagnostics ih with
             | Some done =>
                 [EvFinishCollectionDiagnostics done; EvTelemetryInc]
             | None => []
             end)
  /\ (forall ctx t ob' err',
        emitExplain
          (NewOutputBuilder {| Verbose := false; ShowTypes := false;
                               HideValues := true |})
          (ih_evalCtx ih) (ih_codec ih) plan (ih_distribution ih)
          (ih_vectorized ih) = (ob', Some err') ->
        value (PlanForStats ih ctx t) = None).
Proof.
  intros Hplan Hemit.
  assert (Hstr : planStringForBundle ih = "error emitting plan: " +:+ err).
  { unfold planStringForBundle. rewrite Hplan, Hemit. reflexivity. }
  split; [exact Hstr|]. split; [rewrite Hstr; discriminate|]. split.
  - intros cfg stats sc p ast raw res retErr t sp Hcb Hsp.
    rewrite (filter_bundle_Finish _ _ _ _ _ _ _ _ _ _ sp Hsp), Hcb, Hstr.
    reflexivity.
  - intros ctx t ob' err' Hemit'. unfold PlanForStats.
    rewrite Hplan, Hemit'. reflexivity.
Qed.

End Rendering.

(** ** The span over a sequence of calls *)

Section SpanLifecycle.
Context {E : Explain} {PT : PhaseTimer}.
Context {R : Type} {CR : RestrictedCommandResult R} {EB : ExplainBundle R}.

Lemma filter_span_Finish ih cfg stats sc p ast raw (res : R) retErr t sp :
  ih_sp ih = Some sp ->
  List.filter is_span_event
    (calls (Finish ih cfg stats sc p ast raw res retErr t))
  = [EvSpanFinish sp; EvSpanGetRecording sp].
Proof.
  intros Hsp.
  rewrite (Finish_armed ih cfg stats sc p ast raw res retErr t sp Hsp).
  cbv zeta. cbn [value calls fst snd].
  set (trace := recordingOf sp t).
  set (rb := finishBundle ih cfg p ast trace res retErr []).
  set (rp := finishExplainPlan ih cfg sc (fst (value rb)) (snd (value rb)) []).
  rewrite !List.filter_app.
  rewrite (filter_none is_span_event (calls rb))
    by kind_of (finishBundle_kind ih cfg p ast trace res retErr).
  rewrite (filter_none is_span_event (calls (finishTraceConsumer _ _ _ _)))
    by kind_of (finishTraceConsumer_kind ih trace raw).
  rewrite (filter_none is_span_event (calls rp))
    by kind_of (finishExplainPlan_kind ih cfg sc (fst (value rb))
                  (snd (value rb))).
  rewrite (filter_none is_span_event (calls (finishStats _ _ _ _ _ _ _)))
    by kind_of (finishStats_kind ih stats p ast trace (snd (value rp))).
  reflexivity.
Qed.

(** Without a further [Setup], each [Finish] call on the helper runs the
    span's [Finish] once more and then reads its recording. *)
Lemma run_finishes_span cs ih (res : R) t sp :
  ih_sp ih = Some sp ->
  sp < length t ->
  existsb is_Setup cs = false ->
  let r := run cs (ih, res) t in
  finishedCount sp (spans r)
  = finishedCount sp t + length (List.filter is_Finish cs)
  /\ List.filter is_span_event (calls r) = spanEventsOf sp cs.
Proof.
  revert ih res t. induction cs as [|c cs IH]; intros ih res t Hsp Hlt Hcs.
  - cbn. split; [lia | reflexivity].
  - cbn [existsb] in Hcs. apply orb_false_iff in Hcs as [Hc Hcs].
    cbv zeta. cbn [run].
    rewrite ?spans_bind, ?calls_bind, ?value_bind, ?spans_ret, ?calls_ret,
      ?app_nil_r, ?List.filter_app.
    assert (Hstep :
      ih_sp (fst (fst (value (step c (ih, res) t)))) = Some sp
      /\ length (spans (step c (ih, res) t)) = length t
      /\ finishedCount sp (spans (step c (ih, res) t))
         = finishedCount sp t + (if is_Finish c then 1 else 0)
      /\ List.filter is_span_event (calls (step c (ih, res) t))
         = if is_Finish c then [EvSpanFinish sp; EvSpanGetRecording sp]
           else []).
    { destruct c; try discriminate Hc; cbn [step fst snd is_Finish];
        rewrite ?value_bind, ?spans_bind, ?calls_bind, ?value_ret,
          ?spans_ret, ?calls_ret, ?app_nil_r; cbn [fst snd];
        rewrite ?ih_sp_SetOutputMode, ?ih_sp_SetDiscardRows,
          ?ih_sp_RecordExplainPlan, ?ih_sp_RecordPlanInfo;
        try (repeat split; [assumption | lia]).
      - rewrite (filter_span_Finish _ _ _ _ _ _ _ _ _ _ sp Hsp).
        rewrite (Finish_armed ih cfg stats statsCollector p ast stmtRawSQL
                   res retErr t sp Hsp).
        cbv zeta. cbn [spans fst snd].
        rewrite length_alter, finishedCount_finish by exact Hlt.
        repeat split; [assumption | lia].
      - rewrite (stateless_spans _ t (stateless_PlanForStats ih ctx)).
        rewrite (filter_none is_span_event).
        + repeat split; [assumption | lia].
        + unfold PlanForStats.
          destruct (ih_explainPlan ih); [|constructor].
          destruct (snd (emitExplain _ _ _ _ _ _));
            repeat (constructor; try reflexivity). }
    destruct Hstep as (Hsp' & Hlen & Hcount & Hev).
    destruct (fst (value (step c (ih, res) t))) as [ih' res'] eqn:Hst.
    cbn [fst] in Hsp'.
    destruct (IH ih' res' (spans (step c (ih, res) t)) Hsp'
                ltac:(rewrite Hlen; exact Hlt) Hcs) as [IH1 IH2].
    cbv zeta in IH1, IH2. rewrite IH1, IH2, Hcount, Hev.
    unfold spanEventsOf. cbn [List.filter].
    destruct (is_Finish c); cbn [map concat length app]; split;
      try reflexivity; lia.
Qed.

(** C6 (amended).  After a [Setup] that created a span, over any sequence
    of public calls without a further [Setup], the span's [Finish] runs
    once per [Finish] call on the helper (exactly once when the helper's
    [Finish] is called exactly once), and the only span calls are, for
    each [Finish], the span's [Finish] followed by [GetRecording]. *)
Theorem span_finished_once_per_Finish ih0 ctx cfg stats p reg fingerprint
    implicitTxn t0 cs (res : R) :
  let r0 := Setup ih0 ctx cfg stats p reg fingerprint implicitTxn t0 in
  snd (snd (value r0)) = true ->
  existsb is_Setup cs = false ->
  let sp := length t0 in
  let r := run cs (fst (value r0), res) (spans r0) in
  ih_sp (fst (value r0)) = Some sp
  /\ finishedCount sp (spans r0) = 0
  /\ finishedCount sp (spans r) = length (List.filter is_Finish cs)
  /\ List.filter is_span_event (calls r) = spanEventsOf sp cs.
Proof.
  intros r0 Harmed Hcs sp r.
  pose proof (Setup_span ih0 ctx cfg stats p reg fingerprint
                implicitTxn t0) as HS.
  cbv zeta in HS. fold r0 in HS.
  rewrite Harmed in HS. destruct HS as (Hspans & Hsp).
  assert (Hzero : finishedCount sp (spans r0) = 0).
  { unfold finishedCount. rewrite Hspans.
    rewrite lookup_app_r by (unfold sp; lia).
    unfold sp. rewrite Nat.sub_diag. reflexivity. }
  assert (Hlt : sp < length (spans r0)).
  { rewrite Hspans, length_app. cbn. unfold sp. lia. }
  destruct (run_finishes_span cs (fst (value r0)) res (spans r0) sp
              Hsp Hlt Hcs) as [H1 H2].
  cbv zeta in H1, H2. fold r in H1, H2.
  repeat split; [exact Hsp | exact Hzero | lia | exact H2].
Qed.

End SpanLifecycle.

(** * The properties on sample executions *)

(** ** Setup and the idle path *)

Example Setup_idle_needs_no_finish :
  value (Setup zeroHelper Background (sampleCfg idleRegistry None false)
           knownStats (samplePlanner []) idleRegistry "SELECT _" true [])
  = (set_codec 0 (set_implicitTxn true (set_fingerprint "SELECT _" zeroHelper)),
     (Background, false)).
Proof. reflexivity. Qed.

Lemma Finish_noop_when_never_armed_witness :
  existsb armed (snd (value (run idleCalls (zeroHelper, emptyResult 3) [])))
  = false
  /\ step (sampleFinish false knownStats (Some "query error"))
       (fst (value (run idleCalls (zeroHelper, emptyResult 3) [])))
       (spans (run idleCalls (zeroHelper, emptyResult 3) []))
     = ((fst (value (run idleCalls (zeroHelper, emptyResult 3) [])),
         OutFinish (Some "query error")),
        spans (run idleCalls (zeroHelper, emptyResult 3) []), []).
Proof.
  split; [reflexivity|].
  apply (Finish_noop_when_never_armed idleCalls (emptyResult 3) []).
  reflexivity.
Defined.

(** ** The span *)

Lemma span_finished_once_per_Finish_witness :
  let r0 := Setup (SetOutputMode zeroHelper explainAnalyzeDebugOutput noFlags)
              Background (sampleCfg idleRegistry None false) knownStats
              (samplePlanner sampleFlows) idleRegistry "SELECT _" true [] in
  let cs := [CallRecordExplainPlan 3; sampleFinish false knownStats None;
             CallShouldDiscardRows] in
  let r := run cs (fst (value r0), emptyResult 5) (spans r0) in
  snd (snd (value r0)) = true
  /\ existsb is_Setup cs = false
  /\ finishedCount 0 (spans r) = 1
  /\ List.filter is_span_event (calls r)
     = [EvSpanFinish 0; EvSpanGetRecording 0].
Proof.
  cbv zeta. split; [reflexivity|]. split; [reflexivity|].
  pose proof (span_finished_once_per_Finish
                (SetOutputMode zeroHelper explainAnalyzeDebugOutput noFlags)
                Background (sampleCfg idleRegistry None false) knownStats
                (samplePlanner sampleFlows) idleRegistry "SELECT _" true []
                [CallRecordExplainPlan 3; sampleFinish false knownStats None;
                 CallShouldDiscardRows]
                (emptyResult 5) eq_refl eq_refl) as H.
  cbv zeta in H. destruct H as (_ & _ & H1 & H2).
  split; [exact H1 | exact H2].
Defined.

(** Calling the helper's [Finish] twice finishes the span twice. *)
Lemma span_finished_twice_counterexample :
  let r0 := Setup (SetOutputMode zeroHelper explainAnalyzeDebugOutput noFlags)
              Background (sampleCfg idleRegistry None false) knownStats
              (samplePlanner sampleFlows) idleRegistry "SELECT _" true [] in
  let cs := [sampleFinish false knownStats None;
             sampleFinish false knownStats None] in
  let r := run cs (fst (value r0), emptyResult 5) (spans r0) in
  snd (snd (value r0)) = true
  /\ finishedCount 0 (spans r) = 2
  /\ finishedCount 0 (spans r) <> 1
  /\ List.filter is_span_event (calls r)
     = [EvSpanFinish 0; EvSpanGetRecording 0;
        EvSpanFinish 0; EvSpanGetRecording 0].
Proof.
  cbv zeta. split; [reflexivity|]. split; [reflexivity|].
  split; [discriminate | reflexivity].
Qed.

(** ** The bundle *)

Lemma Finish_collects_bundle_witness :
  ih_collectBundle requestedHelper = true
  /\ ih_sp requestedHelper = Some 0
  /\ List.filter is_bundle_event
       (calls (Finish requestedHelper (sampleCfg collectRegistry None false)
                 knownStats sampleCollector (samplePlanner sampleFlows)
                 sampleStatement "SELECT 1" (emptyResult 5) None tracedSpans))
     = [EvBuildStatementBundle (planStringForBundle requestedHelper)
          (recordingOf 0 tracedSpans) ["$1"];
        EvBundleInsert "SELECT _" sampleStatement 7%Z;
        EvFinishCollectionDiagnostics 1; EvTelemetryInc].
Proof.
  split; [reflexivity|]. split; [reflexivity|].
  apply (Finish_collects_bundle requestedHelper
           (sampleCfg collectRegistry None false) knownStats sampleCollector
           (samplePlanner sampleFlows) sampleStatement "SELECT 1"
           (emptyResult 5) None tracedSpans 0); reflexivity.
Defined.

(** In EXPLAIN ANALYZE (DEBUG) mode collectBundle is set and the span is
    armed, yet no completion callback is called and the telemetry counter
    is not incremented. *)
Lemma debug_bundle_no_telemetry_counterexample :
  let r := Finish debugHelper (sampleCfg idleRegistry None false) knownStats
             sampleCollector (samplePlanner sampleFlows) sampleStatement
             "SELECT 1" (emptyResult 5) None tracedSpans in
  ih_collectBundle debugHelper = true
  /\ ih_sp debugHelper = Some 0
  /\ List.filter is_bundle_event (calls r)
     = [EvBuildStatementBundle "error emitting plan: unsupported plan"
          (recordingOf 0 tracedSpans) ["$1"];
        EvBundleInsert "SELECT _" sampleStatement 0%Z]
  /\ ~ In EvTelemetryInc (calls r).
Proof.
  cbv zeta. split; [reflexivity|]. split; [reflexivity|].
  split; [reflexivity|].
  intros H. vm_compute in H.
  repeat (destruct H as [H|H]; [discriminate H|]). exact H.
Qed.

Lemma planStringForBundle_render_error_witness :
  ih_explainPlan debugHelper = Some 0
  /\ planStringForBundle debugHelper
     = "error emitting plan: " +:+ "unsupported plan"
  /\ planStringForBundle debugHelper <> ""
  /\ value (PlanForStats debugHelper Background []) = None.
Proof.
  split; [reflexivity|].
  destruct (planStringForBundle_render_error (E:=lineExplain)
              (R:=bufferedResult) debugHelper 0 (@nil string)
              "unsupported plan" eq_refl eq_refl) as (H1 & H2 & _ & H4).
  split; [exact H1|]. split; [exact H2|].
  exact (H4 Background [] (@nil string) "unsupported plan" eq_refl).
Defined.

(** ** Statistics *)

Lemma Finish_folds_network_bytes_witness :
  let r := Finish requestedHelper (sampleCfg collectRegistry None false)
             knownStats sampleCollector (samplePlanner sampleFlows)
             sampleStatement "SELECT 1" (emptyResult 5) None tracedSpans in
  ih_sp requestedHelper = Some 0
  /\ List.filter is_stats_event (calls r)
     = [EvGetStatsForStmt "SELECT _" true None false;
        EvLock 0; EvRecord 0 1 157; EvUnlock 0].
Proof.
  cbv zeta. split; [reflexivity|].
  exact (proj1 (Finish_folds_network_bytes requestedHelper
                  (sampleCfg collectRegistry None false) knownStats
                  sampleCollector (samplePlanner sampleFlows) sampleStatement
                  "SELECT 1" (emptyResult 5) None tracedSpans 0 eq_refl)).
Defined.

(** Asked without create-if-missing, statistics that hold no record for
    the statement return nil: [Finish] records nothing, although the flows
    sent 157 bytes. *)
Lemma no_record_no_fold_counterexample :
  let r := Finish requestedHelper (sampleCfg collectRegistry None false)
             freshStats sampleCollector (samplePlanner sampleFlows)
             sampleStatement "SELECT 1" (emptyResult 5) None tracedSpans in
  ih_sp requestedHelper = Some 0
  /\ bytesOfFlows (recordingOf 0 tracedSpans) sampleFlows = 157%Z
  /\ List.filter is_stats_event (calls r)
     = [EvGetStatsForStmt "SELECT _" true None false]
  /\ (forall s count val, ~ In (EvRecord s count val) (calls r)).
Proof.
  cbv zeta. split; [reflexivity|]. split; [reflexivity|].
  split; [reflexivity|].
  intros s count val H. vm_compute in H.
  repeat (destruct H as [H|H]; [discriminate H|]). exact H.
Qed.

Lemma failed_flow_is_skipped_witness :
  let p := samplePlanner [] in
  let trace := recordingOf 0 tracedSpans in
  let flows1 := [goodFlow [(1%Z, 100%Z); (2%Z, 50%Z)]] in
  let flows2 := [badBytesFlow; goodFlow [(3%Z, 7%Z)]] in
  flowBytes trace badTraceFlow = None
  /\ value (analyzeFlows sampleStatement trace
              (flows1 ++ badTraceFlow :: flows2) 0%Z []) = 157%Z
  /\ value (analyzeFlows sampleStatement trace (flows1 ++ flows2) 0%Z [])
     = 157%Z
  /\ value (Finish requestedHelper (sampleCfg collectRegistry None false)
              knownStats sampleCollector
              (setFlows p (flows1 ++ badTraceFlow :: flows2))
              sampleStatement "SELECT 1" (emptyResult 5)
              (Some "query error") tracedSpans)
     = (emptyResult 5, Some "query error").
Proof.
  cbv zeta. split; [reflexivity|].
  destruct (failed_flow_is_skipped requestedHelper
              (sampleCfg collectRegistry None false) knownStats sampleCollector
              (samplePlanner []) sampleStatement "SELECT 1" (emptyResult 5)
              (Some "query error") tracedSpans 0
              [goodFlow [(1%Z, 100%Z); (2%Z, 50%Z)]] badTraceFlow
              [badBytesFlow; goodFlow [(3%Z, 7%Z)]] eq_refl eq_refl)
    as (H1 & H2 & _ & H4).
  split; [exact H1|]. split; [rewrite <- H2; exact H1|].
  rewrite <- (H4 []). reflexivity.
Defined.

(** ** EXPLAIN ANALYZE (PLAN) *)

Example broken_connection_error_is_returned :
  let r := Finish planHelper (sampleCfg idleRegistry None false) knownStats
             sampleCollector (samplePlanner sampleFlows) sampleStatement
             "SELECT 1" (emptyResult 1) None tracedSpans in
  writeErrors (calls r) = ["write failed: connection closed"]
  /\ snd (value r) = Some "write failed: connection closed".
Proof. cbv zeta. split; reflexivity. Qed.

(** * Further properties of the helper *)

(** ** What [Setup] decides in each output mode *)

Ltac setup_cases ih cfg :=
  destruct ih as [mode fl fp itx codec cb dr id fcd wst sp octx ectx sps pl ds vec];
  destruct cfg as [cdc db rec [consumer det]];
  unfold Setup;
  cbn [ih_outputMode set_fingerprint set_implicitTxn set_codec].

(** X1.  In EXPLAIN ANALYZE (DEBUG) mode [Setup] sets collectBundle and
    discardRows, always asks for [Finish], and does not consult the
    diagnostics registry: the request id and the completion callback stay
    as they were, and the only calls are the plan-saving question and the
    start of the span. *)
Theorem Setup_debug_mode ih ctx cfg stats p reg fingerprint implicitTxn t :
  ih_outputMode ih = explainAnalyzeDebugOutput ->
  let r := Setup ih ctx cfg stats p reg fingerprint implicitTxn t in
  let ih' := fst (value r) in
  ShouldCollectBundle ih' = true
  /\ ShouldDiscardRows ih' = true
  /\ ShouldBuildExplainPlan ih' = true
  /\ snd (snd (value r)) = true
  /\ ih_diagRequestID ih' = ih_diagRequestID ih
  /\ ih_finishCollectionDiagnostics ih' = ih_finishCollectionDiagnostics ih
  /\ calls r = [EvShouldSaveLogicalPlanDescription fingerprint implicitTxn;
                EvStartSnowballTrace "traced statement" (length t)].
Proof.
  intros Hmode. setup_cases ih cfg. cbn in Hmode. subst mode.
  cbn. repeat split.
Qed.

(** X2.  In EXPLAIN ANALYZE (PLAN) mode [Setup] sets discardRows, always
    asks for [Finish] and makes callers build the explain plan; it leaves
    collectBundle as it was and does not consult the diagnostics
    registry. *)
Theorem Setup_plan_mode ih ctx cfg stats p reg fingerprint implicitTxn t :
  ih_outputMode ih = explainAnalyzePlanOutput ->
  let r := Setup ih ctx cfg stats p reg fingerprint implicitTxn t in
  let ih' := fst (value r) in
  ShouldDiscardRows ih' = true
  /\ ShouldBuildExplainPlan ih' = true
  /\ ShouldCollectBundle ih' = ShouldCollectBundle ih
  /\ snd (snd (value r)) = true
  /\ calls r = [EvShouldSaveLogicalPlanDescription fingerprint implicitTxn;
                EvStartSnowballTrace "traced statement" (length t)].
Proof.
  intros Hmode. setup_cases ih cfg. cbn in Hmode. subst mode.
  destruct cb, consumer,
    (shouldSaveLogicalPlanDescription stats fingerprint implicitTxn) eqn:Hs;
    cbn; rewrite ?Hs; unfold ShouldBuildExplainPlan; cbn; rewrite ?Hs;
    repeat split.
Qed.

(** X3.  In Unmodified mode [Setup] asks the diagnostics registry first and
    takes collectBundle, the request id and the completion callback from
    its answer; discardRows stays as it was, and [Finish] is needed exactly
    when the registry asks for a bundle or a trace consumer is
    registered. *)
Theorem Setup_unmodified_mode ih ctx cfg stats p reg fingerprint implicitTxn t :
  ih_outputMode ih = unmodifiedOutput ->
  let r := Setup ih ctx cfg stats p reg fingerprint implicitTxn t in
  let ih' := fst (value r) in
  let answer := ShouldCollectDiagnostics reg ctx fingerprint in
  (ShouldCollectBundle ih', ih_diagRequestID ih',
   ih_finishCollectionDiagnostics ih') = answer
  /\ ShouldDiscardRows ih' = ShouldDiscardRows ih
  /\ snd (snd (value r))
     = fst (fst answer) || negb (is_nil (WithStatementTrace (TestingKnobs cfg)))
  /\ List.filter (fun e => negb (is_span_event e)) (calls r)
     = [EvShouldCollectDiagnostics fingerprint;
        EvShouldSaveLogicalPlanDescription fingerprint implicitTxn].
Proof.
  intros Hmode. setup_cases ih cfg. cbn in Hmode. subst mode.
  cbn. destruct (ShouldCollectDiagnostics reg ctx fingerprint)
    as [[collect rid] done].
  destruct collect, consumer; cbn; repeat split.
Qed.

(** X4.  In every mode [Setup] stores the fingerprint, the
    implicit-transaction flag, the codec and the trace consumer of the
    testing knobs, asks the statistics once whether to save the plan and
    stores the answer; it never changes the output mode, the explain flags
    or what was recorded about the plan. *)
Theorem Setup_stores_and_keeps ih ctx cfg stats p reg fingerprint implicitTxn t :
  let r := Setup ih ctx cfg stats p reg fingerprint implicitTxn t in
  let ih' := fst (value r) in
  ih_fingerprint ih' = fingerprint
  /\ ih_implicitTxn ih' = implicitTxn
  /\ ih_codec ih' = Codec cfg
  /\ ih_withStatementTrace ih' = WithStatementTrace (TestingKnobs cfg)
  /\ ih_savePlanForStats ih'
     = shouldSaveLogicalPlanDescription stats fingerprint implicitTxn
  /\ ih_outputMode ih' = ih_outputMode ih
  /\ ih_explainFlags ih' = ih_explainFlags ih
  /\ ih_explainPlan ih' = ih_explainPlan ih
  /\ ih_distribution ih' = ih_distribution ih
  /\ ih_vectorized ih' = ih_vectorized ih
  /\ List.filter
       (fun e => match e with
                 | EvShouldSaveLogicalPlanDescription _ _ => true
                 | _ => false
                 end) (calls r)
     = [EvShouldSaveLogicalPlanDescription fingerprint implicitTxn].
Proof.
  setup_cases ih cfg. destruct mode; cbn.
  - destruct (ShouldCollectDiagnostics reg ctx fingerprint)
      as [[collect rid] done].
    destruct collect, consumer; cbn; repeat split.
  - destruct consumer; cbn; repeat split.
  - destruct cb, consumer; cbn; repeat split.
Qed.

(** X5.  [Setup] never clears discardRows: rows discarded on request
    ([SetDiscardRows]) stay discarded after [Setup] in every mode. *)
Theorem Setup_keeps_discardRows ih ctx cfg stats p reg fingerprint implicitTxn t :
  ShouldDiscardRows ih = true ->
  ShouldDiscardRows
    (fst (value (Setup ih ctx cfg stats p reg fingerprint implicitTxn t)))
  = true.
Proof.
  intros Hd. setup_cases ih cfg. cbn in Hd. subst dr. destruct mode; cbn.
  - destruct (ShouldCollectDiagnostics reg ctx fingerprint)
      as [[collect rid] done].
    destruct collect, consumer; reflexivity.
  - destruct consumer; reflexivity.
  - destruct cb, consumer; reflexivity.
Qed.

Section UnarmedPlan.
Context {E : Explain}.

(** X6.  When [Setup] returns needFinish=false it leaves the evaluation
    context and the original context untouched, but callers may still have
    to build the explain plan: [ShouldBuildExplainPlan] is then the
    statistics' answer.  A plan recorded afterwards is rendered by
    [PlanForStats] with the evaluation context the helper had before
    [Setup] (nil on a fresh helper). *)
Theorem Setup_unarmed_plan_for_stats ih ctx cfg stats p reg fingerprint
    implicitTxn t plan ctx' t' :
  let r := Setup ih ctx cfg stats p reg fingerprint implicitTxn t in
  let ih' := fst (value r) in
  snd (snd (value r)) = false ->
  ih_evalCtx ih' = ih_evalCtx ih
  /\ ih_origCtx ih' = ih_origCtx ih
  /\ ShouldBuildExplainPlan ih'
     = shouldSaveLogicalPlanDescription stats fingerprint implicitTxn
  /\ value (PlanForStats (RecordExplainPlan ih' plan) ctx' t')
     = let rendered :=
         emitExplain
           (NewOutputBuilder {| Verbose := false; ShowTypes := false;
                                HideValues := true |})
           (ih_evalCtx ih) (Codec cfg) plan (ih_distribution ih)
           (ih_vectorized ih) in
       match snd rendered with
       | Some _ => None
       | None => Some (BuildProtoTree (fst rendered))
       end.
Proof.
  setup_cases ih cfg. destruct mode; cbn.
  - destruct (ShouldCollectDiagnostics reg ctx fingerprint)
      as [[collect rid] done].
    destruct collect, consumer; cbn; intros Hn; try discriminate Hn.
    split; [reflexivity|]. split; [reflexivity|]. split.
    + unfold ShouldBuildExplainPlan. cbn. apply orb_false_r.
    + unfold PlanForStats. cbn.
      match goal with
      | |- context [emitExplain ?a ?b ?c ?d ?e ?f] =>
          destruct (emitExplain a b c d e f) as [ob [err|]]
      end; reflexivity.
  - destruct consumer; cbn; intros Hn; discriminate Hn.
  - destruct cb, consumer; cbn; intros Hn; discriminate Hn.
Qed.

(** X7.  [PlanForStats] never touches the span table.  Without a recorded
    plan it returns nil and calls nothing; with one, a render error gives
    nil and exactly one logged warning carrying the error, and a successful
    render gives the tree and logs nothing. *)
Theorem PlanForStats_outcome ih ctx t :
  let r := PlanForStats ih ctx t in
  spans r = t
  /\ match ih_explainPlan ih with
     | None => value r = None /\ calls r = []
     | Some plan =>
         let rendered :=
           emitExplain
             (NewOutputBuilder {| Verbose := false; ShowTypes := false;
                                  HideValues := true |})
             (ih_evalCtx ih) (ih_codec ih) plan (ih_distribution ih)
             (ih_vectorized ih) in
         match snd rendered with
         | Some err =>
             value r = None
             /\ calls r = [EvWarningf "unable to emit explain plan tree: %v" err]
         | None =>
             value r = Some (BuildProtoTree (fst rendered)) /\ calls r = []
         end
     end.
Proof.
  cbv zeta. unfold PlanForStats.
  destruct (ih_explainPlan ih) as [plan|]; [|repeat split].
  destruct (snd (emitExplain _ _ _ _ _ _)); repeat split.
Qed.

End UnarmedPlan.

(** ** What [Finish] does to the result, the consumer and the spans *)

Section FinishMore.
Context {E : Explain} {PT : PhaseTimer}.
Context {R : Type} {CR : RestrictedCommandResult R} {EB : ExplainBundle R}.

Lemma finishExplainPlan_skipped ih cfg sc (res : R) retErr :
  outputMode_eqb (ih_outputMode ih) explainAnalyzePlanOutput && is_nil retErr
  = false ->
  finishExplainPlan ih cfg sc res retErr = ret (res, retErr).
Proof. intros H. unfold finishExplainPlan. rewrite H. reflexivity. Qed.

(** The calls of [Finish] that touch the result are those of its two
    result-writing blocks. *)
Lemma touches_result_Finish ih cfg stats sc p ast raw (res : R) retErr t sp :
  ih_sp ih = Some sp ->
  let rb := finishBundle ih cfg p ast (recordingOf sp t) res retErr [] in
  List.filter touches_result
    (calls (Finish ih cfg stats sc p ast raw res retErr t))
  = List.filter touches_result (calls rb)
    ++ List.filter touches_result
         (calls (finishExplainPlan ih cfg sc (fst (value rb))
                   (snd (value rb)) [])).
Proof.
  intros Hsp rb.
  rewrite (Finish_armed ih cfg stats sc p ast raw res retErr t sp Hsp).
  cbv zeta. cbn [value calls fst snd]. fold rb.
  rewrite !List.filter_app.
  rewrite (filter_none touches_result (calls (finishTraceConsumer _ _ _ _)))
    by kind_of (finishTraceConsumer_kind ih (recordingOf sp t) raw).
  rewrite (filter_none touches_result (calls (finishStats _ _ _ _ _ _ _)))
    by kind_of (finishStats_kind ih stats p ast (recordingOf sp t)
                  (snd (value (finishExplainPlan ih cfg sc (fst (value rb))
                                 (snd (value rb)) [])))).
  cbn [List.filter touches_result is_result_event app].
  rewrite app_nil_r. reflexivity.
Qed.

Lemma touches_result_finishBundle ih cfg p ast trace (res : R) retErr :
  writesBundleResult ih retErr = false ->
  List.filter touches_result
    (calls (finishBundle ih cfg p ast trace res retErr [])) = [].
Proof.
  intros Hw. rewrite calls_finishBundle, Hw.
  destruct (ih_collectBundle ih), (ih_finishCollectionDiagnostics ih);
    reflexivity.
Qed.

(** X8.  In Unmodified mode [Finish] never reads or changes the statement
    result and returns the error it was given, whatever else it
    collects. *)
Theorem Finish_unmodified_leaves_result ih cfg stats sc p ast raw
    (res : R) retErr t :
  ih_outputMode ih = unmodifiedOutput ->
  let r := Finish ih cfg stats sc p ast raw res retErr t in
  value r = (res, retErr)
  /\ List.filter touches_result (calls r) = [].
Proof.
  intros Hmode. cbv zeta.
  assert (Hw : writesBundleResult ih retErr = false).
  { unfold writesBundleResult. rewrite Hmode. cbn [outputMode_eqb].
    rewrite andb_false_r. reflexivity. }
  assert (Hp : finishExplainPlan ih cfg sc res retErr = ret (res, retErr)).
  { apply finishExplainPlan_skipped. rewrite Hmode. reflexivity. }
  destruct (ih_sp ih) as [sp|] eqn:Hsp.
  - rewrite (touches_result_Finish _ _ _ _ _ _ _ _ _ _ sp Hsp).
    rewrite (Finish_armed ih cfg stats sc p ast raw res retErr t sp Hsp).
    cbv zeta. cbn [value fst snd].
    rewrite value_finishBundle, Hw. cbn [fst snd].
    rewrite Hp, value_ret, calls_ret, touches_result_finishBundle by exact Hw.
    split; reflexivity.
  - rewrite (Finish_nil_span ih cfg stats sc p ast raw res retErr t Hsp).
    split; reflexivity.
Qed.

(** X10.  On an armed helper [Finish] calls a registered trace consumer
    exactly once, with the span's recording and the raw statement text,
    whatever the mode, the bundle flag and the error; without a registered
    consumer it calls none. *)
Theorem Finish_calls_trace_consumer ih cfg stats sc p ast raw (res : R)
    retErr t sp :
  ih_sp ih = Some sp ->
  List.filter is_consumer_event
    (calls (Finish ih cfg stats sc p ast raw res retErr t))
  = match ih_withStatementTrace ih with
    | Some consumer => [EvWithStatementTrace consumer (recordingOf sp t) raw]
    | None => []
    end.
Proof.
  intros Hsp.
  rewrite (Finish_armed ih cfg stats sc p ast raw res retErr t sp Hsp).
  cbv zeta. cbn [value calls fst snd].
  set (trace := recordingOf sp t).
  set (rb := finishBundle ih cfg p ast trace res retErr []).
  set (rp := finishExplainPlan ih cfg sc (fst (value rb)) (snd (value rb)) []).
  rewrite !List.filter_app.
  rewrite (filter_none is_consumer_event (calls rb))
    by kind_of (finishBundle_kind ih cfg p ast trace res retErr).
  rewrite (filter_none is_consumer_event (calls rp))
    by kind_of (finishExplainPlan_kind ih cfg sc (fst (value rb))
                  (snd (value rb))).
  rewrite (filter_none is_consumer_event (calls (finishStats _ _ _ _ _ _ _)))
    by kind_of (finishStats_kind ih stats p ast trace (snd (value rp))).
  rewrite calls_finishTraceConsumer.
  destruct (ih_withStatementTrace ih); reflexivity.
Qed.

(** X11.  In EXPLAIN ANALYZE (DEBUG) mode, with collectBundle set and a nil
    error, what [Finish] returns (result and error) is exactly what
    [setExplainBundleResult] returns for the bundle just built; that is the
    only call touching the result, so no EXPLAIN ANALYZE (PLAN) rows are
    written. *)
Theorem Finish_debug_result ih cfg stats sc p ast raw (res : R) t sp :
  ih_sp ih = Some sp ->
  ih_collectBundle ih = true ->
  ih_outputMode ih = explainAnalyzeDebugOutput ->
  let r := Finish ih cfg stats sc p ast raw res None t in
  let bundle := bundleOf ih p (recordingOf sp t) in
  value r = setExplainBundleResult (ih_origCtx ih) res bundle cfg
  /\ List.filter touches_result (calls r)
     = [EvSetExplainBundleResult bundle (snd (value r))].
Proof.
  intros Hsp Hcb Hmode. cbv zeta.
  assert (Hw : writesBundleResult ih None = true).
  { unfold writesBundleResult. rewrite Hcb, Hmode. reflexivity. }
  rewrite (touches_result_Finish _ _ _ _ _ _ _ _ _ _ sp Hsp).
  rewrite (Finish_armed ih cfg stats sc p ast raw res None t sp Hsp).
  cbv zeta. cbn [value fst snd].
  rewrite value_finishBundle, Hw.
  rewrite finishExplainPlan_skipped
    by (rewrite Hmode; reflexivity).
  rewrite value_ret, calls_ret, app_nil_r.
  split; [destruct (setExplainBundleResult _ _ _ _); reflexivity|].
  rewrite calls_finishBundle, Hw, Hcb.
  destruct (ih_finishCollectionDiagnostics ih); reflexivity.
Qed.

(** X12.  In EXPLAIN ANALYZE (PLAN) mode, when the result already carries
    an error, [Finish] still resets the statement type and sets the
    columns but adds no row and returns nil. *)
Theorem Finish_plan_mode_result_error ih cfg stats sc p ast raw (res : R)
    t sp err :
  ih_sp ih = Some sp ->
  ih_outputMode ih = explainAnalyzePlanOutput ->
  Err (resultForPlan (ih_origCtx ih) res) = Some err ->
  let r := Finish ih cfg stats sc p ast raw res None t in
  value r = (resultForPlan (ih_origCtx ih) res, None)
  /\ List.filter touches_result (calls r)
     = [EvResetStmtType ExplainAnalyze; EvSetColumns ExplainPlanColumns;
        EvErr (Some err)]
  /\ rowsAdded (calls r) = [].
Proof.
  intros Hsp Hmode Herr. cbv zeta.
  assert (Hw : writesBundleResult ih None = false).
  { unfold writesBundleResult. rewrite Hmode. cbn [outputMode_eqb].
    rewrite andb_false_r. reflexivity. }
  assert (Hp : finishExplainPlan ih cfg sc res None
               = setExplainAnalyzePlanResult ih (ih_origCtx ih) res
                   (phaseTimesFor cfg sc)).
  { unfold finishExplainPlan. rewrite Hmode. reflexivity. }
  assert (Hcalls : List.filter touches_result
            (calls (Finish ih cfg stats sc p ast raw res None t))
          = [EvResetStmtType ExplainAnalyze; EvSetColumns ExplainPlanColumns;
             EvErr (Some err)]).
  { rewrite (touches_result_Finish _ _ _ _ _ _ _ _ _ _ sp Hsp).
    rewrite value_finishBundle, Hw. cbn [fst snd].
    rewrite touches_result_finishBundle by exact Hw.
    rewrite Hp, calls_setExplainAnalyzePlanResult, Herr. reflexivity. }
  split; [|split; [exact Hcalls|]].
  - rewrite (Finish_armed ih cfg stats sc p ast raw res None t sp Hsp).
    cbv zeta. cbn [value fst snd].
    rewrite value_finishBundle, Hw. cbn [fst snd].
    rewrite Hp, value_setExplainAnalyzePlanResult, Herr. reflexivity.
  - rewrite (Finish_armed ih cfg stats sc p ast raw res None t sp Hsp).
    cbv zeta. cbn [value calls fst snd].
    rewrite value_finishBundle, Hw. cbn [fst snd].
    rewrite !rowsAdded_app.
    rewrite (omap_none rowAccepted (calls (finishBundle _ _ _ _ _ _ _ _)))
      by kind_of (finishBundle_kind ih cfg p ast (recordingOf sp t) res None).
    rewrite (omap_none rowAccepted (calls (finishTraceConsumer _ _ _ _)))
      by kind_of (finishTraceConsumer_kind ih (recordingOf sp t) raw).
    rewrite (omap_none rowAccepted (calls (finishStats _ _ _ _ _ _ _)))
      by kind_of (finishStats_kind ih stats p ast (recordingOf sp t)
                    (snd (value (finishExplainPlan ih cfg sc res None [])))).
    rewrite Hp, calls_setExplainAnalyzePlanResult, Herr. reflexivity.
Qed.

(** X23.  [Finish] changes the span table only at the helper's own span:
    the table keeps its length, every other span is untouched, the span's
    recording is unchanged and its finish count goes up by one. *)
Theorem Finish_touches_only_its_span ih cfg stats sc p ast raw (res : R)
    retErr t sp :
  ih_sp ih = Some sp ->
  sp < length t ->
  let r := Finish ih cfg stats sc p ast raw res retErr t in
  length (spans r) = length t
  /\ (forall other, other <> sp -> spans r !! other = t !! other)
  /\ recordingOf sp (spans r) = recordingOf sp t
  /\ finishedCount sp (spans r) = S (finishedCount sp t).
Proof.
  intros Hsp Hlt. cbv zeta.
  rewrite (Finish_armed ih cfg stats sc p ast raw res retErr t sp Hsp).
  cbv zeta. cbn [spans fst snd].
  split; [apply length_alter|]. split.
  - intros other Hne. apply list_lookup_alter_ne. congruence.
  - split; [apply recordingOf_finish | apply finishedCount_finish; exact Hlt].
Qed.

(** X24.  Unless collectBundle is set, [Finish] builds and persists no
    bundle, calls no completion callback, increments no counter and does
    not write the EXPLAIN ANALYZE (DEBUG) result, in any mode. *)
Theorem Finish_without_collectBundle ih cfg stats sc p ast raw (res : R)
    retErr t :
  ih_collectBundle ih = false ->
  List.filter is_bundle_block_event
    (calls (Finish ih cfg stats sc p ast raw res retErr t)) = [].
Proof.
  intros Hcb. destruct (ih_sp ih) as [sp|] eqn:Hsp.
  - rewrite (Finish_armed ih cfg stats sc p ast raw res retErr t sp Hsp).
    cbv zeta. cbn [value calls fst snd].
    set (trace := recordingOf sp t).
    set (rb := finishBundle ih cfg p ast trace res retErr []).
    set (rp := finishExplainPlan ih cfg sc (fst (value rb)) (snd (value rb)) []).
    rewrite !List.filter_app.
    rewrite (filter_none is_bundle_block_event
               (calls (finishTraceConsumer _ _ _ _)))
      by kind_of (finishTraceConsumer_kind ih trace raw).
    rewrite (filter_none is_bundle_block_event (calls rp))
      by kind_of (finishExplainPlan_kind ih cfg sc (fst (value rb))
                    (snd (value rb))).
    rewrite (filter_none is_bundle_block_event
               (calls (finishStats _ _ _ _ _ _ _)))
      by kind_of (finishStats_kind ih stats p ast trace (snd (value rp))).
    subst rb. rewrite calls_finishBundle, Hcb. reflexivity.
  - rewrite (Finish_nil_span ih cfg stats sc p ast raw res retErr t Hsp).
    reflexivity.
Qed.

End FinishMore.

(** ** The rows of EXPLAIN ANALYZE (PLAN) *)

Section PlanRows.
Context {E : Explain} {PT : PhaseTimer}.
Context {R : Type} {CR : RestrictedCommandResult R} {EB : ExplainBundle R}.

(** The rows accepted by the loop are the rows before the first failed
    [AddRow]. *)
Lemma addRows_prefix ctx (res : R) rows :
  let r := addRows ctx res rows [] in
  rowsAdded (calls r) `prefix_of` map (fun row => [DString row]) rows
  /\ (snd (value r) <> None -> length (rowsAdded (calls r)) < length rows).
Proof.
  revert res. induction rows as [|row rows IH]; intros res; cbn [addRows].
  - split; [reflexivity | intros H; exfalso; apply H; reflexivity].
  - cbv zeta. rewrite calls_bind, value_bind, calls_emit, spans_emit.
    destruct (AddRow res ctx [DString row]) as [res' [e|]]; cbn [fst snd].
    + rewrite calls_ret, value_ret. split.
      * apply prefix_nil.
      * intros _. cbn [snd]. change (rowsAdded _) with (@nil Datums).
        cbn [length]. lia.
    + destruct (IH res') as [IH1 IH2]. cbv zeta in IH1, IH2.
      rewrite rowsAdded_app.
      change (rowsAdded [EvAddRow [DString row] None]) with [[DString row]].
      cbn [app map length]. split.
      * apply prefix_cons. exact IH1.
      * intros Hne. specialize (IH2 Hne). lia.
Qed.

(** The rows [Finish] adds are those of its EXPLAIN ANALYZE (PLAN)
    block. *)
Lemma rowsAdded_Finish ih cfg stats sc p ast raw (res : R) retErr t sp :
  ih_sp ih = Some sp ->
  let rb := finishBundle ih cfg p ast (recordingOf sp t) res retErr [] in
  rowsAdded (calls (Finish ih cfg stats sc p ast raw res retErr t))
  = rowsAdded (calls (finishExplainPlan ih cfg sc (fst (value rb))
                        (snd (value rb)) [])).
Proof.
  intros Hsp rb.
  rewrite (Finish_armed ih cfg stats sc p ast raw res retErr t sp Hsp).
  cbv zeta. cbn [value calls fst snd]. subst rb.
  rewrite !rowsAdded_app.
  rewrite (omap_none rowAccepted (calls (finishBundle _ _ _ _ _ _ _ _)))
    by kind_of (finishBundle_kind ih cfg p ast (recordingOf sp t) res retErr).
  rewrite (omap_none rowAccepted (calls (finishTraceConsumer _ _ _ _)))
    by kind_of (finishTraceConsumer_kind ih (recordingOf sp t) raw).
  rewrite (omap_none rowAccepted (calls (finishStats _ _ _ _ _ _ _)))
    by (eapply Forall_impl;
        [ apply finishStats_kind | intros [] ?; cbn in *; congruence ]).
  rewrite app_nil_r. reflexivity.
Qed.

Lemma rowsAdded_finishExplainPlan ih cfg sc (res : R) retErr :
  rowsAdded (calls (finishExplainPlan ih cfg sc res retErr []))
  = if outputMode_eqb (ih_outputMode ih) explainAnalyzePlanOutput
       && is_nil retErr
       && is_nil (Err (resultForPlan (ih_origCtx ih) res))
    then rowsAdded
           (calls (addRows (ih_origCtx ih) (resultForPlan (ih_origCtx ih) res)
                     (rowsForPlan ih (phaseTimesFor cfg sc)) []))
    else [].
Proof.
  unfold finishExplainPlan.
  destruct (outputMode_eqb _ _ && is_nil retErr); [|reflexivity].
  rewrite calls_setExplainAnalyzePlanResult, rowsAdded_app.
  cbn [andb]. destruct (is_nil (Err _)); reflexivity.
Qed.

(** Whatever fails, the rows accepted through [AddRow] are an initial part
    of the EXPLAIN ANALYZE (PLAN) rows. *)
Lemma rowsAdded_Finish_prefix ih cfg stats sc p ast raw (res : R) retErr t :
  rowsAdded (calls (Finish ih cfg stats sc p ast raw res retErr t))
  `prefix_of`
  map (fun row => [DString row]) (rowsForPlan ih (phaseTimesFor cfg sc)).
Proof.
  destruct (ih_sp ih) as [sp|] eqn:Hsp.
  - rewrite (rowsAdded_Finish _ _ _ _ _ _ _ _ _ _ sp Hsp). cbv zeta.
    rewrite rowsAdded_finishExplainPlan.
    destruct (_ && _ && _); [|apply prefix_nil].
    apply addRows_prefix.
  - rewrite (Finish_nil_span ih cfg stats sc p ast raw res retErr t Hsp).
    apply prefix_nil.
Qed.

(** Outside EXPLAIN ANALYZE (DEBUG) mode [setExplainBundleResult] is not
    called. *)
Lemma Finish_no_debug_write ih cfg stats sc p ast raw (res : R) retErr t :
  ih_outputMode ih <> explainAnalyzeDebugOutput ->
  List.filter is_SetExplainBundleResult
    (calls (Finish ih cfg stats sc p ast raw res retErr t)) = [].
Proof.
  intros Hmode.
  assert (Hw : writesBundleResult ih retErr = false).
  { unfold writesBundleResult. destruct (ih_outputMode ih);
      try congruence; cbn [outputMode_eqb]; rewrite andb_false_r;
      reflexivity. }
  destruct (ih_sp ih) as [sp|] eqn:Hsp.
  - rewrite (Finish_armed ih cfg stats sc p ast raw res retErr t sp Hsp).
    cbv zeta. cbn [value calls fst snd].
    rewrite !List.filter_app.
    rewrite (filter_none is_SetExplainBundleResult
               (calls (finishTraceConsumer _ _ _ _)))
      by kind_of (finishTraceConsumer_kind ih (recordingOf sp t) raw).
    rewrite (filter_none is_SetExplainBundleResult
               (calls (finishExplainPlan _ _ _ _ _ _)))
      by (eapply Forall_impl;
          [ apply finishExplainPlan_kind | intros [] ?; cbn in *; congruence ]).
    rewrite (filter_none is_SetExplainBundleResult
               (calls (finishStats _ _ _ _ _ _ _)))
      by (eapply Forall_impl;
          [ apply finishStats_kind | intros [] ?; cbn in *; congruence ]).
    rewrite calls_finishBundle, Hw.
    destruct (ih_collectBundle ih), (ih_finishCollectionDiagnostics ih);
      reflexivity.
  - rewrite (Finish_nil_span ih cfg stats sc p ast raw res retErr t Hsp).
    reflexivity.
Qed.

(** X13.  Outside EXPLAIN ANALYZE (DEBUG) mode, whatever fails, [Finish]
    never calls [setExplainBundleResult], and the rows the result accepts
    through [AddRow] are an initial part of the EXPLAIN ANALYZE (PLAN) rows
    (the plan rows, an empty row, the warning): rows are added in order
    and none is skipped. *)
Theorem Finish_rows_are_prefix ih cfg stats sc p ast raw (res : R) retErr t :
  ih_outputMode ih <> explainAnalyzeDebugOutput ->
  let r := Finish ih cfg stats sc p ast raw res retErr t in
  List.filter is_SetExplainBundleResult (calls r) = []
  /\ rowsAdded (calls r)
     `prefix_of`
     map (fun row => [DString row]) (rowsForPlan ih (phaseTimesFor cfg sc)).
Proof.
  intros Hmode. split.
  - apply Finish_no_debug_write. exact Hmode.
  - apply rowsAdded_Finish_prefix.
Qed.

(** In plan mode with a nil error, a result without error and no failed
    [AddRow], the accepted rows are all the rows offered. *)
Lemma Finish_plan_rows ih cfg stats sc p ast raw (res : R) t sp :
  ih_sp ih = Some sp ->
  ih_outputMode ih = explainAnalyzePlanOutput ->
  Err (resultForPlan (ih_origCtx ih) res) = None ->
  snd (value (Finish ih cfg stats sc p ast raw res None t)) = None ->
  rowsAdded (calls (Finish ih cfg stats sc p ast raw res None t))
  = map (fun row => [DString row]) (rowsForPlan ih (phaseTimesFor cfg sc)).
Proof.
  intros Hsp Hmode Herr Hret.
  assert (Hw : writesBundleResult ih None = false).
  { unfold writesBundleResult. rewrite Hmode. cbn [outputMode_eqb].
    rewrite andb_false_r. reflexivity. }
  rewrite (rowsAdded_Finish _ _ _ _ _ _ _ _ _ _ sp Hsp). cbv zeta.
  rewrite (Finish_armed ih cfg stats sc p ast raw res None t sp Hsp) in Hret.
  cbv zeta in Hret. cbn [value fst snd] in Hret.
  rewrite value_finishBundle, Hw in *. cbn [fst snd] in *.
  rewrite rowsAdded_finishExplainPlan, Hmode, Herr. cbn [outputMode_eqb andb is_nil].
  unfold finishExplainPlan in Hret. rewrite Hmode in Hret.
  cbn [outputMode_eqb andb is_nil] in Hret.
  rewrite value_setExplainAnalyzePlanResult, Herr in Hret.
  cbn [is_nil] in Hret.
  apply (addRows_spec (ih_origCtx ih) (resultForPlan (ih_origCtx ih) res)).
  exact Hret.
Qed.

(** X14.  EXPLAIN ANALYZE (PLAN) of a statement for which no plan was
    recorded still succeeds: the result receives exactly two rows, the
    empty row and the experimental warning. *)
Theorem Finish_plan_mode_without_plan ih cfg stats sc p ast raw (res : R) t sp :
  ih_sp ih = Some sp ->
  ih_outputMode ih = explainAnalyzePlanOutput ->
  ih_explainPlan ih = None ->
  Err (resultForPlan (ih_origCtx ih) res) = None ->
  snd (value (Finish ih cfg stats sc p ast raw res None t)) = None ->
  rowsAdded (calls (Finish ih cfg stats sc p ast raw res None t))
  = [[DString ""]; [DString experimentalWarning]].
Proof.
  intros Hsp Hmode Hplan Herr Hret.
  rewrite (Finish_plan_rows _ _ _ _ _ _ _ _ _ sp Hsp Hmode Herr Hret).
  unfold rowsForPlan, planRowsForExplainAnalyze. rewrite Hplan. reflexivity.
Qed.

(** X15.  A plan that cannot be rendered does not fail EXPLAIN ANALYZE
    (PLAN): the result receives three rows, the text
    "error emitting plan: " followed by the render error, the empty row
    and the warning, and no header line. *)
Theorem Finish_plan_mode_render_error ih cfg stats sc p ast raw (res : R) t sp
    plan ob err :
  ih_sp ih = Some sp ->
  ih_outputMode ih = explainAnalyzePlanOutput ->
  ih_explainPlan ih = Some plan ->
  emitExplain (explainAnalyzeHeader (ih_explainFlags ih) (phaseTimesFor cfg sc))
    (ih_evalCtx ih) (ih_codec ih) plan (ih_distribution ih) (ih_vectorized ih)
  = (ob, Some err) ->
  Err (resultForPlan (ih_origCtx ih) res) = None ->
  snd (value (Finish ih cfg stats sc p ast raw res None t)) = None ->
  rowsAdded (calls (Finish ih cfg stats sc p ast raw res None t))
  = [[DString ("error emitting plan: " +:+ err)]; [DString ""];
     [DString experimentalWarning]].
Proof.
  intros Hsp Hmode Hplan Hemit Herr Hret.
  rewrite (Finish_plan_rows _ _ _ _ _ _ _ _ _ sp Hsp Hmode Herr Hret).
  unfold rowsForPlan, planRowsForExplainAnalyze. rewrite Hplan, Hemit.
  reflexivity.
Qed.

(** The calls of the row loop: every row before the first failure is
    added, the failing row is the last one attempted. *)
Lemma addRows_calls ctx (res : R) rows :
  let r := addRows ctx res rows [] in
  match snd (value r) with
  | None => calls r = map (fun row => EvAddRow [DString row] None) rows
  | Some commErr =>
      exists accepted failed later,
        rows = accepted ++ failed :: later
        /\ calls r
           = map (fun row => EvAddRow [DString row] None) accepted
             ++ [EvAddRow [DString failed] (Some commErr)]
  end.
Proof.
  revert res. induction rows as [|row rows IH]; intros res; cbn [addRows].
  - reflexivity.
  - cbv zeta. rewrite calls_bind, value_bind, calls_emit, spans_emit.
    destruct (AddRow res ctx [DString row]) as [res' [e|]]; cbn [fst snd].
    + rewrite value_ret, calls_ret. cbn [snd].
      exists [], row, rows. split; reflexivity.
    + specialize (IH res'). cbv zeta in IH.
      destruct (snd (value (addRows ctx res' rows []))) as [e|].
      * destruct IH as (accepted & failed & later & Hrows & Hcalls).
        exists (row :: accepted), failed, later. split.
        -- rewrite Hrows. reflexivity.
        -- rewrite Hcalls. reflexivity.
      * rewrite IH. reflexivity.
Qed.

Lemma touches_result_added rows :
  List.filter touches_result
    (map (fun row => EvAddRow [DString row] None) rows)
  = map (fun row => EvAddRow [DString row] None) rows.
Proof.
  induction rows as [|row rows IH]; [reflexivity|].
  cbn [map List.filter touches_result is_result_event]. rewrite IH.
  reflexivity.
Qed.

Lemma rowsAdded_added rows :
  rowsAdded (map (fun row => EvAddRow [DString row] None) rows)
  = map (fun row => [DString row]) rows.
Proof.
  induction rows as [|row rows IH]; [reflexivity|].
  cbn [map]. change (rowsAdded (?e :: ?l)) with (rowsAdded ([e] ++ l)).
  rewrite rowsAdded_app, IH. reflexivity.
Qed.

(** In plan mode, given a nil error and a result without error when it is
    checked, what [Finish] does to the result is: reset, columns, the
    error check, then the row loop. *)
Lemma Finish_plan_mode_shape ih cfg stats sc p ast raw (res : R) t sp :
  ih_sp ih = Some sp ->
  ih_outputMode ih = explainAnalyzePlanOutput ->
  Err (resultForPlan (ih_origCtx ih) res) = None ->
  let r := Finish ih cfg stats sc p ast raw res None t in
  let ra := addRows (ih_origCtx ih) (resultForPlan (ih_origCtx ih) res)
              (rowsForPlan ih (phaseTimesFor cfg sc)) [] in
  value r = value ra
  /\ List.filter touches_result (calls r)
     = [EvResetStmtType ExplainAnalyze; EvSetColumns ExplainPlanColumns;
        EvErr None]
       ++ List.filter touches_result (calls ra)
  /\ rowsAdded (calls r) = rowsAdded (calls ra).
Proof.
  intros Hsp Hmode Herr. cbv zeta.
  assert (Hw : writesBundleResult ih None = false).
  { unfold writesBundleResult. rewrite Hmode. cbn [outputMode_eqb].
    rewrite andb_false_r. reflexivity. }
  assert (Hp : finishExplainPlan ih cfg sc res None
               = setExplainAnalyzePlanResult ih (ih_origCtx ih) res
                   (phaseTimesFor cfg sc)).
  { unfold finishExplainPlan. rewrite Hmode. reflexivity. }
  split; [|split].
  - rewrite (Finish_armed ih cfg stats sc p ast raw res None t sp Hsp).
    cbv zeta. cbn [value fst snd].
    rewrite value_finishBundle, Hw. cbn [fst snd].
    rewrite Hp, value_setExplainAnalyzePlanResult, Herr. reflexivity.
  - rewrite (touches_result_Finish _ _ _ _ _ _ _ _ _ _ sp Hsp).
    rewrite value_finishBundle, Hw. cbn [fst snd].
    rewrite touches_result_finishBundle by exact Hw.
    rewrite Hp, calls_setExplainAnalyzePlanResult, Herr.
    cbn [is_nil]. rewrite List.filter_app. reflexivity.
  - rewrite (rowsAdded_Finish _ _ _ _ _ _ _ _ _ _ sp Hsp). cbv zeta.
    rewrite value_finishBundle, Hw. cbn [fst snd].
    rewrite rowsAdded_finishExplainPlan, Hmode, Herr. reflexivity.
Qed.

(** C7 (amended).  On an armed helper in ExplainAnalyzePlan mode, given a
    nil error and a result that carries no error when [Finish] checks it
    (after the statement type is reset and the columns are set): when no
    [AddRow] fails, [Finish] returns nil and the result receives exactly
    the plan rows followed by an empty row and the experimental warning,
    plan line count + 2 rows; when an [AddRow] fails, [Finish] returns that
    error at once, the rows before the failing one are the only rows
    received and no later row is attempted. *)
Theorem explainAnalyzePlan_rows ih cfg stats sc p ast raw (res : R) t sp :
  ih_sp ih = Some sp ->
  ih_outputMode ih = explainAnalyzePlanOutput ->
  Err (resultForPlan (ih_origCtx ih) res) = None ->
  let r := Finish ih cfg stats sc p ast raw res None t in
  let planRows :=
    planRowsForExplainAnalyze ih
      (if DeterministicExplainAnalyze (TestingKnobs cfg)
       then deterministicPhaseTimes else sc_phaseTimes sc) in
  let rows := planRows ++ [""; experimentalWarning] in
  let checked := [EvResetStmtType ExplainAnalyze;
                  EvSetColumns ExplainPlanColumns; EvErr None] in
  match snd (value r) with
  | None =>
      List.filter touches_result (calls r)
      = checked ++ map (fun row => EvAddRow [DString row] None) rows
      /\ rowsAdded (calls r) = map (fun row => [DString row]) rows
      /\ length (rowsAdded (calls r)) = length planRows + 2
      /\ rowsAdded (calls r) !! length planRows = Some [DString ""]
      /\ rowsAdded (calls r) !! S (length planRows)
         = Some [DString experimentalWarning]
  | Some commErr =>
      exists accepted failed later,
        rows = accepted ++ failed :: later
        /\ List.filter touches_result (calls r)
           = checked
             ++ map (fun row => EvAddRow [DString row] None) accepted
             ++ [EvAddRow [DString failed] (Some commErr)]
        /\ rowsAdded (calls r) = map (fun row => [DString row]) accepted
  end.
Proof.
  intros Hsp Hmode Herr r planRows rows checked.
  destruct (Finish_plan_mode_shape ih cfg stats sc p ast raw res t sp
              Hsp Hmode Herr) as (Hv & Hc & Hr).
  cbv zeta in Hv, Hc, Hr. fold r in Hv, Hc, Hr.
  assert (Hrows : rowsForPlan ih (phaseTimesFor cfg sc) = rows).
  { unfold rowsForPlan, rows, planRows, phaseTimesFor.
    rewrite <- app_assoc. reflexivity. }
  rewrite Hrows in *.
  pose proof (addRows_calls (ih_origCtx ih)
                (resultForPlan (ih_origCtx ih) res) rows) as Ha.
  cbv zeta in Ha. rewrite <- Hv in Ha.
  destruct (snd (value r)) as [commErr|].
  - destruct Ha as (accepted & failed & later & Hsplit & Hcalls).
    exists accepted, failed, later. split; [exact Hsplit|].
    rewrite Hc, Hr, Hcalls. split.
    + rewrite List.filter_app, touches_result_added. reflexivity.
    + rewrite rowsAdded_app, rowsAdded_added. apply app_nil_r.
  - rewrite Hc, Hr, Ha, touches_result_added, rowsAdded_added.
    split; [reflexivity|]. split; [reflexivity|].
    unfold rows. rewrite map_app. cbn [map]. split.
    + rewrite length_app, length_map. cbn. reflexivity.
    + split.
      * rewrite lookup_app_r by (rewrite length_map; lia).
        rewrite length_map, Nat.sub_diag. reflexivity.
      * rewrite lookup_app_r by (rewrite length_map; lia).
        rewrite length_map.
        replace (S (length planRows) - length planRows) with 1 by lia.
        reflexivity.
Qed.

(** C9.  With the deterministic flag set, the rows [Finish] writes come
    from an output builder whose "planning time" and "execution time"
    fields are computed from the constant table [deterministicPhaseTimes].
    For any two [Finish] calls on armed helpers in ExplainAnalyzePlan mode
    that hold the same plan, whatever their statistics collectors (live
    phase times), traces, statistics, planners and results: each call's
    accepted rows are an initial part of the same rows, and all of them
    when the call is given nil, its result carries no error and it returns
    nil.  The whole outcome of a call does not depend on its statistics
    collector. *)
Theorem deterministic_phase_times ih1 ih2 cfg1 cfg2 stats1 stats2 sc1 sc2
    p1 p2 ast1 ast2 raw1 raw2 (res1 res2 : R) retErr1 retErr2 t1 t2 sp1 sp2 :
  DeterministicExplainAnalyze (TestingKnobs cfg1) = true ->
  DeterministicExplainAnalyze (TestingKnobs cfg2) = true ->
  ih_sp ih1 = Some sp1 ->
  ih_sp ih2 = Some sp2 ->
  ih_outputMode ih1 = explainAnalyzePlanOutput ->
  ih_outputMode ih2 = explainAnalyzePlanOutput ->
  samePlan ih1 ih2 ->
  let r1 := Finish ih1 cfg1 stats1 sc1 p1 ast1 raw1 res1 retErr1 t1 in
  let r2 := Finish ih2 cfg2 stats2 sc2 p2 ast2 raw2 res2 retErr2 t2 in
  let header :=
    AddField
      (AddField (NewOutputBuilder (ih_explainFlags ih1)) "planning time"
         (Duration_String
            (Duration_Round (getPlanningLatency deterministicPhaseTimes)
               Microsecond)))
      "execution time"
      (Duration_String
         (Duration_Round (getRunLatency deterministicPhaseTimes)
            Microsecond)) in
  let planRows :=
    match ih_explainPlan ih1 with
    | None => []
    | Some plan =>
        let rendered :=
          emitExplain header (ih_evalCtx ih1) (ih_codec ih1) plan
            (ih_distribution ih1) (ih_vectorized ih1) in
        match snd rendered with
        | Some err => ["error emitting plan: " +:+ err]
        | None => BuildStringRows (fst rendered)
        end
    end in
  let rows :=
    map (fun row => [DString row]) (planRows ++ [""; experimentalWarning]) in
  rowsAdded (calls r1) `prefix_of` rows
  /\ rowsAdded (calls r2) `prefix_of` rows
  /\ (retErr1 = None -> Err (resultForPlan (ih_origCtx ih1) res1) = None ->
      snd (value r1) = None -> rowsAdded (calls r1) = rows)
  /\ (retErr2 = None -> Err (resultForPlan (ih_origCtx ih2) res2) = None ->
      snd (value r2) = None -> rowsAdded (calls r2) = rows)
  /\ (forall sc, Finish ih1 cfg1 stats1 sc p1 ast1 raw1 res1 retErr1 t1 = r1)
  /\ (forall sc, Finish ih2 cfg2 stats2 sc p2 ast2 raw2 res2 retErr2 t2 = r2).
Proof.
  intros Hd1 Hd2 Hsp1 Hsp2 Hm1 Hm2 (Hplan & Hflags & Hectx & Hcodec & Hdist & Hvec)
    r1 r2 header planRows rows.
  assert (Hrows1 : forall sc,
            map (fun row => [DString row])
              (rowsForPlan ih1 (phaseTimesFor cfg1 sc)) = rows).
  { intros sc. unfold rowsForPlan, phaseTimesFor. rewrite Hd1, <- app_assoc.
    reflexivity. }
  assert (Hrows2 : forall sc,
            map (fun row => [DString row])
              (rowsForPlan ih2 (phaseTimesFor cfg2 sc)) = rows).
  { intros sc. unfold rowsForPlan, phaseTimesFor, planRowsForExplainAnalyze,
      explainAnalyzeHeader.
    rewrite Hd2, <- Hplan, <- Hflags, <- Hectx, <- Hcodec, <- Hdist, <- Hvec,
      <- app_assoc.
    reflexivity. }
  assert (Hsc : forall ih cfg stats sc sc' p ast raw (res : R) retErr t,
            DeterministicExplainAnalyze (TestingKnobs cfg) = true ->
            Finish ih cfg stats sc p ast raw res retErr t
            = Finish ih cfg stats sc' p ast raw res retErr t).
  { intros ih cfg stats sc sc' p ast raw res retErr t Hd.
    assert (Hp : forall res' err,
              finishExplainPlan ih cfg sc res' err
              = finishExplainPlan ih cfg sc' res' err).
    { intros res' err. unfold finishExplainPlan. rewrite Hd. reflexivity. }
    unfold Finish. destruct (ih_sp ih) as [sp|]; [|reflexivity].
    unfold bind. destruct (Span_Finish sp t) as [[u t1'] e1].
    destruct (Span_GetRecording sp t1') as [[trace t2'] e2].
    destruct (finishBundle ih cfg p ast trace res retErr t2') as [[rb t3] e3].
    destruct (finishTraceConsumer ih trace raw t3) as [[u' t4] e4].
    rewrite Hp. reflexivity. }
  split; [|split; [|split; [|split; [|split]]]].
  - rewrite <- (Hrows1 sc1). apply rowsAdded_Finish_prefix.
  - rewrite <- (Hrows2 sc2). apply rowsAdded_Finish_prefix.
  - intros -> Herr Hret. rewrite <- (Hrows1 sc1).
    apply (Finish_plan_rows _ _ _ _ _ _ _ _ _ sp1 Hsp1 Hm1 Herr Hret).
  - intros -> Herr Hret. rewrite <- (Hrows2 sc2).
    apply (Finish_plan_rows _ _ _ _ _ _ _ _ _ sp2 Hsp2 Hm2 Herr Hret).
  - intros sc. apply Hsc. exact Hd1.
  - intros sc. apply Hsc. exact Hd2.
Qed.

End PlanRows.

(** ** The network-bytes total *)

Lemma sumZ_Permutation l1 l2 : l1 ≡ₚ l2 -> sumZ l1 = sumZ l2.
Proof.
  induction 1 as [|x l1 l2 _ IH|x y l|l1 l2 l3 _ IH1 _ IH2].
  - reflexivity.
  - rewrite !sumZ_cons, IH. reflexivity.
  - rewrite !sumZ_cons. lia.
  - congruence.
Qed.

Lemma addBytesByNode_nonempty acc entry byNode :
  addBytesByNode acc (entry :: byNode)
  = wrap64 (acc + sumZ (map snd (entry :: byNode))).
Proof.
  change (addBytesByNode acc (entry :: byNode))
    with (addBytesByNode (wrap64 (acc + snd entry)) byNode).
  rewrite addBytesByNode_wrap. cbn [map]. rewrite sumZ_cons, Z.add_assoc.
  reflexivity.
Qed.

Lemma wrap64_range z : in_int64 (wrap64 z).
Proof.
  unfold in_int64, wrap64.
  pose proof (Z.mod_pos_bound (z + 2 ^ 63) (2 ^ 64) ltac:(lia)). lia.
Qed.

(** X18.  The total does not depend on the order in which the map of bytes
    by node is iterated, nor on the order of the flows: reordering either
    gives the same int64 total. *)
Theorem network_bytes_order_independent ast trace acc byNode1 byNode2
    flows1 flows2 :
  byNode1 ≡ₚ byNode2 ->
  flows1 ≡ₚ flows2 ->
  addBytesByNode acc byNode1 = addBytesByNode acc byNode2
  /\ value (analyzeFlows ast trace flows1 0%Z [])
     = value (analyzeFlows ast trace flows2 0%Z []).
Proof.
  intros Hn Hf. split.
  - destruct byNode1 as [|e1 l1], byNode2 as [|e2 l2].
    + reflexivity.
    + apply Permutation_nil_cons in Hn. contradiction.
    + symmetry in Hn. apply Permutation_nil_cons in Hn. contradiction.
    + rewrite !addBytesByNode_nonempty. f_equal. f_equal.
      apply sumZ_Permutation. apply fmap_Permutation. exact Hn.
  - rewrite !value_analyzeFlows_0. f_equal. unfold bytesOfFlows.
    apply sumZ_Permutation. apply fmap_Permutation. exact Hf.
Qed.

(** X19.  The total computed by the loop is always an int64 value, and it
    equals the exact sum of the flows' bytes exactly when that sum fits
    int64. *)
Theorem network_bytes_in_int64 ast trace flows :
  let total := value (analyzeFlows ast trace flows 0%Z []) in
  in_int64 total
  /\ (total = bytesOfFlows trace flows <-> in_int64 (bytesOfFlows trace flows)).
Proof.
  cbv zeta. rewrite value_analyzeFlows_0. split; [apply wrap64_range|].
  split.
  - intros H. rewrite <- H. apply wrap64_range.
  - apply wrap64_in_range.
Qed.

(** X17.  The loop calls [AddTrace] once per flow, calls
    [GetNetworkBytesSent] only on the flows whose [AddTrace] succeeded, and
    logs exactly one message per flow whose analysis failed. *)
Theorem analyzeFlows_calls_per_flow ast trace flows acc t :
  let evs := calls (analyzeFlows ast trace flows acc t) in
  length (List.filter is_AddTrace evs) = length flows
  /\ length (List.filter is_GetNetworkBytesSent evs)
     = length (List.filter (addTraceOk trace) flows)
  /\ length (List.filter is_VInfof evs)
     = length (List.filter (flowFails trace) flows).
Proof.
  cbv zeta. rewrite (stateless_calls _ t (stateless_analyzeFlows _ _ _ _)).
  revert acc. induction flows as [|flow flows IH]; intros acc.
  - repeat split.
  - cbn [analyzeFlows List.filter].
    rewrite calls_bind, calls_emit, spans_emit.
    destruct (AddTrace (analyzer flow) trace) as [err|] eqn:Ha.
    + assert (Hok : addTraceOk trace flow = false)
        by (unfold addTraceOk; rewrite Ha; reflexivity).
      assert (Hfail : flowFails trace flow = true)
        by (unfold flowFails, flowBytes; rewrite Ha; reflexivity).
      rewrite Hok, Hfail, calls_bind, calls_emit, spans_emit.
      destruct (IH acc) as (H1 & H2 & H3).
      cbn [app List.filter is_AddTrace is_GetNetworkBytesSent is_VInfof length].
      rewrite H1, H2, H3. repeat split.
    + assert (Hok : addTraceOk trace flow = true)
        by (unfold addTraceOk; rewrite Ha; reflexivity).
      rewrite Hok.
      destruct (GetNetworkBytesSent (analyzer flow) trace) as [err|byNode]
        eqn:Hg.
      * assert (Hfail : flowFails trace flow = true)
          by (unfold flowFails, flowBytes; rewrite Ha, Hg; reflexivity).
        rewrite Hfail, !calls_bind, !calls_emit, !spans_emit.
        destruct (IH acc) as (H1 & H2 & H3).
        cbn [app List.filter is_AddTrace is_GetNetworkBytesSent is_VInfof
               length].
        rewrite H1, H2, H3. repeat split.
      * assert (Hfail : flowFails trace flow = false)
          by (unfold flowFails, flowBytes; rewrite Ha, Hg; reflexivity).
        rewrite Hfail, calls_bind, calls_emit, spans_emit.
        destruct (IH (addBytesByNode acc byNode)) as (H1 & H2 & H3).
        cbn [app List.filter is_AddTrace is_GetNetworkBytesSent is_VInfof
               length].
        rewrite H1, H2, H3. repeat split.
Qed.

Section StatsMore.
Context {E : Explain} {PT : PhaseTimer}.
Context {R : Type} {CR : RestrictedCommandResult R} {EB : ExplainBundle R}.

(** X22.  When a statistics record is returned, taking its lock, recording
    and unlocking are the last three calls of [Finish], with nothing in
    between: every flow is analysed, and every other collaborator called,
    before the lock is taken. *)
Theorem Finish_lock_is_last ih cfg stats sc p ast raw (res : R) retErr t sp s :
  ih_sp ih = Some sp ->
  let r := Finish ih cfg stats sc p ast raw res retErr t in
  getStatsForStmt stats (ih_fingerprint ih) (ih_implicitTxn ih)
    (snd (value r)) false = Some s ->
  exists before,
    calls r
    = before
      ++ [EvLock s;
          EvRecord s 1
            (wrap64 (bytesOfFlows (recordingOf sp t)
                       (distSQLFlowInfos (curPlan p))));
          EvUnlock s]
    /\ List.filter is_record_event before = []
    /\ length (List.filter is_AddTrace before)
       = length (distSQLFlowInfos (curPlan p)).
Proof.
  intros Hsp r Hget. subst r.
  rewrite (Finish_armed ih cfg stats sc p ast raw res retErr t sp Hsp) in *.
  cbv zeta in *. cbn [value calls fst snd] in *.
  set (trace := recordingOf sp t) in *.
  set (rb := finishBundle ih cfg p ast trace res retErr []) in *.
  set (rp := finishExplainPlan ih cfg sc (fst (value rb)) (snd (value rb)) [])
    in *.
  rewrite calls_finishStats, Hget.
  set (an := calls (analyzeFlows ast trace (distSQLFlowInfos (curPlan p))
                      0%Z [])).
  exists ([EvSpanFinish sp; EvSpanGetRecording sp] ++ calls rb
          ++ calls (finishTraceConsumer ih trace raw []) ++ calls rp
          ++ EvGetStatsForStmt (ih_fingerprint ih) (ih_implicitTxn ih)
               (snd (value rp)) false :: an).
  split; [|split].
  - rewrite <- ?app_assoc. cbn [app]. rewrite <- ?app_assoc. reflexivity.
  - rewrite !List.filter_app. cbn [List.filter is_record_event app].
    rewrite (filter_none is_record_event (calls rb))
      by kind_of (finishBundle_kind ih cfg p ast trace res retErr).
    rewrite (filter_none is_record_event (calls (finishTraceConsumer _ _ _ _)))
      by kind_of (finishTraceConsumer_kind ih trace raw).
    rewrite (filter_none is_record_event (calls rp))
      by kind_of (finishExplainPlan_kind ih cfg sc (fst (value rb))
                    (snd (value rb))).
    rewrite (filter_none is_record_event an)
      by kind_of (calls_analyzeFlows_kind ast trace
                    (distSQLFlowInfos (curPlan p)) 0%Z).
    reflexivity.
  - rewrite !List.filter_app. cbn [List.filter is_AddTrace app].
    rewrite (filter_none is_AddTrace (calls rb))
      by kind_of (finishBundle_kind ih cfg p ast trace res retErr).
    rewrite (filter_none is_AddTrace (calls (finishTraceConsumer _ _ _ _)))
      by kind_of (finishTraceConsumer_kind ih trace raw).
    rewrite (filter_none is_AddTrace (calls rp))
      by kind_of (finishExplainPlan_kind ih cfg sc (fst (value rb))
                    (snd (value rb))).
    cbn [app]. subst an.
    revert Hget. generalize 0%Z. clear.
    intros acc _. revert acc.
    induction (distSQLFlowInfos (curPlan p)) as [|flow flows IH]; intros acc.
    + reflexivity.
    + cbn [analyzeFlows]. rewrite calls_bind, calls_emit, spans_emit.
      destruct (AddTrace (analyzer flow) trace) as [err|].
      * rewrite calls_bind, calls_emit, spans_emit. cbn. rewrite IH.
        reflexivity.
      * destruct (GetNetworkBytesSent (analyzer flow) trace) as [err|byNode].
        -- rewrite !calls_bind, !calls_emit, !spans_emit. cbn. rewrite IH.
           reflexivity.
        -- rewrite calls_bind, calls_emit, spans_emit. cbn. rewrite IH.
           reflexivity.
Qed.

(** X16.  With no distributed flows [Finish] analyses nothing and, when a
    statistics record is returned, records a total of 0 bytes (count 1). *)
Theorem Finish_no_flows_records_zero ih cfg stats sc p ast raw (res : R)
    retErr t sp :
  ih_sp ih = Some sp ->
  distSQLFlowInfos (curPlan p) = [] ->
  let r := Finish ih cfg stats sc p ast raw res retErr t in
  List.filter is_analysis_event (calls r) = []
  /\ List.filter is_record_event (calls r)
     = match getStatsForStmt stats (ih_fingerprint ih) (ih_implicitTxn ih)
               (snd (value r)) false with
       | Some s => [EvLock s; EvRecord s 1 0; EvUnlock s]
       | None => []
       end.
Proof.
  intros Hsp Hflows. cbv zeta.
  rewrite (Finish_armed ih cfg stats sc p ast raw res retErr t sp Hsp).
  cbv zeta. cbn [value calls fst snd].
  set (trace := recordingOf sp t).
  set (rb := finishBundle ih cfg p ast trace res retErr []).
  set (rp := finishExplainPlan ih cfg sc (fst (value rb)) (snd (value rb)) []).
  rewrite !List.filter_app.
  rewrite (filter_none is_analysis_event (calls rb))
    by kind_of (finishBundle_kind ih cfg p ast trace res retErr).
  rewrite (filter_none is_record_event (calls rb))
    by kind_of (finishBundle_kind ih cfg p ast trace res retErr).
  rewrite (filter_none is_analysis_event (calls (finishTraceConsumer _ _ _ _)))
    by kind_of (finishTraceConsumer_kind ih trace raw).
  rewrite (filter_none is_record_event (calls (finishTraceConsumer _ _ _ _)))
    by kind_of (finishTraceConsumer_kind ih trace raw).
  rewrite (filter_none is_analysis_event (calls rp))
    by kind_of (finishExplainPlan_kind ih cfg sc (fst (value rb))
                  (snd (value rb))).
  rewrite (filter_none is_record_event (calls rp))
    by kind_of (finishExplainPlan_kind ih cfg sc (fst (value rb))
                  (snd (value rb))).
  rewrite calls_finishStats, Hflows.
  destruct (getStatsForStmt _ _ _ _ _); split; reflexivity.
Qed.

End StatsMore.

(** ** From [Setup] to [Finish] *)

Section Lifecycle.
Context {E : Explain} {PT : PhaseTimer}.
Context {R : Type} {CR : RestrictedCommandResult R} {EB : ExplainBundle R}.

(** X20.  A statement in Unmodified mode for which the diagnostics registry
    requests a bundle, with a completion callback: [Setup] asks for
    [Finish], and [Finish] builds one bundle, persists it once under the
    fingerprint and request id of [Setup], calls the callback once,
    increments the telemetry counter once, leaves the statement result
    alone and returns the error it was given. *)
Theorem diagnostics_request_lifecycle ih ctx cfg stats p reg fingerprint
    implicitTxn t0 requestID done cfg' stats' sc p' ast raw (res : R) retErr t1 :
  ih_outputMode ih = unmodifiedOutput ->
  ShouldCollectDiagnostics reg ctx fingerprint = (true, requestID, Some done) ->
  let r0 := Setup ih ctx cfg stats p reg fingerprint implicitTxn t0 in
  let ih' := fst (value r0) in
  let r := Finish ih' cfg' stats' sc p' ast raw res retErr t1 in
  snd (snd (value r0)) = true
  /\ List.filter is_bundle_event (calls r)
     = [EvBuildStatementBundle (planStringForBundle ih')
          (recordingOf (length t0) t1) (ctx_Placeholders (extendedEvalCtx p'));
        EvBundleInsert fingerprint ast requestID;
        EvFinishCollectionDiagnostics done; EvTelemetryInc]
  /\ value r = (res, retErr)
  /\ List.filter touches_result (calls r) = [].
Proof.
  intros Hmode Hreg r0 ih' r.
  assert (Hfields :
    snd (snd (value r0)) = true
    /\ ih_sp ih' = Some (length t0)
    /\ ih_collectBundle ih' = true
    /\ ih_finishCollectionDiagnostics ih' = Some done
    /\ ih_diagRequestID ih' = requestID
    /\ ih_fingerprint ih' = fingerprint
    /\ ih_outputMode ih' = unmodifiedOutput).
  { subst r ih' r0. setup_cases ih cfg. cbn in Hmode. subst mode.
    cbn. rewrite Hreg. destruct consumer; cbn; repeat split. }
  destruct Hfields as (Hneed & Hsp & Hcb & Hdone & Hid & Hfp & Hmode').
  split; [exact Hneed|]. split.
  - subst r. rewrite (filter_bundle_Finish _ _ _ _ _ _ _ _ _ _ _ Hsp).
    rewrite Hcb, Hdone, Hid, Hfp. reflexivity.
  - assert (Hw : writesBundleResult ih' retErr = false).
    { unfold writesBundleResult. rewrite Hmode'. cbn [outputMode_eqb].
      rewrite andb_false_r. reflexivity. }
    assert (Hp : finishExplainPlan ih' cfg' sc res retErr = ret (res, retErr)).
    { apply finishExplainPlan_skipped. rewrite Hmode'. reflexivity. }
    subst r.
    rewrite (touches_result_Finish _ _ _ _ _ _ _ _ _ _ _ Hsp).
    rewrite (Finish_armed ih' cfg' stats' sc p' ast raw res retErr t1 _ Hsp).
    cbv zeta. cbn [value fst snd].
    rewrite value_finishBundle, Hw. cbn [fst snd].
    rewrite Hp, value_ret, calls_ret, touches_result_finishBundle by exact Hw.
    split; reflexivity.
Qed.

(** X21.  [Setup] never finishes a span.  Called again on a helper that is
    already armed, it starts a new span and forgets the old one: the old
    span's finish count stays as it was after [Setup], and also after the
    following [Finish], which finishes the new span only. *)
Theorem Setup_again_leaks_span ih ctx cfg stats p reg fingerprint implicitTxn t
    old cfg' stats' sc p' ast raw (res : R) retErr :
  ih_sp ih = Some old ->
  old < length t ->
  let r0 := Setup ih ctx cfg stats p reg fingerprint implicitTxn t in
  snd (snd (value r0)) = true ->
  let r := Finish (fst (value r0)) cfg' stats' sc p' ast raw res retErr
             (spans r0) in
  ih_sp (fst (value r0)) = Some (length t)
  /\ finishedCount old (spans r0) = finishedCount old t
  /\ finishedCount old (spans r) = finishedCount old t
  /\ finishedCount (length t) (spans r) = 1.
Proof.
  intros Hold Hlt r0 Harmed r.
  pose proof (Setup_span ih ctx cfg stats p reg fingerprint implicitTxn t)
    as HS.
  cbv zeta in HS. fold r0 in HS. rewrite Harmed in HS.
  destruct HS as (Hspans & Hsp).
  assert (Hold0 : finishedCount old (spans r0) = finishedCount old t).
  { unfold finishedCount. rewrite Hspans, lookup_app_l by exact Hlt.
    reflexivity. }
  assert (Hnew0 : finishedCount (length t) (spans r0) = 0).
  { unfold finishedCount. rewrite Hspans, lookup_app_r by lia.
    rewrite Nat.sub_diag. reflexivity. }
  subst r.
  rewrite (Finish_armed _ cfg' stats' sc p' ast raw res retErr _ _ Hsp).
  cbv zeta. cbn [spans fst snd].
  split; [exact Hsp|]. split; [exact Hold0|]. split.
  - rewrite finishedCount_finish_other by lia. exact Hold0.
  - rewrite finishedCount_finish, Hnew0; [reflexivity|].
    rewrite Hspans, length_app. cbn. lia.
Qed.

End Lifecycle.

(** * The further properties on sample executions *)

Lemma Setup_debug_mode_witness :
  let ih := SetOutputMode zeroHelper explainAnalyzeDebugOutput noFlags in
  let r := Setup ih Background (sampleCfg collectRegistry None false)
             knownStats (samplePlanner []) collectRegistry "SELECT _" true [] in
  ih_outputMode ih = explainAnalyzeDebugOutput
  /\ ShouldCollectBundle (fst (value r)) = true
  /\ ih_finishCollectionDiagnostics (fst (value r)) = None
  /\ calls r = [EvShouldSaveLogicalPlanDescription "SELECT _" true;
                EvStartSnowballTrace "traced statement" 0].
Proof.
  cbv zeta. split; [reflexivity|].
  destruct (Setup_debug_mode
              (SetOutputMode zeroHelper explainAnalyzeDebugOutput noFlags)
              Background (sampleCfg collectRegistry None false) knownStats
              (samplePlanner []) collectRegistry "SELECT _" true [] ltac:(reflexivity))
    as (H1 & _ & _ & _ & _ & H6 & H7).
  split; [exact H1|]. split; [exact H6 | exact H7].
Defined.

Lemma Setup_plan_mode_witness :
  let ih := SetOutputMode zeroHelper explainAnalyzePlanOutput noFlags in
  let r := Setup ih Background (sampleCfg collectRegistry None false)
             knownStats (samplePlanner []) collectRegistry "SELECT _" true [] in
  ih_outputMode ih = explainAnalyzePlanOutput
  /\ ShouldDiscardRows (fst (value r)) = true
  /\ ShouldBuildExplainPlan (fst (value r)) = true
  /\ ShouldCollectBundle (fst (value r)) = false.
Proof.
  cbv zeta. split; [reflexivity|].
  destruct (Setup_plan_mode
              (SetOutputMode zeroHelper explainAnalyzePlanOutput noFlags)
              Background (sampleCfg collectRegistry None false) knownStats
              (samplePlanner []) collectRegistry "SELECT _" true [] ltac:(reflexivity))
    as (H1 & H2 & H3 & _).
  split; [exact H1|]. split; [exact H2 | exact H3].
Defined.

Lemma Setup_unmodified_mode_witness :
  let r := Setup zeroHelper Background (sampleCfg collectRegistry None false)
             knownStats (samplePlanner []) collectRegistry "SELECT _" true [] in
  ih_outputMode zeroHelper = unmodifiedOutput
  /\ (ShouldCollectBundle (fst (value r)), ih_diagRequestID (fst (value r)),
      ih_finishCollectionDiagnostics (fst (value r))) = (true, 7%Z, Some 1)
  /\ snd (snd (value r)) = true.
Proof.
  cbv zeta. split; [reflexivity|].
  destruct (Setup_unmodified_mode zeroHelper Background
              (sampleCfg collectRegistry None false) knownStats
              (samplePlanner []) collectRegistry "SELECT _" true [] ltac:(reflexivity))
    as (H1 & _ & H3 & _).
  split; [exact H1 | exact H3].
Defined.

Lemma Setup_keeps_discardRows_witness :
  ShouldDiscardRows (SetDiscardRows zeroHelper) = true
  /\ ShouldDiscardRows
       (fst (value (Setup (SetDiscardRows zeroHelper) Background
                      (sampleCfg idleRegistry None false) knownStats
                      (samplePlanner []) idleRegistry "SELECT _" true [])))
     = true.
Proof.
  split; [reflexivity|].
  exact (Setup_keeps_discardRows (SetDiscardRows zeroHelper) Background
           (sampleCfg idleRegistry None false) knownStats (samplePlanner [])
           idleRegistry "SELECT _" true [] ltac:(reflexivity)).
Defined.

Lemma Setup_unarmed_plan_for_stats_witness :
  let r := Setup zeroHelper Background (sampleCfg idleRegistry None false)
             knownStats (samplePlanner []) idleRegistry "SELECT _" true [] in
  snd (snd (value r)) = false
  /\ ih_evalCtx (fst (value r)) = None
  /\ value (PlanForStats (RecordExplainPlan (fst (value r)) 2) Background [])
     = Some ["scan"; "scan"].
Proof.
  cbv zeta. split; [reflexivity|].
  destruct (Setup_unarmed_plan_for_stats (E:=lineExplain) zeroHelper Background
              (sampleCfg idleRegistry None false) knownStats (samplePlanner [])
              idleRegistry "SELECT _" true [] 2 Background [] ltac:(reflexivity))
    as (H1 & _ & _ & H4).
  split; [exact H1 | exact H4].
Defined.

Lemma Finish_unmodified_leaves_result_witness :
  ih_outputMode requestedHelper = unmodifiedOutput
  /\ value (Finish requestedHelper (sampleCfg collectRegistry None false)
              knownStats sampleCollector (samplePlanner sampleFlows)
              sampleStatement "SELECT 1" (emptyResult 5) None tracedSpans)
     = (emptyResult 5, None).
Proof.
  split; [reflexivity|].
  exact (proj1 (Finish_unmodified_leaves_result requestedHelper
                  (sampleCfg collectRegistry None false) knownStats
                  sampleCollector (samplePlanner sampleFlows) sampleStatement
                  "SELECT 1" (emptyResult 5) None tracedSpans ltac:(reflexivity))).
Defined.

Lemma Finish_calls_trace_consumer_witness :
  ih_sp consumerHelper = Some 0
  /\ List.filter is_consumer_event
       (calls (Finish consumerHelper (sampleCfg idleRegistry (Some 4) false)
                 knownStats sampleCollector (samplePlanner sampleFlows)
                 sampleStatement "SELECT 1" (emptyResult 5)
                 (Some "query error") tracedSpans))
     = [EvWithStatementTrace 4 (recordingOf 0 tracedSpans) "SELECT 1"].
Proof.
  split; [reflexivity|].
  exact (Finish_calls_trace_consumer consumerHelper
           (sampleCfg idleRegistry (Some 4) false) knownStats sampleCollector
           (samplePlanner sampleFlows) sampleStatement "SELECT 1"
           (emptyResult 5) (Some "query error") tracedSpans 0 ltac:(reflexivity)).
Defined.

Lemma Finish_debug_result_witness :
  let cfg := sampleCfg idleRegistry None false in
  let r := Finish debugHelper cfg knownStats sampleCollector
             (samplePlanner sampleFlows) sampleStatement "SELECT 1"
             (emptyResult 5) None tracedSpans in
  ih_sp debugHelper = Some 0
  /\ ih_collectBundle debugHelper = true
  /\ ih_outputMode debugHelper = explainAnalyzeDebugOutput
  /\ value r
     = setExplainBundleResult (ih_origCtx debugHelper) (emptyResult 5)
         (bundleOf debugHelper (samplePlanner sampleFlows)
            (recordingOf 0 tracedSpans)) cfg.
Proof.
  cbv zeta. repeat (split; [reflexivity|]).
  exact (proj1 (Finish_debug_result debugHelper
                  (sampleCfg idleRegistry None false) knownStats
                  sampleCollector (samplePlanner sampleFlows) sampleStatement
                  "SELECT 1" (emptyResult 5) tracedSpans 0
                  ltac:(reflexivity) ltac:(reflexivity) ltac:(reflexivity))).
Defined.

Lemma Finish_plan_mode_result_error_witness :
  let r := Finish planHelper (sampleCfg idleRegistry None false) knownStats
             sampleCollector (samplePlanner sampleFlows) sampleStatement
             "SELECT 1" (failedResult "division by zero") None tracedSpans in
  ih_sp planHelper = Some 0
  /\ ih_outputMode planHelper = explainAnalyzePlanOutput
  /\ Err (resultForPlan (ih_origCtx planHelper)
            (failedResult "division by zero")) = Some "division by zero"
  /\ snd (value r) = None
  /\ rowsAdded (calls r) = [].
Proof.
  cbv zeta. repeat (split; [reflexivity|]).
  destruct (Finish_plan_mode_result_error planHelper
              (sampleCfg idleRegistry None false) knownStats sampleCollector
              (samplePlanner sampleFlows) sampleStatement "SELECT 1"
              (failedResult "division by zero") tracedSpans 0
              "division by zero" ltac:(reflexivity) ltac:(reflexivity) ltac:(reflexivity)) as (_ & _ & H3).
  exact H3.
Defined.

Lemma Finish_touches_only_its_span_witness :
  ih_sp requestedHelper = Some 0
  /\ 0 < length tracedSpans
  /\ finishedCount 0
       (spans (Finish requestedHelper (sampleCfg collectRegistry None false)
                 knownStats sampleCollector (samplePlanner sampleFlows)
                 sampleStatement "SELECT 1" (emptyResult 5) None tracedSpans))
     = 1.
Proof.
  split; [reflexivity|]. split; [exact (le_n 1)|].
  destruct (Finish_touches_only_its_span requestedHelper
              (sampleCfg collectRegistry None false) knownStats sampleCollector
              (samplePlanner sampleFlows) sampleStatement "SELECT 1"
              (emptyResult 5) None tracedSpans 0 ltac:(reflexivity) (le_n 1))
    as (_ & _ & _ & H4).
  exact H4.
Defined.

Lemma Finish_without_collectBundle_witness :
  ih_collectBundle planHelper = false
  /\ List.filter is_bundle_block_event
       (calls (Finish planHelper (sampleCfg idleRegistry None false) knownStats
                 sampleCollector (samplePlanner sampleFlows) sampleStatement
                 "SELECT 1" (emptyResult 9) None tracedSpans)) = [].
Proof.
  split; [reflexivity|].
  exact (Finish_without_collectBundle planHelper
           (sampleCfg idleRegistry None false) knownStats sampleCollector
           (samplePlanner sampleFlows) sampleStatement "SELECT 1"
           (emptyResult 9) None tracedSpans ltac:(reflexivity)).
Defined.

Lemma Finish_plan_mode_without_plan_witness :
  let r := Finish planHelperNoPlan (sampleCfg idleRegistry None false)
             knownStats sampleCollector (samplePlanner sampleFlows)
             sampleStatement "SELECT 1" (emptyResult 9) None tracedSpans in
  ih_sp planHelperNoPlan = Some 0
  /\ ih_outputMode planHelperNoPlan = explainAnalyzePlanOutput
  /\ ih_explainPlan planHelperNoPlan = None
  /\ snd (value r) = None
  /\ rowsAdded (calls r)
     = [[DString ""]; [DString "WARNING: this statement is experimental!"]].
Proof.
  cbv zeta. repeat (split; [reflexivity|]).
  exact (Finish_plan_mode_without_plan planHelperNoPlan
           (sampleCfg idleRegistry None false) knownStats sampleCollector
           (samplePlanner sampleFlows) sampleStatement "SELECT 1"
           (emptyResult 9) tracedSpans 0
           ltac:(reflexivity) ltac:(reflexivity) ltac:(reflexivity) ltac:(reflexivity) ltac:(reflexivity)).
Defined.

Lemma Finish_plan_mode_render_error_witness :
  let r := Finish planHelperBadPlan (sampleCfg idleRegistry None false)
             knownStats sampleCollector (samplePlanner sampleFlows)
             sampleStatement "SELECT 1" (emptyResult 9) None tracedSpans in
  ih_sp planHelperBadPlan = Some 0
  /\ ih_explainPlan planHelperBadPlan = Some 0
  /\ snd (value r) = None
  /\ rowsAdded (calls r)
     = [[DString "error emitting plan: unsupported plan"]; [DString ""];
        [DString "WARNING: this statement is experimental!"]].
Proof.
  cbv zeta. repeat (split; [reflexivity|]).
  exact (Finish_plan_mode_render_error (E:=lineExplain) planHelperBadPlan
           (sampleCfg idleRegistry None false) knownStats sampleCollector
           (samplePlanner sampleFlows) sampleStatement "SELECT 1"
           (emptyResult 9) tracedSpans 0 0
           (explainAnalyzeHeader noFlags (sc_phaseTimes sampleCollector))
           "unsupported plan"
           ltac:(reflexivity) ltac:(reflexivity) ltac:(reflexivity) ltac:(reflexivity) ltac:(reflexivity) ltac:(reflexivity)).
Defined.

Lemma network_bytes_order_independent_witness :
  [(1%Z, 100%Z); (2%Z, 50%Z)] ≡ₚ [(2%Z, 50%Z); (1%Z, 100%Z)]
  /\ [goodFlow [(3%Z, 7%Z)]; badTraceFlow] ≡ₚ [badTraceFlow; goodFlow [(3%Z, 7%Z)]]
  /\ addBytesByNode 5%Z [(1%Z, 100%Z); (2%Z, 50%Z)]
     = addBytesByNode 5%Z [(2%Z, 50%Z); (1%Z, 100%Z)]
  /\ value (analyzeFlows sampleStatement [] [goodFlow [(3%Z, 7%Z)]; badTraceFlow]
              0%Z [])
     = value (analyzeFlows sampleStatement [] [badTraceFlow; goodFlow [(3%Z, 7%Z)]]
                0%Z []).
Proof.
  split; [apply perm_swap|]. split; [apply perm_swap|].
  exact (network_bytes_order_independent sampleStatement [] 5%Z
           [(1%Z, 100%Z); (2%Z, 50%Z)] [(2%Z, 50%Z); (1%Z, 100%Z)]
           [goodFlow [(3%Z, 7%Z)]; badTraceFlow]
           [badTraceFlow; goodFlow [(3%Z, 7%Z)]]
           (perm_swap _ _ _) (perm_swap _ _ _)).
Defined.

Lemma Finish_lock_is_last_witness :
  let r := Finish requestedHelper (sampleCfg collectRegistry None false)
             knownStats sampleCollector (samplePlanner sampleFlows)
             sampleStatement "SELECT 1" (emptyResult 5) None tracedSpans in
  ih_sp requestedHelper = Some 0
  /\ getStatsForStmt knownStats (ih_fingerprint requestedHelper)
       (ih_implicitTxn requestedHelper) (snd (value r)) false = Some 0
  /\ exists before,
       calls r = before ++ [EvLock 0; EvRecord 0 1 157; EvUnlock 0]
       /\ List.filter is_record_event before = []
       /\ length (List.filter is_AddTrace before) = 4.
Proof.
  cbv zeta. split; [reflexivity|]. split; [reflexivity|].
  exact (Finish_lock_is_last requestedHelper
           (sampleCfg collectRegistry None false) knownStats sampleCollector
           (samplePlanner sampleFlows) sampleStatement "SELECT 1"
           (emptyResult 5) None tracedSpans 0 0 ltac:(reflexivity) ltac:(reflexivity)).
Defined.

Lemma Finish_no_flows_records_zero_witness :
  let r := Finish requestedHelper (sampleCfg collectRegistry None false)
             knownStats sampleCollector (samplePlanner [])
             sampleStatement "SELECT 1" (emptyResult 5) None tracedSpans in
  ih_sp requestedHelper = Some 0
  /\ distSQLFlowInfos (curPlan (samplePlanner [])) = []
  /\ List.filter is_record_event (calls r)
     = [EvLock 0; EvRecord 0 1 0; EvUnlock 0].
Proof.
  cbv zeta. split; [reflexivity|]. split; [reflexivity|].
  exact (proj2 (Finish_no_flows_records_zero requestedHelper
                  (sampleCfg collectRegistry None false) knownStats
                  sampleCollector (samplePlanner []) sampleStatement
                  "SELECT 1" (emptyResult 5) None tracedSpans 0
                  ltac:(reflexivity) ltac:(reflexivity))).
Defined.

Lemma diagnostics_request_lifecycle_witness :
  let r0 := Setup zeroHelper Background (sampleCfg collectRegistry None false)
              knownStats (samplePlanner []) collectRegistry "SELECT 1" true [] in
  let r := Finish (fst (value r0)) (sampleCfg collectRegistry None false)
             knownStats sampleCollector (samplePlanner []) sampleStatement
             "SELECT 1" (emptyResult 5) None tracedSpans in
  ih_outputMode zeroHelper = unmodifiedOutput
  /\ ShouldCollectDiagnostics collectRegistry Background "SELECT 1"
     = (true, 7%Z, Some 1)
  /\ List.filter is_bundle_event (calls r)
     = [EvBuildStatementBundle "" (recordingOf 0 tracedSpans) ["$1"];
        EvBundleInsert "SELECT 1" sampleStatement 7%Z;
        EvFinishCollectionDiagnostics 1; EvTelemetryInc]
  /\ value r = (emptyResult 5, None).
Proof.
  cbv zeta. split; [reflexivity|]. split; [reflexivity|].
  destruct (diagnostics_request_lifecycle zeroHelper Background
              (sampleCfg collectRegistry None false) knownStats
              (samplePlanner []) collectRegistry "SELECT 1" true [] 7%Z 1
              (sampleCfg collectRegistry None false) knownStats sampleCollector
              (samplePlanner []) sampleStatement "SELECT 1" (emptyResult 5)
              None tracedSpans ltac:(reflexivity) ltac:(reflexivity)) as (_ & H2 & H3 & _).
  split; [exact H2 | exact H3].
Defined.

Lemma Setup_again_leaks_span_witness :
  let r0 := Setup requestedHelper Background
              (sampleCfg collectRegistry None false) knownStats
              (samplePlanner []) collectRegistry "SELECT 2" true tracedSpans in
  let r := Finish (fst (value r0)) (sampleCfg collectRegistry None false)
             knownStats sampleCollector (samplePlanner []) sampleStatement
             "SELECT 2" (emptyResult 5) None (spans r0) in
  ih_sp requestedHelper = Some 0
  /\ 0 < length tracedSpans
  /\ snd (snd (value r0)) = true
  /\ finishedCount 0 (spans r) = 0
  /\ finishedCount 1 (spans r) = 1.
Proof.
  cbv zeta. split; [reflexivity|]. split; [exact (le_n 1)|].
  split; [reflexivity|].
  destruct (Setup_again_leaks_span requestedHelper Background
              (sampleCfg collectRegistry None false) knownStats
              (samplePlanner []) collectRegistry "SELECT 2" true tracedSpans 0
              (sampleCfg collectRegistry None false) knownStats sampleCollector
              (samplePlanner []) sampleStatement "SELECT 2" (emptyResult 5)
              None ltac:(reflexivity) (le_n 1) ltac:(reflexivity)) as (_ & _ & H3 & H4).
  split; [exact H3 | exact H4].
Defined.

(** ** The EXPLAIN ANALYZE (PLAN) rows on sample runs *)

(** With a connection that accepts nine rows the three plan lines come
    with their two header lines, the empty row and the warning; with a
    connection that breaks after one row the loop stops at the second. *)
Lemma explainAnalyzePlan_rows_witness :
  let cfg := sampleCfg idleRegistry None true in
  let run conn :=
    Finish planHelper cfg knownStats sampleCollector
      (samplePlanner sampleFlows) sampleStatement "SELECT 1"
      (emptyResult conn) None tracedSpans in
  let rows :=
    planRowsForExplainAnalyze planHelper deterministicPhaseTimes
    ++ [""; experimentalWarning] in
  let checked := [EvResetStmtType ExplainAnalyze;
                  EvSetColumns ExplainPlanColumns; EvErr None] in
  ih_sp planHelper = Some 0
  /\ ih_outputMode planHelper = explainAnalyzePlanOutput
  /\ Err (resultForPlan (ih_origCtx planHelper) (emptyResult 9)) = None
  /\ Err (resultForPlan (ih_origCtx planHelper) (emptyResult 1)) = None
  /\ snd (value (run 9)) = None
  /\ rowsAdded (calls (run 9))
     = [[DString "planning time: 11µs"]; [DString "execution time: 100µs"];
        [DString "scan"]; [DString "scan"]; [DString "scan"];
        [DString ""]; [DString "WARNING: this statement is experimental!"]]
  /\ length (rowsAdded (calls (run 9))) = 5 + 2
  /\ snd (value (run 1)) = Some "write failed: connection closed"
  /\ (exists accepted failed later,
        rows = accepted ++ failed :: later
        /\ List.filter touches_result (calls (run 1))
           = checked
             ++ map (fun row => EvAddRow [DString row] None) accepted
             ++ [EvAddRow [DString failed]
                   (Some "write failed: connection closed")]
        /\ rowsAdded (calls (run 1))
           = map (fun row => [DString row]) accepted).
Proof.
  cbv zeta. do 5 (split; [reflexivity|]).
  pose proof (explainAnalyzePlan_rows planHelper
                (sampleCfg idleRegistry None true) knownStats sampleCollector
                (samplePlanner sampleFlows) sampleStatement "SELECT 1"
                (emptyResult 9) tracedSpans 0
                ltac:(reflexivity) ltac:(reflexivity) ltac:(reflexivity))
    as H9.
  pose proof (explainAnalyzePlan_rows planHelper
                (sampleCfg idleRegistry None true) knownStats sampleCollector
                (samplePlanner sampleFlows) sampleStatement "SELECT 1"
                (emptyResult 1) tracedSpans 0
                ltac:(reflexivity) ltac:(reflexivity) ltac:(reflexivity))
    as H1.
  split; [exact (proj1 (proj2 H9))|].
  split; [exact (proj1 (proj2 (proj2 H9)))|].
  split; [reflexivity|].
  exact H1.
Defined.

(** The client connection breaks on the second row: the result receives
    one row, not plan line count + 2. *)
Lemma explainAnalyzePlan_broken_connection_counterexample :
  let cfg := sampleCfg idleRegistry None true in
  let r := Finish planHelper cfg knownStats sampleCollector
             (samplePlanner sampleFlows) sampleStatement "SELECT 1"
             (emptyResult 1) None tracedSpans in
  let planRows := planRowsForExplainAnalyze planHelper deterministicPhaseTimes in
  ih_sp planHelper = Some 0
  /\ ih_outputMode planHelper = explainAnalyzePlanOutput
  /\ Err (emptyResult 1) = None
  /\ Err (resultForPlan (ih_origCtx planHelper) (emptyResult 1)) = None
  /\ planRows
     = ["planning time: 11µs"; "execution time: 100µs";
        "scan"; "scan"; "scan"]
  /\ snd (value r) = Some "write failed: connection closed"
  /\ rowsAdded (calls r) = [[DString "planning time: 11µs"]]
  /\ br_rows (fst (value r)) = [[DString "planning time: 11µs"]]
  /\ length (br_rows (fst (value r))) <> length planRows + 2.
Proof.
  cbv zeta. repeat (split; [reflexivity|]). discriminate.
Qed.

(** Two runs on the same plan, with different helpers, statistics
    collectors, traces, planners and results, write the same rows. *)
Lemma deterministic_phase_times_witness :
  let cfg1 := sampleCfg idleRegistry None true in
  let cfg2 := sampleCfg collectRegistry (Some 4) true in
  let r1 := Finish planHelper cfg1 knownStats sampleCollector
              (samplePlanner sampleFlows) sampleStatement "SELECT 1"
              (emptyResult 9) None tracedSpans in
  let r2 := Finish otherPlanHelper cfg2 freshStats otherCollector
              (samplePlanner []) (SQLStatement "SELECT 2 FROM t")
              "SELECT 2 FROM t" (emptyResult 20) None otherSpans in
  let r3 := Finish otherPlanHelper cfg2 freshStats otherCollector
              (samplePlanner []) (SQLStatement "SELECT 2 FROM t")
              "SELECT 2 FROM t" (emptyResult 2) None otherSpans in
  let rows :=
    [[DString "planning time: 11µs"]; [DString "execution time: 100µs"];
     [DString "scan"]; [DString "scan"]; [DString "scan"];
     [DString ""]; [DString "WARNING: this statement is experimental!"]] in
  DeterministicExplainAnalyze (TestingKnobs cfg1) = true
  /\ DeterministicExplainAnalyze (TestingKnobs cfg2) = true
  /\ ih_sp planHelper = Some 0
  /\ ih_sp otherPlanHelper = Some 0
  /\ ih_outputMode planHelper = explainAnalyzePlanOutput
  /\ ih_outputMode otherPlanHelper = explainAnalyzePlanOutput
  /\ samePlan planHelper otherPlanHelper
  /\ planHelper <> otherPlanHelper
  /\ rowsAdded (calls r1) = rows
  /\ rowsAdded (calls r2) = rows
  /\ rowsAdded (calls r3) `prefix_of` rows
  /\ (forall sc,
        Finish planHelper cfg1 knownStats sc (samplePlanner sampleFlows)
          sampleStatement "SELECT 1" (emptyResult 9) None tracedSpans = r1).
Proof.
  cbv zeta. repeat (split; [reflexivity|]).
  split; [repeat split|]. split; [discriminate|].
  destruct (deterministic_phase_times planHelper otherPlanHelper
              (sampleCfg idleRegistry None true)
              (sampleCfg collectRegistry (Some 4) true)
              knownStats freshStats sampleCollector otherCollector
              (samplePlanner sampleFlows) (samplePlanner [])
              sampleStatement (SQLStatement "SELECT 2 FROM t")
              "SELECT 1" "SELECT 2 FROM t"
              (emptyResult 9) (emptyResult 20) None None
              tracedSpans otherSpans 0 0
              ltac:(reflexivity) ltac:(reflexivity) ltac:(reflexivity)
              ltac:(reflexivity) ltac:(reflexivity) ltac:(reflexivity)
              ltac:(repeat split))
    as (_ & _ & H1 & H2 & Hsc & _).
  destruct (deterministic_phase_times planHelper otherPlanHelper
              (sampleCfg idleRegistry None true)
              (sampleCfg collectRegistry (Some 4) true)
              knownStats freshStats sampleCollector otherCollector
              (samplePlanner sampleFlows) (samplePlanner [])
              sampleStatement (SQLStatement "SELECT 2 FROM t")
              "SELECT 1" "SELECT 2 FROM t"
              (emptyResult 9) (emptyResult 2) None None
              tracedSpans otherSpans 0 0
              ltac:(reflexivity) ltac:(reflexivity) ltac:(reflexivity)
              ltac:(reflexivity) ltac:(reflexivity) ltac:(reflexivity)
              ltac:(repeat split))
    as (_ & H3 & _).
  split; [exact (H1 eq_refl ltac:(reflexivity) ltac:(reflexivity))|].
  split; [exact (H2 eq_refl ltac:(reflexivity) ltac:(reflexivity))|].
  split; [exact H3 | exact Hsc].
Defined.

(** Without the flag the header rows follow the live phase times. *)
Example live_phase_times_show :
  rowsAdded (calls (Finish planHelper (sampleCfg idleRegistry None false)
                      knownStats otherCollector
                      (samplePlanner sampleFlows) sampleStatement "SELECT 1"
                      (emptyResult 2) None tracedSpans))
  = [[DString "planning time: 0s"]; [DString "execution time: 42µs"]].
Proof. reflexivity. Qed.

Lemma Finish_rows_are_prefix_witness :
  let cfg := sampleCfg idleRegistry None true in
  let r := Finish planHelper cfg knownStats sampleCollector
             (samplePlanner sampleFlows) sampleStatement "SELECT 1"
             (emptyResult 4) None tracedSpans in
  ih_outputMode planHelper <> explainAnalyzeDebugOutput
  /\ rowsAdded (calls r)
     = [[DString "planning time: 11µs"]; [DString "execution time: 100µs"];
        [DString "scan"]; [DString "scan"]]
  /\ List.filter is_SetExplainBundleResult (calls r) = []
  /\ rowsAdded (calls r)
     `prefix_of`
     map (fun row => [DString row])
       (rowsForPlan planHelper (phaseTimesFor cfg sampleCollector)).
Proof.
  cbv zeta. split; [discriminate|]. split; [reflexivity|].
  exact (Finish_rows_are_prefix planHelper (sampleCfg idleRegistry None true)
           knownStats sampleCollector (samplePlanner sampleFlows)
           sampleStatement "SELECT 1" (emptyResult 4) None tracedSpans
           ltac:(discriminate)).
Defined.
